(** * Alexupport: the orchestration pipeline of the product-support agent

    A shallow embedding of the Python sources under [src/agent] and
    [src/utils]: the text client ([llm_client.py]), the token log
    ([utils.py]), the micro-agents (refiner, retriever, answerability
    checker, answer generator, follow-up generator), the orchestrator
    ([alexupport_agent.py]) and the pure parts of the chat front-end
    ([streamlit_app.py]).

    Conventions.
    - A Python [str] is a [string]: a sequence of Unicode code points.
      Whitespace ([str.isspace], [str.strip], [str.split], [\s]), case
      ([str.upper]) and printability ([repr]) follow the tables of
      CPython 3.11 (Unicode 14.0). String literals of this file are read
      as UTF-8.
    - Calls that leave the process (chat model, embedding model, vector
      index, file system, clock) are answered by a [World] of oracles,
      indexed by how many calls of that kind were made before.
    - Python exceptions are values: a computation returns [Ok v] or
      [Raise e] together with the new state. *)

From Stdlib Require Import NArith QArith Decimal Strings.Byte.
From stdpp Require Import gmap list.

Local Open Scope stdpp_scope.

(** ** Python strings *)

Declare Scope pystr_scope.
Delimit Scope pystr_scope with pystr.
Declare Scope pychar_scope.
Delimit Scope pychar_scope with char.

Module PyStr.

Local Open Scope N_scope.

Definition codepoint : Set := N.

Inductive string : Set :=
| EmptyString
| String (c : codepoint) (s : string).

Bind Scope pystr_scope with string.

(** [a + b] *)
Fixpoint append (a b : string) : string :=
  match a with
  | EmptyString => b
  | String c a' => String c (append a' b)
  end.

(** [a == b] *)
Fixpoint eqb (a b : string) : bool :=
  match a, b with
  | EmptyString, EmptyString => true
  | String c a', String d b' => (c =? d) && eqb a' b'
  | _, _ => false
  end.

Fixpoint of_list (l : list codepoint) : string :=
  match l with
  | [] => EmptyString
  | c :: l' => String c (of_list l')
  end.

Fixpoint to_list (s : string) : list codepoint :=
  match s with
  | EmptyString => []
  | String c s' => c :: to_list s'
  end.

(** Reading a literal: UTF-8 to code points. A byte that does not start
    a well-formed sequence stands for itself. *)
Definition continuation (n : N) : bool := (128 <=? n) && (n <? 192).

Fixpoint decode_utf8 (l : list byte) : string :=
  match l with
  | [] => EmptyString
  | b0 :: r0 =>
      let n0 := Byte.to_N b0 in
      let alone := String n0 (decode_utf8 r0) in
      if n0 <? 128 then alone
      else
        match r0 with
        | [] => alone
        | b1 :: r1 =>
            let n1 := Byte.to_N b1 in
            if (192 <=? n0) && (n0 <? 224) && continuation n1
            then String ((n0 - 192) * 64 + (n1 - 128)) (decode_utf8 r1)
            else
              match r1 with
              | [] => alone
              | b2 :: r2 =>
                  let n2 := Byte.to_N b2 in
                  if (224 <=? n0) && (n0 <? 240) && continuation n1 && continuation n2
                  then String (((n0 - 224) * 64 + (n1 - 128)) * 64 + (n2 - 128))
                         (decode_utf8 r2)
                  else
                    match r2 with
                    | [] => alone
                    | b3 :: r3 =>
                        let n3 := Byte.to_N b3 in
                        if (240 <=? n0) && (n0 <? 248) && continuation n1
                           && continuation n2 && continuation n3
                        then String ((((n0 - 240) * 64 + (n1 - 128)) * 64 + (n2 - 128)) * 64
                                     + (n3 - 128))
                               (decode_utf8 r3)
                        else alone
                    end
              end
        end
  end.

Definition byte_of (n : N) : byte :=
  match Byte.of_N (n mod 256) with
  | Some b => b
  | None => Byte.x00
  end.

(** Showing a literal: code points to UTF-8. *)
Definition encode_codepoint (c : codepoint) : list byte :=
  if c <? 128 then [byte_of c]
  else if c <? 2048 then [byte_of (192 + c / 64); byte_of (128 + c mod 64)]
  else if c <? 65536
       then [byte_of (224 + c / 4096); byte_of (128 + (c / 64) mod 64);
             byte_of (128 + c mod 64)]
  else [byte_of (240 + c / 262144); byte_of (128 + (c / 4096) mod 64);
        byte_of (128 + (c / 64) mod 64); byte_of (128 + c mod 64)].

Fixpoint encode_utf8 (s : string) : list byte :=
  match s with
  | EmptyString => []
  | String c s' => encode_codepoint c ++ encode_utf8 s'
  end.

String Notation string decode_utf8 encode_utf8 : pystr_scope.

Infix "+:+" := append (at level 60, right associativity) : pystr_scope.

(** Character literals: one character, or its code as three decimal
    digits. *)
Definition digit (n : N) : bool := (48 <=? n) && (n <=? 57).

Definition char_of_literal (l : list byte) : option N :=
  match decode_utf8 l with
  | String c EmptyString => Some c
  | String a (String b (String c EmptyString)) =>
      if digit a && digit b && digit c
      then Some ((a - 48) * 100 + (b - 48) * 10 + (c - 48))
      else None
  | _ => None
  end.

Definition literal_of_char (c : N) : list byte :=
  if (32 <=? c) && (c <? 127) then [byte_of c]
  else if c <? 32
       then [byte_of 48; byte_of (48 + c / 10); byte_of (48 + c mod 10)]
  else encode_codepoint c.

String Notation N char_of_literal literal_of_char : pychar_scope.

Local Open Scope pystr_scope.

Definition nl : string := String 10 "".
Definition dq : string := String 34 "".
Definition sq : string := String 39 "".
Definition bs : string := String 92 "".

(** [str.isspace] on one character: the code points for which
    [Py_UNICODE_ISSPACE] holds. [str.strip], [str.split] and the class
    [\s] of a [str] pattern use the same set. *)
Definition isspace (c : codepoint) : bool :=
  ((9 <=? c) && (c <=? 13)) || ((28 <=? c) && (c <=? 32))
  || (c =? 133) || (c =? 160) || (c =? 5760)
  || ((8192 <=? c) && (c <=? 8202))
  || (c =? 8232) || (c =? 8233) || (c =? 8239) || (c =? 8287) || (c =? 12288).

(** The code points above 127 that [str.upper] changes, each with what
    it becomes (one to three code points). *)
Definition upper_table : list (codepoint * list codepoint) :=
  [
    (181, [924]); (223, [83; 83]); (224, [192]); (225, [193]); (226, [194]); (227, [195]); (228,
    [196]); (229, [197]); (230, [198]); (231, [199]); (232, [200]); (233, [201]); (234, [202]);
    (235, [203]); (236, [204]); (237, [205]); (238, [206]); (239, [207]); (240, [208]); (241,
    [209]); (242, [210]); (243, [211]); (244, [212]); (245, [213]); (246, [214]); (248, [216]);
    (249, [217]); (250, [218]); (251, [219]); (252, [220]); (253, [221]); (254, [222]); (255,
    [376]); (257, [256]); (259, [258]); (261, [260]); (263, [262]); (265, [264]); (267, [266]);
    (269, [268]); (271, [270]); (273, [272]); (275, [274]); (277, [276]); (279, [278]); (281,
    [280]); (283, [282]); (285, [284]); (287, [286]); (289, [288]); (291, [290]); (293, [292]);
    (295, [294]); (297, [296]); (299, [298]); (301, [300]); (303, [302]); (305, [73]); (307,
    [306]); (309, [308]); (311, [310]); (314, [313]); (316, [315]); (318, [317]); (320, [319]);
    (322, [321]); (324, [323]); (326, [325]); (328, [327]); (329, [700; 78]); (331, [330]);
    (333, [332]); (335, [334]); (337, [336]); (339, [338]); (341, [340]); (343, [342]); (345,
    [344]); (347, [346]); (349, [348]); (351, [350]); (353, [352]); (355, [354]); (357, [356]);
    (359, [358]); (361, [360]); (363, [362]); (365, [364]); (367, [366]); (369, [368]); (371,
    [370]); (373, [372]); (375, [374]); (378, [377]); (380, [379]); (382, [381]); (383, [83]);
    (384, [579]); (387, [386]); (389, [388]); (392, [391]); (396, [395]); (402, [401]); (405,
    [502]); (409, [408]); (410, [573]); (414, [544]); (417, [416]); (419, [418]); (421, [420]);
    (424, [423]); (429, [428]); (432, [431]); (436, [435]); (438, [437]); (441, [440]); (445,
    [444]); (447, [503]); (453, [452]); (454, [452]); (456, [455]); (457, [455]); (459, [458]);
    (460, [458]); (462, [461]); (464, [463]); (466, [465]); (468, [467]); (470, [469]); (472,
    [471]); (474, [473]); (476, [475]); (477, [398]); (479, [478]); (481, [480]); (483, [482]);
    (485, [484]); (487, [486]); (489, [488]); (491, [490]); (493, [492]); (495, [494]); (496,
    [74; 780]); (498, [497]); (499, [497]); (501, [500]); (505, [504]); (507, [506]); (509,
    [508]); (511, [510]); (513, [512]); (515, [514]); (517, [516]); (519, [518]); (521, [520]);
    (523, [522]); (525, [524]); (527, [526]); (529, [528]); (531, [530]); (533, [532]); (535,
    [534]); (537, [536]); (539, [538]); (541, [540]); (543, [542]); (547, [546]); (549, [548]);
    (551, [550]); (553, [552]); (555, [554]); (557, [556]); (559, [558]); (561, [560]); (563,
    [562]); (572, [571]); (575, [11390]); (576, [11391]); (578, [577]); (583, [582]); (585,
    [584]); (587, [586]); (589, [588]); (591, [590]); (592, [11375]); (593, [11373]); (594,
    [11376]); (595, [385]); (596, [390]); (598, [393]); (599, [394]); (601, [399]); (603,
    [400]); (604, [42923]); (608, [403]); (609, [42924]); (611, [404]); (613, [42893]); (614,
    [42922]); (616, [407]); (617, [406]); (618, [42926]); (619, [11362]); (620, [42925]); (623,
    [412]); (625, [11374]); (626, [413]); (629, [415]); (637, [11364]); (640, [422]); (642,
    [42949]); (643, [425]); (647, [42929]); (648, [430]); (649, [580]); (650, [433]); (651,
    [434]); (652, [581]); (658, [439]); (669, [42930]); (670, [42928]); (837, [921]); (881,
    [880]); (883, [882]); (887, [886]); (891, [1021]); (892, [1022]); (893, [1023]); (912, [921;
    776; 769]); (940, [902]); (941, [904]); (942, [905]); (943, [906]); (944, [933; 776; 769]);
    (945, [913]); (946, [914]); (947, [915]); (948, [916]); (949, [917]); (950, [918]); (951,
    [919]); (952, [920]); (953, [921]); (954, [922]); (955, [923]); (956, [924]); (957, [925]);
    (958, [926]); (959, [927]); (960, [928]); (961, [929]); (962, [931]); (963, [931]); (964,
    [932]); (965, [933]); (966, [934]); (967, [935]); (968, [936]); (969, [937]); (970, [938]);
    (971, [939]); (972, [908]); (973, [910]); (974, [911]); (976, [914]); (977, [920]); (981,
    [934]); (982, [928]); (983, [975]); (985, [984]); (987, [986]); (989, [988]); (991, [990]);
    (993, [992]); (995, [994]); (997, [996]); (999, [998]); (1001, [1000]); (1003, [1002]);
    (1005, [1004]); (1007, [1006]); (1008, [922]); (1009, [929]); (1010, [1017]); (1011, [895]);
    (1013, [917]); (1016, [1015]); (1019, [1018]); (1072, [1040]); (1073, [1041]); (1074,
    [1042]); (1075, [1043]); (1076, [1044]); (1077, [1045]); (1078, [1046]); (1079, [1047]);
    (1080, [1048]); (1081, [1049]); (1082, [1050]); (1083, [1051]); (1084, [1052]); (1085,
    [1053]); (1086, [1054]); (1087, [1055]); (1088, [1056]); (1089, [1057]); (1090, [1058]);
    (1091, [1059]); (1092, [1060]); (1093, [1061]); (1094, [1062]); (1095, [1063]); (1096,
    [1064]); (1097, [1065]); (1098, [1066]); (1099, [1067]); (1100, [1068]); (1101, [1069]);
    (1102, [1070]); (1103, [1071]); (1104, [1024]); (1105, [1025]); (1106, [1026]); (1107,
    [1027]); (1108, [1028]); (1109, [1029]); (1110, [1030]); (1111, [1031]); (1112, [1032]);
    (1113, [1033]); (1114, [1034]); (1115, [1035]); (1116, [1036]); (1117, [1037]); (1118,
    [1038]); (1119, [1039]); (1121, [1120]); (1123, [1122]); (1125, [1124]); (1127, [1126]);
    (1129, [1128]); (1131, [1130]); (1133, [1132]); (1135, [1134]); (1137, [1136]); (1139,
    [1138]); (1141, [1140]); (1143, [1142]); (1145, [1144]); (1147, [1146]); (1149, [1148]);
    (1151, [1150]); (1153, [1152]); (1163, [1162]); (1165, [1164]); (1167, [1166]); (1169,
    [1168]); (1171, [1170]); (1173, [1172]); (1175, [1174]); (1177, [1176]); (1179, [1178]);
    (1181, [1180]); (1183, [1182]); (1185, [1184]); (1187, [1186]); (1189, [1188]); (1191,
    [1190]); (1193, [1192]); (1195, [1194]); (1197, [1196]); (1199, [1198]); (1201, [1200]);
    (1203, [1202]); (1205, [1204]); (1207, [1206]); (1209, [1208]); (1211, [1210]); (1213,
    [1212]); (1215, [1214]); (1218, [1217]); (1220, [1219]); (1222, [1221]); (1224, [1223]);
    (1226, [1225]); (1228, [1227]); (1230, [1229]); (1231, [1216]); (1233, [1232]); (1235,
    [1234]); (1237, [1236]); (1239, [1238]); (1241, [1240]); (1243, [1242]); (1245, [1244]);
    (1247, [1246]); (1249, [1248]); (1251, [1250]); (1253, [1252]); (1255, [1254]); (1257,
    [1256]); (1259, [1258]); (1261, [1260]); (1263, [1262]); (1265, [1264]); (1267, [1266]);
    (1269, [1268]); (1271, [1270]); (1273, [1272]); (1275, [1274]); (1277, [1276]); (1279,
    [1278]); (1281, [1280]); (1283, [1282]); (1285, [1284]); (1287, [1286]); (1289, [1288]);
    (1291, [1290]); (1293, [1292]); (1295, [1294]); (1297, [1296]); (1299, [1298]); (1301,
    [1300]); (1303, [1302]); (1305, [1304]); (1307, [1306]); (1309, [1308]); (1311, [1310]);
    (1313, [1312]); (1315, [1314]); (1317, [1316]); (1319, [1318]); (1321, [1320]); (1323,
    [1322]); (1325, [1324]); (1327, [1326]); (1377, [1329]); (1378, [1330]); (1379, [1331]);
    (1380, [1332]); (1381, [1333]); (1382, [1334]); (1383, [1335]); (1384, [1336]); (1385,
    [1337]); (1386, [1338]); (1387, [1339]); (1388, [1340]); (1389, [1341]); (1390, [1342]);
    (1391, [1343]); (1392, [1344]); (1393, [1345]); (1394, [1346]); (1395, [1347]); (1396,
    [1348]); (1397, [1349]); (1398, [1350]); (1399, [1351]); (1400, [1352]); (1401, [1353]);
    (1402, [1354]); (1403, [1355]); (1404, [1356]); (1405, [1357]); (1406, [1358]); (1407,
    [1359]); (1408, [1360]); (1409, [1361]); (1410, [1362]); (1411, [1363]); (1412, [1364]);
    (1413, [1365]); (1414, [1366]); (1415, [1333; 1362]); (4304, [7312]); (4305, [7313]); (4306,
    [7314]); (4307, [7315]); (4308, [7316]); (4309, [7317]); (4310, [7318]); (4311, [7319]);
    (4312, [7320]); (4313, [7321]); (4314, [7322]); (4315, [7323]); (4316, [7324]); (4317,
    [7325]); (4318, [7326]); (4319, [7327]); (4320, [7328]); (4321, [7329]); (4322, [7330]);
    (4323, [7331]); (4324, [7332]); (4325, [7333]); (4326, [7334]); (4327, [7335]); (4328,
    [7336]); (4329, [7337]); (4330, [7338]); (4331, [7339]); (4332, [7340]); (4333, [7341]);
    (4334, [7342]); (4335, [7343]); (4336, [7344]); (4337, [7345]); (4338, [7346]); (4339,
    [7347]); (4340, [7348]); (4341, [7349]); (4342, [7350]); (4343, [7351]); (4344, [7352]);
    (4345, [7353]); (4346, [7354]); (4349, [7357]); (4350, [7358]); (4351, [7359]); (5112,
    [5104]); (5113, [5105]); (5114, [5106]); (5115, [5107]); (5116, [5108]); (5117, [5109]);
    (7296, [1042]); (7297, [1044]); (7298, [1054]); (7299, [1057]); (7300, [1058]); (7301,
    [1058]); (7302, [1066]); (7303, [1122]); (7304, [42570]); (7545, [42877]); (7549, [11363]);
    (7566, [42950]); (7681, [7680]); (7683, [7682]); (7685, [7684]); (7687, [7686]); (7689,
    [7688]); (7691, [7690]); (7693, [7692]); (7695, [7694]); (7697, [7696]); (7699, [7698]);
    (7701, [7700]); (7703, [7702]); (7705, [7704]); (7707, [7706]); (7709, [7708]); (7711,
    [7710]); (7713, [7712]); (7715, [7714]); (7717, [7716]); (7719, [7718]); (7721, [7720]);
    (7723, [7722]); (7725, [7724]); (7727, [7726]); (7729, [7728]); (7731, [7730]); (7733,
    [7732]); (7735, [7734]); (7737, [7736]); (7739, [7738]); (7741, [7740]); (7743, [7742]);
    (7745, [7744]); (7747, [7746]); (7749, [7748]); (7751, [7750]); (7753, [7752]); (7755,
    [7754]); (7757, [7756]); (7759, [7758]); (7761, [7760]); (7763, [7762]); (7765, [7764]);
    (7767, [7766]); (7769, [7768]); (7771, [7770]); (7773, [7772]); (7775, [7774]); (7777,
    [7776]); (7779, [7778]); (7781, [7780]); (7783, [7782]); (7785, [7784]); (7787, [7786]);
    (7789, [7788]); (7791, [7790]); (7793, [7792]); (7795, [7794]); (7797, [7796]); (7799,
    [7798]); (7801, [7800]); (7803, [7802]); (7805, [7804]); (7807, [7806]); (7809, [7808]);
    (7811, [7810]); (7813, [7812]); (7815, [7814]); (7817, [7816]); (7819, [7818]); (7821,
    [7820]); (7823, [7822]); (7825, [7824]); (7827, [7826]); (7829, [7828]); (7830, [72; 817]);
    (7831, [84; 776]); (7832, [87; 778]); (7833, [89; 778]); (7834, [65; 702]); (7835, [7776]);
    (7841, [7840]); (7843, [7842]); (7845, [7844]); (7847, [7846]); (7849, [7848]); (7851,
    [7850]); (7853, [7852]); (7855, [7854]); (7857, [7856]); (7859, [7858]); (7861, [7860]);
    (7863, [7862]); (7865, [7864]); (7867, [7866]); (7869, [7868]); (7871, [7870]); (7873,
    [7872]); (7875, [7874]); (7877, [7876]); (7879, [7878]); (7881, [7880]); (7883, [7882]);
    (7885, [7884]); (7887, [7886]); (7889, [7888]); (7891, [7890]); (7893, [7892]); (7895,
    [7894]); (7897, [7896]); (7899, [7898]); (7901, [7900]); (7903, [7902]); (7905, [7904]);
    (7907, [7906]); (7909, [7908]); (7911, [7910]); (7913, [7912]); (7915, [7914]); (7917,
    [7916]); (7919, [7918]); (7921, [7920]); (7923, [7922]); (7925, [7924]); (7927, [7926]);
    (7929, [7928]); (7931, [7930]); (7933, [7932]); (7935, [7934]); (7936, [7944]); (7937,
    [7945]); (7938, [7946]); (7939, [7947]); (7940, [7948]); (7941, [7949]); (7942, [7950]);
    (7943, [7951]); (7952, [7960]); (7953, [7961]); (7954, [7962]); (7955, [7963]); (7956,
    [7964]); (7957, [7965]); (7968, [7976]); (7969, [7977]); (7970, [7978]); (7971, [7979]);
    (7972, [7980]); (7973, [7981]); (7974, [7982]); (7975, [7983]); (7984, [7992]); (7985,
    [7993]); (7986, [7994]); (7987, [7995]); (7988, [7996]); (7989, [7997]); (7990, [7998]);
    (7991, [7999]); (8000, [8008]); (8001, [8009]); (8002, [8010]); (8003, [8011]); (8004,
    [8012]); (8005, [8013]); (8016, [933; 787]); (8017, [8025]); (8018, [933; 787; 768]); (8019,
    [8027]); (8020, [933; 787; 769]); (8021, [8029]); (8022, [933; 787; 834]); (8023, [8031]);
    (8032, [8040]); (8033, [8041]); (8034, [8042]); (8035, [8043]); (8036, [8044]); (8037,
    [8045]); (8038, [8046]); (8039, [8047]); (8048, [8122]); (8049, [8123]); (8050, [8136]);
    (8051, [8137]); (8052, [8138]); (8053, [8139]); (8054, [8154]); (8055, [8155]); (8056,
    [8184]); (8057, [8185]); (8058, [8170]); (8059, [8171]); (8060, [8186]); (8061, [8187]);
    (8064, [7944; 921]); (8065, [7945; 921]); (8066, [7946; 921]); (8067, [7947; 921]); (8068,
    [7948; 921]); (8069, [7949; 921]); (8070, [7950; 921]); (8071, [7951; 921]); (8072, [7944;
    921]); (8073, [7945; 921]); (8074, [7946; 921]); (8075, [7947; 921]); (8076, [7948; 921]);
    (8077, [7949; 921]); (8078, [7950; 921]); (8079, [7951; 921]); (8080, [7976; 921]); (8081,
    [7977; 921]); (8082, [7978; 921]); (8083, [7979; 921]); (8084, [7980; 921]); (8085, [7981;
    921]); (8086, [7982; 921]); (8087, [7983; 921]); (8088, [7976; 921]); (8089, [7977; 921]);
    (8090, [7978; 921]); (8091, [7979; 921]); (8092, [7980; 921]); (8093, [7981; 921]); (8094,
    [7982; 921]); (8095, [7983; 921]); (8096, [8040; 921]); (8097, [8041; 921]); (8098, [8042;
    921]); (8099, [8043; 921]); (8100, [8044; 921]); (8101, [8045; 921]); (8102, [8046; 921]);
    (8103, [8047; 921]); (8104, [8040; 921]); (8105, [8041; 921]); (8106, [8042; 921]); (8107,
    [8043; 921]); (8108, [8044; 921]); (8109, [8045; 921]); (8110, [8046; 921]); (8111, [8047;
    921]); (8112, [8120]); (8113, [8121]); (8114, [8122; 921]); (8115, [913; 921]); (8116, [902;
    921]); (8118, [913; 834]); (8119, [913; 834; 921]); (8124, [913; 921]); (8126, [921]);
    (8130, [8138; 921]); (8131, [919; 921]); (8132, [905; 921]); (8134, [919; 834]); (8135,
    [919; 834; 921]); (8140, [919; 921]); (8144, [8152]); (8145, [8153]); (8146, [921; 776;
    768]); (8147, [921; 776; 769]); (8150, [921; 834]); (8151, [921; 776; 834]); (8160, [8168]);
    (8161, [8169]); (8162, [933; 776; 768]); (8163, [933; 776; 769]); (8164, [929; 787]); (8165,
    [8172]); (8166, [933; 834]); (8167, [933; 776; 834]); (8178, [8186; 921]); (8179, [937;
    921]); (8180, [911; 921]); (8182, [937; 834]); (8183, [937; 834; 921]); (8188, [937; 921]);
    (8526, [8498]); (8560, [8544]); (8561, [8545]); (8562, [8546]); (8563, [8547]); (8564,
    [8548]); (8565, [8549]); (8566, [8550]); (8567, [8551]); (8568, [8552]); (8569, [8553]);
    (8570, [8554]); (8571, [8555]); (8572, [8556]); (8573, [8557]); (8574, [8558]); (8575,
    [8559]); (8580, [8579]); (9424, [9398]); (9425, [9399]); (9426, [9400]); (9427, [9401]);
    (9428, [9402]); (9429, [9403]); (9430, [9404]); (9431, [9405]); (9432, [9406]); (9433,
    [9407]); (9434, [9408]); (9435, [9409]); (9436, [9410]); (9437, [9411]); (9438, [9412]);
    (9439, [9413]); (9440, [9414]); (9441, [9415]); (9442, [9416]); (9443, [9417]); (9444,
    [9418]); (9445, [9419]); (9446, [9420]); (9447, [9421]); (9448, [9422]); (9449, [9423]);
    (11312, [11264]); (11313, [11265]); (11314, [11266]); (11315, [11267]); (11316, [11268]);
    (11317, [11269]); (11318, [11270]); (11319, [11271]); (11320, [11272]); (11321, [11273]);
    (11322, [11274]); (11323, [11275]); (11324, [11276]); (11325, [11277]); (11326, [11278]);
    (11327, [11279]); (11328, [11280]); (11329, [11281]); (11330, [11282]); (11331, [11283]);
    (11332, [11284]); (11333, [11285]); (11334, [11286]); (11335, [11287]); (11336, [11288]);
    (11337, [11289]); (11338, [11290]); (11339, [11291]); (11340, [11292]); (11341, [11293]);
    (11342, [11294]); (11343, [11295]); (11344, [11296]); (11345, [11297]); (11346, [11298]);
    (11347, [11299]); (11348, [11300]); (11349, [11301]); (11350, [11302]); (11351, [11303]);
    (11352, [11304]); (11353, [11305]); (11354, [11306]); (11355, [11307]); (11356, [11308]);
    (11357, [11309]); (11358, [11310]); (11359, [11311]); (11361, [11360]); (11365, [570]);
    (11366, [574]); (11368, [11367]); (11370, [11369]); (11372, [11371]); (11379, [11378]);
    (11382, [11381]); (11393, [11392]); (11395, [11394]); (11397, [11396]); (11399, [11398]);
    (11401, [11400]); (11403, [11402]); (11405, [11404]); (11407, [11406]); (11409, [11408]);
    (11411, [11410]); (11413, [11412]); (11415, [11414]); (11417, [11416]); (11419, [11418]);
    (11421, [11420]); (11423, [11422]); (11425, [11424]); (11427, [11426]); (11429, [11428]);
    (11431, [11430]); (11433, [11432]); (11435, [11434]); (11437, [11436]); (11439, [11438]);
    (11441, [11440]); (11443, [11442]); (11445, [11444]); (11447, [11446]); (11449, [11448]);
    (11451, [11450]); (11453, [11452]); (11455, [11454]); (11457, [11456]); (11459, [11458]);
    (11461, [11460]); (11463, [11462]); (11465, [11464]); (11467, [11466]); (11469, [11468]);
    (11471, [11470]); (11473, [11472]); (11475, [11474]); (11477, [11476]); (11479, [11478]);
    (11481, [11480]); (11483, [11482]); (11485, [11484]); (11487, [11486]); (11489, [11488]);
    (11491, [11490]); (11500, [11499]); (11502, [11501]); (11507, [11506]); (11520, [4256]);
    (11521, [4257]); (11522, [4258]); (11523, [4259]); (11524, [4260]); (11525, [4261]); (11526,
    [4262]); (11527, [4263]); (11528, [4264]); (11529, [4265]); (11530, [4266]); (11531,
    [4267]); (11532, [4268]); (11533, [4269]); (11534, [4270]); (11535, [4271]); (11536,
    [4272]); (11537, [4273]); (11538, [4274]); (11539, [4275]); (11540, [4276]); (11541,
    [4277]); (11542, [4278]); (11543, [4279]); (11544, [4280]); (11545, [4281]); (11546,
    [4282]); (11547, [4283]); (11548, [4284]); (11549, [4285]); (11550, [4286]); (11551,
    [4287]); (11552, [4288]); (11553, [4289]); (11554, [4290]); (11555, [4291]); (11556,
    [4292]); (11557, [4293]); (11559, [4295]); (11565, [4301]); (42561, [42560]); (42563,
    [42562]); (42565, [42564]); (42567, [42566]); (42569, [42568]); (42571, [42570]); (42573,
    [42572]); (42575, [42574]); (42577, [42576]); (42579, [42578]); (42581, [42580]); (42583,
    [42582]); (42585, [42584]); (42587, [42586]); (42589, [42588]); (42591, [42590]); (42593,
    [42592]); (42595, [42594]); (42597, [42596]); (42599, [42598]); (42601, [42600]); (42603,
    [42602]); (42605, [42604]); (42625, [42624]); (42627, [42626]); (42629, [42628]); (42631,
    [42630]); (42633, [42632]); (42635, [42634]); (42637, [42636]); (42639, [42638]); (42641,
    [42640]); (42643, [42642]); (42645, [42644]); (42647, [42646]); (42649, [42648]); (42651,
    [42650]); (42787, [42786]); (42789, [42788]); (42791, [42790]); (42793, [42792]); (42795,
    [42794]); (42797, [42796]); (42799, [42798]); (42803, [42802]); (42805, [42804]); (42807,
    [42806]); (42809, [42808]); (42811, [42810]); (42813, [42812]); (42815, [42814]); (42817,
    [42816]); (42819, [42818]); (42821, [42820]); (42823, [42822]); (42825, [42824]); (42827,
    [42826]); (42829, [42828]); (42831, [42830]); (42833, [42832]); (42835, [42834]); (42837,
    [42836]); (42839, [42838]); (42841, [42840]); (42843, [42842]); (42845, [42844]); (42847,
    [42846]); (42849, [42848]); (42851, [42850]); (42853, [42852]); (42855, [42854]); (42857,
    [42856]); (42859, [42858]); (42861, [42860]); (42863, [42862]); (42874, [42873]); (42876,
    [42875]); (42879, [42878]); (42881, [42880]); (42883, [42882]); (42885, [42884]); (42887,
    [42886]); (42892, [42891]); (42897, [42896]); (42899, [42898]); (42900, [42948]); (42903,
    [42902]); (42905, [42904]); (42907, [42906]); (42909, [42908]); (42911, [42910]); (42913,
    [42912]); (42915, [42914]); (42917, [42916]); (42919, [42918]); (42921, [42920]); (42933,
    [42932]); (42935, [42934]); (42937, [42936]); (42939, [42938]); (42941, [42940]); (42943,
    [42942]); (42945, [42944]); (42947, [42946]); (42952, [42951]); (42954, [42953]); (42961,
    [42960]); (42967, [42966]); (42969, [42968]); (42998, [42997]); (43859, [42931]); (43888,
    [5024]); (43889, [5025]); (43890, [5026]); (43891, [5027]); (43892, [5028]); (43893,
    [5029]); (43894, [5030]); (43895, [5031]); (43896, [5032]); (43897, [5033]); (43898,
    [5034]); (43899, [5035]); (43900, [5036]); (43901, [5037]); (43902, [5038]); (43903,
    [5039]); (43904, [5040]); (43905, [5041]); (43906, [5042]); (43907, [5043]); (43908,
    [5044]); (43909, [5045]); (43910, [5046]); (43911, [5047]); (43912, [5048]); (43913,
    [5049]); (43914, [5050]); (43915, [5051]); (43916, [5052]); (43917, [5053]); (43918,
    [5054]); (43919, [5055]); (43920, [5056]); (43921, [5057]); (43922, [5058]); (43923,
    [5059]); (43924, [5060]); (43925, [5061]); (43926, [5062]); (43927, [5063]); (43928,
    [5064]); (43929, [5065]); (43930, [5066]); (43931, [5067]); (43932, [5068]); (43933,
    [5069]); (43934, [5070]); (43935, [5071]); (43936, [5072]); (43937, [5073]); (43938,
    [5074]); (43939, [5075]); (43940, [5076]); (43941, [5077]); (43942, [5078]); (43943,
    [5079]); (43944, [5080]); (43945, [5081]); (43946, [5082]); (43947, [5083]); (43948,
    [5084]); (43949, [5085]); (43950, [5086]); (43951, [5087]); (43952, [5088]); (43953,
    [5089]); (43954, [5090]); (43955, [5091]); (43956, [5092]); (43957, [5093]); (43958,
    [5094]); (43959, [5095]); (43960, [5096]); (43961, [5097]); (43962, [5098]); (43963,
    [5099]); (43964, [5100]); (43965, [5101]); (43966, [5102]); (43967, [5103]); (64256, [70;
    70]); (64257, [70; 73]); (64258, [70; 76]); (64259, [70; 70; 73]); (64260, [70; 70; 76]);
    (64261, [83; 84]); (64262, [83; 84]); (64275, [1348; 1350]); (64276, [1348; 1333]); (64277,
    [1348; 1339]); (64278, [1358; 1350]); (64279, [1348; 1341]); (65345, [65313]); (65346,
    [65314]); (65347, [65315]); (65348, [65316]); (65349, [65317]); (65350, [65318]); (65351,
    [65319]); (65352, [65320]); (65353, [65321]); (65354, [65322]); (65355, [65323]); (65356,
    [65324]); (65357, [65325]); (65358, [65326]); (65359, [65327]); (65360, [65328]); (65361,
    [65329]); (65362, [65330]); (65363, [65331]); (65364, [65332]); (65365, [65333]); (65366,
    [65334]); (65367, [65335]); (65368, [65336]); (65369, [65337]); (65370, [65338]); (66600,
    [66560]); (66601, [66561]); (66602, [66562]); (66603, [66563]); (66604, [66564]); (66605,
    [66565]); (66606, [66566]); (66607, [66567]); (66608, [66568]); (66609, [66569]); (66610,
    [66570]); (66611, [66571]); (66612, [66572]); (66613, [66573]); (66614, [66574]); (66615,
    [66575]); (66616, [66576]); (66617, [66577]); (66618, [66578]); (66619, [66579]); (66620,
    [66580]); (66621, [66581]); (66622, [66582]); (66623, [66583]); (66624, [66584]); (66625,
    [66585]); (66626, [66586]); (66627, [66587]); (66628, [66588]); (66629, [66589]); (66630,
    [66590]); (66631, [66591]); (66632, [66592]); (66633, [66593]); (66634, [66594]); (66635,
    [66595]); (66636, [66596]); (66637, [66597]); (66638, [66598]); (66639, [66599]); (66776,
    [66736]); (66777, [66737]); (66778, [66738]); (66779, [66739]); (66780, [66740]); (66781,
    [66741]); (66782, [66742]); (66783, [66743]); (66784, [66744]); (66785, [66745]); (66786,
    [66746]); (66787, [66747]); (66788, [66748]); (66789, [66749]); (66790, [66750]); (66791,
    [66751]); (66792, [66752]); (66793, [66753]); (66794, [66754]); (66795, [66755]); (66796,
    [66756]); (66797, [66757]); (66798, [66758]); (66799, [66759]); (66800, [66760]); (66801,
    [66761]); (66802, [66762]); (66803, [66763]); (66804, [66764]); (66805, [66765]); (66806,
    [66766]); (66807, [66767]); (66808, [66768]); (66809, [66769]); (66810, [66770]); (66811,
    [66771]); (66967, [66928]); (66968, [66929]); (66969, [66930]); (66970, [66931]); (66971,
    [66932]); (66972, [66933]); (66973, [66934]); (66974, [66935]); (66975, [66936]); (66976,
    [66937]); (66977, [66938]); (66979, [66940]); (66980, [66941]); (66981, [66942]); (66982,
    [66943]); (66983, [66944]); (66984, [66945]); (66985, [66946]); (66986, [66947]); (66987,
    [66948]); (66988, [66949]); (66989, [66950]); (66990, [66951]); (66991, [66952]); (66992,
    [66953]); (66993, [66954]); (66995, [66956]); (66996, [66957]); (66997, [66958]); (66998,
    [66959]); (66999, [66960]); (67000, [66961]); (67001, [66962]); (67003, [66964]); (67004,
    [66965]); (68800, [68736]); (68801, [68737]); (68802, [68738]); (68803, [68739]); (68804,
    [68740]); (68805, [68741]); (68806, [68742]); (68807, [68743]); (68808, [68744]); (68809,
    [68745]); (68810, [68746]); (68811, [68747]); (68812, [68748]); (68813, [68749]); (68814,
    [68750]); (68815, [68751]); (68816, [68752]); (68817, [68753]); (68818, [68754]); (68819,
    [68755]); (68820, [68756]); (68821, [68757]); (68822, [68758]); (68823, [68759]); (68824,
    [68760]); (68825, [68761]); (68826, [68762]); (68827, [68763]); (68828, [68764]); (68829,
    [68765]); (68830, [68766]); (68831, [68767]); (68832, [68768]); (68833, [68769]); (68834,
    [68770]); (68835, [68771]); (68836, [68772]); (68837, [68773]); (68838, [68774]); (68839,
    [68775]); (68840, [68776]); (68841, [68777]); (68842, [68778]); (68843, [68779]); (68844,
    [68780]); (68845, [68781]); (68846, [68782]); (68847, [68783]); (68848, [68784]); (68849,
    [68785]); (68850, [68786]); (71872, [71840]); (71873, [71841]); (71874, [71842]); (71875,
    [71843]); (71876, [71844]); (71877, [71845]); (71878, [71846]); (71879, [71847]); (71880,
    [71848]); (71881, [71849]); (71882, [71850]); (71883, [71851]); (71884, [71852]); (71885,
    [71853]); (71886, [71854]); (71887, [71855]); (71888, [71856]); (71889, [71857]); (71890,
    [71858]); (71891, [71859]); (71892, [71860]); (71893, [71861]); (71894, [71862]); (71895,
    [71863]); (71896, [71864]); (71897, [71865]); (71898, [71866]); (71899, [71867]); (71900,
    [71868]); (71901, [71869]); (71902, [71870]); (71903, [71871]); (93792, [93760]); (93793,
    [93761]); (93794, [93762]); (93795, [93763]); (93796, [93764]); (93797, [93765]); (93798,
    [93766]); (93799, [93767]); (93800, [93768]); (93801, [93769]); (93802, [93770]); (93803,
    [93771]); (93804, [93772]); (93805, [93773]); (93806, [93774]); (93807, [93775]); (93808,
    [93776]); (93809, [93777]); (93810, [93778]); (93811, [93779]); (93812, [93780]); (93813,
    [93781]); (93814, [93782]); (93815, [93783]); (93816, [93784]); (93817, [93785]); (93818,
    [93786]); (93819, [93787]); (93820, [93788]); (93821, [93789]); (93822, [93790]); (93823,
    [93791]); (125218, [125184]); (125219, [125185]); (125220, [125186]); (125221, [125187]);
    (125222, [125188]); (125223, [125189]); (125224, [125190]); (125225, [125191]); (125226,
    [125192]); (125227, [125193]); (125228, [125194]); (125229, [125195]); (125230, [125196]);
    (125231, [125197]); (125232, [125198]); (125233, [125199]); (125234, [125200]); (125235,
    [125201]); (125236, [125202]); (125237, [125203]); (125238, [125204]); (125239, [125205]);
    (125240, [125206]); (125241, [125207]); (125242, [125208]); (125243, [125209]); (125244,
    [125210]); (125245, [125211]); (125246, [125212]); (125247, [125213]); (125248, [125214]);
    (125249, [125215]); (125250, [125216]); (125251, [125217])
  ].

Fixpoint lookup_table (c : codepoint) (t : list (codepoint * list codepoint))
  : option (list codepoint) :=
  match t with
  | [] => None
  | (k, v) :: t' => if c =? k then Some v else lookup_table c t'
  end.

(** [c.upper()] for a single character *)
Definition upper_char (c : codepoint) : string :=
  if c <? 128
  then (if (97 <=? c) && (c <=? 122) then String (c - 32) "" else String c "")
  else match lookup_table c upper_table with
       | Some v => of_list v
       | None => String c ""
       end.

(** [s.upper()]: every character is replaced on its own. *)
Fixpoint upper (s : string) : string :=
  match s with
  | EmptyString => EmptyString
  | String c s' => upper_char c +:+ upper s'
  end.

(** [s.lstrip()] *)
Fixpoint lstrip (s : string) : string :=
  match s with
  | EmptyString => EmptyString
  | String c s' => if isspace c then lstrip s' else s
  end.

(** [s.rstrip()] *)
Fixpoint rstrip (s : string) : string :=
  match s with
  | EmptyString => EmptyString
  | String c s' =>
      match rstrip s' with
      | EmptyString => if isspace c then EmptyString else String c EmptyString
      | t => String c t
      end
  end.

(** [s.strip()] *)
Definition strip (s : string) : string := rstrip (lstrip s).

(** [s.startswith(p)] *)
Fixpoint startswith (p s : string) : bool :=
  match p, s with
  | EmptyString, _ => true
  | String a p', String b s' => if a =? b then startswith p' s' else false
  | String _ _, EmptyString => false
  end.

(** [p in s] for strings *)
Fixpoint contains (p s : string) : bool :=
  startswith p s ||
  match s with
  | EmptyString => false
  | String _ s' => contains p s'
  end.

(** [sep.join(l)] *)
Fixpoint join (sep : string) (l : list string) : string :=
  match l with
  | [] => ""
  | [x] => x
  | x :: rest => x +:+ sep +:+ join sep rest
  end.

(** [s.split(c)] for a one-character separator [c]: the pieces between
    the occurrences of [c]; never the empty list. *)
Fixpoint split (c : codepoint) (s : string) : list string :=
  match s with
  | EmptyString => [EmptyString]
  | String a s' =>
      if a =? c then EmptyString :: split c s'
      else match split c s' with
           | [] => [String a EmptyString]
           | piece :: rest => String a piece :: rest
           end
  end.

(** [re.sub(r'\s+', ' ', s)]: every maximal run of whitespace becomes
    one blank. [in_run] says that the previous character was whitespace. *)
Fixpoint sub_spaces (in_run : bool) (s : string) : string :=
  match s with
  | EmptyString => EmptyString
  | String c s' =>
      if isspace c
      then (if in_run then sub_spaces true s' else String 32 (sub_spaces true s'))
      else String c (sub_spaces false s')
  end.

Definition hex_digit (n : N) : codepoint :=
  if n <? 10 then 48 + n else 87 + n.

(** [n] in hexadecimal, on [digits] digits. *)
Fixpoint hex (digits : nat) (n : N) : string :=
  match digits with
  | O => EmptyString
  | S d => hex d (n / 16) +:+ String (hex_digit (n mod 16)) ""
  end.

(** [c in s] for a character *)
Fixpoint mem_char (c : codepoint) (s : string) : bool :=
  match s with
  | EmptyString => false
  | String a s' => (c =? a) || mem_char c s'
  end.

(** The ranges of the code points above 127 for which [str.isprintable]
    holds. *)
Definition printable_ranges : list (codepoint * codepoint) :=
  [
    (161, 172); (174, 887); (890, 895); (900, 906); (908, 908); (910, 929); (931, 1327); (1329,
    1366); (1369, 1418); (1421, 1423); (1425, 1479); (1488, 1514); (1519, 1524); (1542, 1563);
    (1565, 1756); (1758, 1805); (1808, 1866); (1869, 1969); (1984, 2042); (2045, 2093); (2096,
    2110); (2112, 2139); (2142, 2142); (2144, 2154); (2160, 2190); (2200, 2273); (2275, 2435);
    (2437, 2444); (2447, 2448); (2451, 2472); (2474, 2480); (2482, 2482); (2486, 2489); (2492,
    2500); (2503, 2504); (2507, 2510); (2519, 2519); (2524, 2525); (2527, 2531); (2534, 2558);
    (2561, 2563); (2565, 2570); (2575, 2576); (2579, 2600); (2602, 2608); (2610, 2611); (2613,
    2614); (2616, 2617); (2620, 2620); (2622, 2626); (2631, 2632); (2635, 2637); (2641, 2641);
    (2649, 2652); (2654, 2654); (2662, 2678); (2689, 2691); (2693, 2701); (2703, 2705); (2707,
    2728); (2730, 2736); (2738, 2739); (2741, 2745); (2748, 2757); (2759, 2761); (2763, 2765);
    (2768, 2768); (2784, 2787); (2790, 2801); (2809, 2815); (2817, 2819); (2821, 2828); (2831,
    2832); (2835, 2856); (2858, 2864); (2866, 2867); (2869, 2873); (2876, 2884); (2887, 2888);
    (2891, 2893); (2901, 2903); (2908, 2909); (2911, 2915); (2918, 2935); (2946, 2947); (2949,
    2954); (2958, 2960); (2962, 2965); (2969, 2970); (2972, 2972); (2974, 2975); (2979, 2980);
    (2984, 2986); (2990, 3001); (3006, 3010); (3014, 3016); (3018, 3021); (3024, 3024); (3031,
    3031); (3046, 3066); (3072, 3084); (3086, 3088); (3090, 3112); (3114, 3129); (3132, 3140);
    (3142, 3144); (3146, 3149); (3157, 3158); (3160, 3162); (3165, 3165); (3168, 3171); (3174,
    3183); (3191, 3212); (3214, 3216); (3218, 3240); (3242, 3251); (3253, 3257); (3260, 3268);
    (3270, 3272); (3274, 3277); (3285, 3286); (3293, 3294); (3296, 3299); (3302, 3311); (3313,
    3314); (3328, 3340); (3342, 3344); (3346, 3396); (3398, 3400); (3402, 3407); (3412, 3427);
    (3430, 3455); (3457, 3459); (3461, 3478); (3482, 3505); (3507, 3515); (3517, 3517); (3520,
    3526); (3530, 3530); (3535, 3540); (3542, 3542); (3544, 3551); (3558, 3567); (3570, 3572);
    (3585, 3642); (3647, 3675); (3713, 3714); (3716, 3716); (3718, 3722); (3724, 3747); (3749,
    3749); (3751, 3773); (3776, 3780); (3782, 3782); (3784, 3789); (3792, 3801); (3804, 3807);
    (3840, 3911); (3913, 3948); (3953, 3991); (3993, 4028); (4030, 4044); (4046, 4058); (4096,
    4293); (4295, 4295); (4301, 4301); (4304, 4680); (4682, 4685); (4688, 4694); (4696, 4696);
    (4698, 4701); (4704, 4744); (4746, 4749); (4752, 4784); (4786, 4789); (4792, 4798); (4800,
    4800); (4802, 4805); (4808, 4822); (4824, 4880); (4882, 4885); (4888, 4954); (4957, 4988);
    (4992, 5017); (5024, 5109); (5112, 5117); (5120, 5759); (5761, 5788); (5792, 5880); (5888,
    5909); (5919, 5942); (5952, 5971); (5984, 5996); (5998, 6000); (6002, 6003); (6016, 6109);
    (6112, 6121); (6128, 6137); (6144, 6157); (6159, 6169); (6176, 6264); (6272, 6314); (6320,
    6389); (6400, 6430); (6432, 6443); (6448, 6459); (6464, 6464); (6468, 6509); (6512, 6516);
    (6528, 6571); (6576, 6601); (6608, 6618); (6622, 6683); (6686, 6750); (6752, 6780); (6783,
    6793); (6800, 6809); (6816, 6829); (6832, 6862); (6912, 6988); (6992, 7038); (7040, 7155);
    (7164, 7223); (7227, 7241); (7245, 7304); (7312, 7354); (7357, 7367); (7376, 7418); (7424,
    7957); (7960, 7965); (7968, 8005); (8008, 8013); (8016, 8023); (8025, 8025); (8027, 8027);
    (8029, 8029); (8031, 8061); (8064, 8116); (8118, 8132); (8134, 8147); (8150, 8155); (8157,
    8175); (8178, 8180); (8182, 8190); (8208, 8231); (8240, 8286); (8304, 8305); (8308, 8334);
    (8336, 8348); (8352, 8384); (8400, 8432); (8448, 8587); (8592, 9254); (9280, 9290); (9312,
    11123); (11126, 11157); (11159, 11507); (11513, 11557); (11559, 11559); (11565, 11565);
    (11568, 11623); (11631, 11632); (11647, 11670); (11680, 11686); (11688, 11694); (11696,
    11702); (11704, 11710); (11712, 11718); (11720, 11726); (11728, 11734); (11736, 11742);
    (11744, 11869); (11904, 11929); (11931, 12019); (12032, 12245); (12272, 12283); (12289,
    12351); (12353, 12438); (12441, 12543); (12549, 12591); (12593, 12686); (12688, 12771);
    (12784, 12830); (12832, 42124); (42128, 42182); (42192, 42539); (42560, 42743); (42752,
    42954); (42960, 42961); (42963, 42963); (42965, 42969); (42994, 43052); (43056, 43065);
    (43072, 43127); (43136, 43205); (43214, 43225); (43232, 43347); (43359, 43388); (43392,
    43469); (43471, 43481); (43486, 43518); (43520, 43574); (43584, 43597); (43600, 43609);
    (43612, 43714); (43739, 43766); (43777, 43782); (43785, 43790); (43793, 43798); (43808,
    43814); (43816, 43822); (43824, 43883); (43888, 44013); (44016, 44025); (44032, 55203);
    (55216, 55238); (55243, 55291); (63744, 64109); (64112, 64217); (64256, 64262); (64275,
    64279); (64285, 64310); (64312, 64316); (64318, 64318); (64320, 64321); (64323, 64324);
    (64326, 64450); (64467, 64911); (64914, 64967); (64975, 64975); (65008, 65049); (65056,
    65106); (65108, 65126); (65128, 65131); (65136, 65140); (65142, 65276); (65281, 65470);
    (65474, 65479); (65482, 65487); (65490, 65495); (65498, 65500); (65504, 65510); (65512,
    65518); (65532, 65533); (65536, 65547); (65549, 65574); (65576, 65594); (65596, 65597);
    (65599, 65613); (65616, 65629); (65664, 65786); (65792, 65794); (65799, 65843); (65847,
    65934); (65936, 65948); (65952, 65952); (66000, 66045); (66176, 66204); (66208, 66256);
    (66272, 66299); (66304, 66339); (66349, 66378); (66384, 66426); (66432, 66461); (66463,
    66499); (66504, 66517); (66560, 66717); (66720, 66729); (66736, 66771); (66776, 66811);
    (66816, 66855); (66864, 66915); (66927, 66938); (66940, 66954); (66956, 66962); (66964,
    66965); (66967, 66977); (66979, 66993); (66995, 67001); (67003, 67004); (67072, 67382);
    (67392, 67413); (67424, 67431); (67456, 67461); (67463, 67504); (67506, 67514); (67584,
    67589); (67592, 67592); (67594, 67637); (67639, 67640); (67644, 67644); (67647, 67669);
    (67671, 67742); (67751, 67759); (67808, 67826); (67828, 67829); (67835, 67867); (67871,
    67897); (67903, 67903); (67968, 68023); (68028, 68047); (68050, 68099); (68101, 68102);
    (68108, 68115); (68117, 68119); (68121, 68149); (68152, 68154); (68159, 68168); (68176,
    68184); (68192, 68255); (68288, 68326); (68331, 68342); (68352, 68405); (68409, 68437);
    (68440, 68466); (68472, 68497); (68505, 68508); (68521, 68527); (68608, 68680); (68736,
    68786); (68800, 68850); (68858, 68903); (68912, 68921); (69216, 69246); (69248, 69289);
    (69291, 69293); (69296, 69297); (69376, 69415); (69424, 69465); (69488, 69513); (69552,
    69579); (69600, 69622); (69632, 69709); (69714, 69749); (69759, 69820); (69822, 69826);
    (69840, 69864); (69872, 69881); (69888, 69940); (69942, 69959); (69968, 70006); (70016,
    70111); (70113, 70132); (70144, 70161); (70163, 70206); (70272, 70278); (70280, 70280);
    (70282, 70285); (70287, 70301); (70303, 70313); (70320, 70378); (70384, 70393); (70400,
    70403); (70405, 70412); (70415, 70416); (70419, 70440); (70442, 70448); (70450, 70451);
    (70453, 70457); (70459, 70468); (70471, 70472); (70475, 70477); (70480, 70480); (70487,
    70487); (70493, 70499); (70502, 70508); (70512, 70516); (70656, 70747); (70749, 70753);
    (70784, 70855); (70864, 70873); (71040, 71093); (71096, 71133); (71168, 71236); (71248,
    71257); (71264, 71276); (71296, 71353); (71360, 71369); (71424, 71450); (71453, 71467);
    (71472, 71494); (71680, 71739); (71840, 71922); (71935, 71942); (71945, 71945); (71948,
    71955); (71957, 71958); (71960, 71989); (71991, 71992); (71995, 72006); (72016, 72025);
    (72096, 72103); (72106, 72151); (72154, 72164); (72192, 72263); (72272, 72354); (72368,
    72440); (72704, 72712); (72714, 72758); (72760, 72773); (72784, 72812); (72816, 72847);
    (72850, 72871); (72873, 72886); (72960, 72966); (72968, 72969); (72971, 73014); (73018,
    73018); (73020, 73021); (73023, 73031); (73040, 73049); (73056, 73061); (73063, 73064);
    (73066, 73102); (73104, 73105); (73107, 73112); (73120, 73129); (73440, 73464); (73648,
    73648); (73664, 73713); (73727, 74649); (74752, 74862); (74864, 74868); (74880, 75075);
    (77712, 77810); (77824, 78894); (82944, 83526); (92160, 92728); (92736, 92766); (92768,
    92777); (92782, 92862); (92864, 92873); (92880, 92909); (92912, 92917); (92928, 92997);
    (93008, 93017); (93019, 93025); (93027, 93047); (93053, 93071); (93760, 93850); (93952,
    94026); (94031, 94087); (94095, 94111); (94176, 94180); (94192, 94193); (94208, 100343);
    (100352, 101589); (101632, 101640); (110576, 110579); (110581, 110587); (110589, 110590);
    (110592, 110882); (110928, 110930); (110948, 110951); (110960, 111355); (113664, 113770);
    (113776, 113788); (113792, 113800); (113808, 113817); (113820, 113823); (118528, 118573);
    (118576, 118598); (118608, 118723); (118784, 119029); (119040, 119078); (119081, 119154);
    (119163, 119274); (119296, 119365); (119520, 119539); (119552, 119638); (119648, 119672);
    (119808, 119892); (119894, 119964); (119966, 119967); (119970, 119970); (119973, 119974);
    (119977, 119980); (119982, 119993); (119995, 119995); (119997, 120003); (120005, 120069);
    (120071, 120074); (120077, 120084); (120086, 120092); (120094, 120121); (120123, 120126);
    (120128, 120132); (120134, 120134); (120138, 120144); (120146, 120485); (120488, 120779);
    (120782, 121483); (121499, 121503); (121505, 121519); (122624, 122654); (122880, 122886);
    (122888, 122904); (122907, 122913); (122915, 122916); (122918, 122922); (123136, 123180);
    (123184, 123197); (123200, 123209); (123214, 123215); (123536, 123566); (123584, 123641);
    (123647, 123647); (124896, 124902); (124904, 124907); (124909, 124910); (124912, 124926);
    (124928, 125124); (125127, 125142); (125184, 125259); (125264, 125273); (125278, 125279);
    (126065, 126132); (126209, 126269); (126464, 126467); (126469, 126495); (126497, 126498);
    (126500, 126500); (126503, 126503); (126505, 126514); (126516, 126519); (126521, 126521);
    (126523, 126523); (126530, 126530); (126535, 126535); (126537, 126537); (126539, 126539);
    (126541, 126543); (126545, 126546); (126548, 126548); (126551, 126551); (126553, 126553);
    (126555, 126555); (126557, 126557); (126559, 126559); (126561, 126562); (126564, 126564);
    (126567, 126570); (126572, 126578); (126580, 126583); (126585, 126588); (126590, 126590);
    (126592, 126601); (126603, 126619); (126625, 126627); (126629, 126633); (126635, 126651);
    (126704, 126705); (126976, 127019); (127024, 127123); (127136, 127150); (127153, 127167);
    (127169, 127183); (127185, 127221); (127232, 127405); (127462, 127490); (127504, 127547);
    (127552, 127560); (127568, 127569); (127584, 127589); (127744, 128727); (128733, 128748);
    (128752, 128764); (128768, 128883); (128896, 128984); (128992, 129003); (129008, 129008);
    (129024, 129035); (129040, 129095); (129104, 129113); (129120, 129159); (129168, 129197);
    (129200, 129201); (129280, 129619); (129632, 129645); (129648, 129652); (129656, 129660);
    (129664, 129670); (129680, 129708); (129712, 129722); (129728, 129733); (129744, 129753);
    (129760, 129767); (129776, 129782); (129792, 129938); (129940, 129994); (130032, 130041);
    (131072, 173791); (173824, 177976); (177984, 178205); (178208, 183969); (183984, 191456);
    (194560, 195101); (196608, 201546); (917760, 917999)
  ].

Definition isprintable (c : codepoint) : bool :=
  if c <? 127 then 32 <=? c
  else existsb (fun r => (fst r <=? c) && (c <=? snd r)) printable_ranges.

(** One character of [repr(s)] inside the quote [q]. *)
Definition repr_char (q c : codepoint) : string :=
  if (c =? q) || (c =? 92) then String 92 (String c "")
  else if c =? 10 then bs +:+ "n"
  else if c =? 13 then bs +:+ "r"
  else if c =? 9 then bs +:+ "t"
  else if isprintable c then String c ""
  else if c <? 256 then bs +:+ "x" +:+ hex 2 c
  else if c <? 65536 then bs +:+ "u" +:+ hex 4 c
  else bs +:+ "U" +:+ hex 8 c.

Fixpoint repr_body (q : codepoint) (s : string) : string :=
  match s with
  | EmptyString => EmptyString
  | String c s' => repr_char q c +:+ repr_body q s'
  end.

(** [repr(s)]: single quotes unless the text has a single quote and no
    double quote. *)
Definition repr (s : string) : string :=
  let q := if mem_char 39 s && negb (mem_char 34 s) then 34 else 39 in
  String q (repr_body q s) +:+ String q "".

Fixpoint of_uint (d : Decimal.uint) : string :=
  match d with
  | Decimal.Nil => EmptyString
  | Decimal.D0 r => String 48 (of_uint r)
  | Decimal.D1 r => String 49 (of_uint r)
  | Decimal.D2 r => String 50 (of_uint r)
  | Decimal.D3 r => String 51 (of_uint r)
  | Decimal.D4 r => String 52 (of_uint r)
  | Decimal.D5 r => String 53 (of_uint r)
  | Decimal.D6 r => String 54 (of_uint r)
  | Decimal.D7 r => String 55 (of_uint r)
  | Decimal.D8 r => String 56 (of_uint r)
  | Decimal.D9 r => String 57 (of_uint r)
  end.

(** [str(n)] for a natural number *)
Definition str_nat (n : nat) : string := of_uint (Nat.to_uint n).

Arguments append : simpl never.
Arguments isspace : simpl never.
Arguments upper_char : simpl never.

End PyStr.

Import PyStr.

Local Open Scope pystr_scope.

#[global] Instance string_eq_dec : EqDecision string.
Proof. solve_decision. Defined.

#[global] Instance string_countable : Countable string :=
  inj_countable' PyStr.to_list PyStr.of_list
    (fun s => ltac:(induction s as [|c s IH]; [reflexivity|]; cbn; now rewrite IH)).

(** [utils.clean_string] *)
Definition clean_string (s : string) : string := strip (sub_spaces false s).


(** ** Data model *)

(** A Python exception, carrying what [str(e)] prints. *)
Inductive exn : Type := Exception (msg : string).

Definition str_exn (e : exn) : string := let 'Exception m := e in m.

Inductive result (A : Type) : Type :=
| Ok (a : A)
| Raise (e : exn).
Arguments Ok {A} a.
Arguments Raise {A} e.

(** Values stored in the payload of an index point: [None], a [str] or a
    list of [str]. *)
Inductive PyVal : Type :=
| VNone
| VStr (s : string)
| VList (l : list string).

#[global] Instance PyVal_eq_dec : EqDecision PyVal.
Proof. solve_decision. Defined.

(** [bool(v)] *)
Definition truthy (v : PyVal) : bool :=
  match v with
  | VNone => false
  | VStr s => negb (PyStr.eqb s "")
  | VList l => match l with [] => false | _ => true end
  end.

(** [a + b]: lists and strings concatenate with their own kind, anything
    else is a [TypeError]. *)
Definition py_add (a b : PyVal) : result PyVal :=
  match a, b with
  | VList x, VList y => Ok (VList (x ++ y))
  | VStr x, VStr y => Ok (VStr (x +:+ y))
  | _, _ => Raise (Exception "unsupported operand type(s) for +")
  end.

Definition repr_list (l : list string) : string :=
  "[" +:+ join ", " (map repr l) +:+ "]".

Definition repr_val (v : PyVal) : string :=
  match v with
  | VNone => "None"
  | VStr s => repr s
  | VList l => repr_list l
  end.

(** The retrieved evidence: one entry per surviving match. *)
Definition Evidence : Type := list PyVal.

(** [str(context)], what [f"{context}"] prints *)
Definition str_context (c : Evidence) : string :=
  "[" +:+ join ", " (map repr_val c) +:+ "]".

(** One turn of [memory.chat_memory.messages], or a message handed to the
    chat model. *)
Inductive Message : Type :=
| SystemMessage (content : string)
| HumanMessage (content : string)
| AIMessage (content : string).

Definition message_type (m : Message) : string :=
  match m with
  | SystemMessage _ => "system"
  | HumanMessage _ => "human"
  | AIMessage _ => "ai"
  end.

Definition message_content (m : Message) : string :=
  match m with
  | SystemMessage c | HumanMessage c | AIMessage c => c
  end.

(** The dictionaries [{"role": ..., "content": ...}] built by the agents. *)
Record ChatTurn : Type := { role : string; content : string }.

(** A match of [query_points]. *)
Record ScoredPoint : Type := {
  score : Q;
  payload : gmap string PyVal
}.

(** A point of [scroll]; its payload may be [None]. *)
Record IndexRecord : Type := { record_payload : option (gmap string PyVal) }.

(** The two shapes [scroll] answers in: an object with [points] and
    [next_page_offset], or a tuple of length one, two or three. *)
Inductive ScrollResponse : Type :=
| ScrollResult (points : list IndexRecord) (next_page_offset : option nat)
| ScrollTuple1 (points : list IndexRecord)
| ScrollTuple2 (points : list IndexRecord) (next_page_offset : option nat)
| ScrollTuple3 (points : list IndexRecord) (next_page_offset : option nat) (has_more : bool).

Inductive Embedding : Type :=
| EmbedQuery (v : list Q)
| EmbedDocuments (vs : list (list Q)).

(** ** The world outside the process *)

Record World : Type := {
  (** [chat_model.invoke], n-th call *)
  chat_model_invoke : nat -> list Message -> result string;
  (** [embedding_model.embed_query] and [embed_documents], n-th call *)
  embed_query : nat -> string -> result (list Q);
  embed_documents : nat -> list string -> result (list (list Q));
  (** [len(tokenizer.encode(text))] *)
  count_tokens : string -> nat;
  (** [datetime.now().isoformat()] at the n-th log write *)
  now_isoformat : nat -> string;
  (** [os.makedirs], [open(.., "a")] and [file.write] of the n-th log
      write: [None] when the line reaches the file *)
  log_write : nat -> option exn;
  (** [qdrant_client.query_points(..).points], n-th call *)
  query_points : nat -> Embedding -> string -> result (list ScoredPoint);
  (** [qdrant_client.scroll], n-th call, at a page offset *)
  scroll : nat -> option nat -> result ScrollResponse;
  (** [IsRelevantAgent.assess_relevance], n-th call ([is_relevant_agent.py]
      is not part of the sources at hand): an exception, a pair
      [(relevant, reason)], or [None] for anything that is not a pair *)
  assess_relevance_oracle :
    nat -> string -> string -> Evidence -> result (option (bool * string))
}.

(** ** Program state *)

Record State : Type := {
  (** [memory.chat_memory.messages] *)
  messages : list Message;
  (** lines of [tokens_count/total_tokens.txt] written so far *)
  token_log : list string;
  chat_calls : nat;
  embed_calls : nat;
  log_calls : nat;
  query_calls : nat;
  scroll_calls : nat;
  (** calls of [generate_answer] and of [assess_relevance], as a mock
      would count them *)
  generate_answer_calls : nat;
  assess_relevance_calls : nat
}.

Definition initial_state : State :=
  {| messages := []; token_log := []; chat_calls := 0; embed_calls := 0;
     log_calls := 0; query_calls := 0; scroll_calls := 0;
     generate_answer_calls := 0; assess_relevance_calls := 0 |}.

(** ** State and exception monad *)

Definition M (A : Type) : Type := State -> result A * State.

#[global] Instance M_ret : MRet M := fun A a st => (Ok a, st).

#[global] Instance M_bind : MBind M := fun A B f m st =>
  match m st with
  | (Ok a, st') => f a st'
  | (Raise e, st') => (Raise e, st')
  end.

Definition raise {A : Type} (e : exn) : M A := fun st => (Raise e, st).

(** [try: body except Exception as e: handler(e)] *)
Definition try_except {A : Type} (body : M A) (handler : exn -> M A) : M A :=
  fun st =>
    match body st with
    | (Ok a, st') => (Ok a, st')
    | (Raise e, st') => handler e st'
    end.

Definition get_state : M State := fun st => (Ok st, st).
Definition modify (f : State -> State) : M unit := fun st => (Ok tt, f st).

Definition set_messages (ms : list Message) (st : State) : State :=
  {| messages := ms; token_log := token_log st; chat_calls := chat_calls st;
     embed_calls := embed_calls st; log_calls := log_calls st;
     query_calls := query_calls st; scroll_calls := scroll_calls st;
     generate_answer_calls := generate_answer_calls st;
     assess_relevance_calls := assess_relevance_calls st |}.

Definition set_token_log (l : list string) (st : State) : State :=
  {| messages := messages st; token_log := l; chat_calls := chat_calls st;
     embed_calls := embed_calls st; log_calls := log_calls st;
     query_calls := query_calls st; scroll_calls := scroll_calls st;
     generate_answer_calls := generate_answer_calls st;
     assess_relevance_calls := assess_relevance_calls st |}.

Definition set_chat_calls (n : nat) (st : State) : State :=
  {| messages := messages st; token_log := token_log st; chat_calls := n;
     embed_calls := embed_calls st; log_calls := log_calls st;
     query_calls := query_calls st; scroll_calls := scroll_calls st;
     generate_answer_calls := generate_answer_calls st;
     assess_relevance_calls := assess_relevance_calls st |}.

Definition set_embed_calls (n : nat) (st : State) : State :=
  {| messages := messages st; token_log := token_log st; chat_calls := chat_calls st;
     embed_calls := n; log_calls := log_calls st;
     query_calls := query_calls st; scroll_calls := scroll_calls st;
     generate_answer_calls := generate_answer_calls st;
     assess_relevance_calls := assess_relevance_calls st |}.

Definition set_log_calls (n : nat) (st : State) : State :=
  {| messages := messages st; token_log := token_log st; chat_calls := chat_calls st;
     embed_calls := embed_calls st; log_calls := n;
     query_calls := query_calls st; scroll_calls := scroll_calls st;
     generate_answer_calls := generate_answer_calls st;
     assess_relevance_calls := assess_relevance_calls st |}.

Definition set_query_calls (n : nat) (st : State) : State :=
  {| messages := messages st; token_log := token_log st; chat_calls := chat_calls st;
     embed_calls := embed_calls st; log_calls := log_calls st;
     query_calls := n; scroll_calls := scroll_calls st;
     generate_answer_calls := generate_answer_calls st;
     assess_relevance_calls := assess_relevance_calls st |}.

Definition set_scroll_calls (n : nat) (st : State) : State :=
  {| messages := messages st; token_log := token_log st; chat_calls := chat_calls st;
     embed_calls := embed_calls st; log_calls := log_calls st;
     query_calls := query_calls st; scroll_calls := n;
     generate_answer_calls := generate_answer_calls st;
     assess_relevance_calls := assess_relevance_calls st |}.

Definition set_generate_answer_calls (n : nat) (st : State) : State :=
  {| messages := messages st; token_log := token_log st; chat_calls := chat_calls st;
     embed_calls := embed_calls st; log_calls := log_calls st;
     query_calls := query_calls st; scroll_calls := scroll_calls st;
     generate_answer_calls := n;
     assess_relevance_calls := assess_relevance_calls st |}.

Definition set_assess_relevance_calls (n : nat) (st : State) : State :=
  {| messages := messages st; token_log := token_log st; chat_calls := chat_calls st;
     embed_calls := embed_calls st; log_calls := log_calls st;
     query_calls := query_calls st; scroll_calls := scroll_calls st;
     generate_answer_calls := generate_answer_calls st;
     assess_relevance_calls := n |}.

(** ** Token log and text client ([utils.py], [llm_client.py]) *)

Section TextClient.

Variable w : World.

(** [utils.log_token_usage] *)
Definition log_token_usage (operation : string) (input_tokens output_tokens : nat)
  : M unit :=
  if negb (bool_decide (operation ∈ ["response_generation"; "embeddings_generation"]))
  then raise (Exception
    "Operation must be either 'response_generation' or 'embeddings_generation'.")
  else fun st =>
    let n := log_calls st in
    let timestamp := now_isoformat w n in
    let line := timestamp +:+ " - " +:+ operation +:+ ": input="
                +:+ str_nat input_tokens +:+ ", output="
                +:+ str_nat output_tokens +:+ nl in
    match log_write w n with
    | Some e => (Raise e, set_log_calls (S n) st)
    | None => (Ok tt, set_token_log (token_log st ++ [line]) (set_log_calls (S n) st))
    end.

(** The branch on [msg["role"]] of [generate_response]. *)
Definition to_langchain (msg : ChatTurn) : Message :=
  if PyStr.eqb (role msg) "system" then SystemMessage (content msg)
  else if PyStr.eqb (role msg) "human" || PyStr.eqb (role msg) "user"
       then HumanMessage (content msg)
  else if PyStr.eqb (role msg) "assistant" then AIMessage (content msg)
  else HumanMessage (content msg).

Definition invoke_chat_model (ms : list Message) : M string :=
  fun st => (chat_model_invoke w (chat_calls st) ms,
             set_chat_calls (S (chat_calls st)) st).

(** [LLMClient.generate_response] *)
Definition generate_response (msgs : list ChatTurn) : M string :=
  let langchain_messages := map to_langchain msgs in
  let total_input_tokens :=
    foldr (fun msg acc => count_tokens w (content msg) + acc) 0 msgs in
  response ← invoke_chat_model langchain_messages;
  let output_tokens := count_tokens w response in
  _ ← log_token_usage "response_generation" total_input_tokens output_tokens;
  mret response.

Definition invoke_embedding_model (texts : list string) : M Embedding :=
  fun st =>
    let n := embed_calls st in
    let r := match texts with
             | [t] => match embed_query w n t with
                      | Ok v => Ok (EmbedQuery v)
                      | Raise e => Raise e
                      end
             | _ => match embed_documents w n texts with
                    | Ok vs => Ok (EmbedDocuments vs)
                    | Raise e => Raise e
                    end
             end in
    (r, set_embed_calls (S n) st).

(** [LLMClient.generate_embeddings] *)
Definition generate_embeddings (texts : list string) : M Embedding :=
  let total_input_tokens := foldr (fun t acc => count_tokens w t + acc) 0 texts in
  embeddings ← invoke_embedding_model texts;
  _ ← log_token_usage "embeddings_generation" total_input_tokens 0;
  mret embeddings.

End TextClient.

(** ** Query refiner ([input_refiner.py]) *)

Module InputRefiner.

Definition system_prompt : string :=
  join nl
  [ "";
    "        You are a question refinement specialist for Amazon product support.";
    "";
    "        Given a question from the user, your task is to:";
    "        1. Fix typos and grammatical errors in the user question";
    "        2. Expand abbreviations and clarify ambiguous terms";
    "        3. Maintain the original intent while making the question more specific";
    "";
    "        Return only the refined question without any explanations or additional text.";
    "        " ].

Definition human_input (user_input : string) : string :=
  join nl
  [ "";
    "        Refine the following user question to improve clarity and specificity.";
    "        Focus on making the question more detailed and relevant to product materials and durability.";
    "";
    "        User Question: " +:+ user_input;
    "        " ].

Definition refine_messages (user_input : string) : list ChatTurn :=
  [ {| role := "system"; content := system_prompt |};
    {| role := "user"; content := clean_string (human_input user_input) |} ].

(** [InputRefiner.refine_input] *)
Definition refine_input (w : World) (user_input : string) : M string :=
  response ← generate_response w (refine_messages user_input);
  mret (strip response).

End InputRefiner.

(** ** Answerability checker ([is_answerable_agent.py]) *)

Module IsAnswerableAgent.

Definition system_prompt : string :=
  join nl
  [ "";
    "        You are a verification specialist for Amazon product support.";
    "        Your task is to determine if a user's question can be reliably answered using the provided information.";
    "";
    "        Given the available information and the user question, evaluate if the retrieved information contains enough relevant details to provide a helpful, accurate answer.";
    "        Consider:";
    "        1. Does the information directly address the user's question?";
    "        2. Are there specific details about the product features mentioned in the question?";
    "        3. Is the information recent and relevant?";
    "        4. Are there multiple perspectives or experiences shared?";
    "";
    "        Respond with only " +:+ dq +:+ "YES" +:+ dq +:+ " if the question can be answered, or " +:+ dq +:+ "NO" +:+ dq +:+ " if it cannot be answered reliably.";
    "        " ].

Definition human_input (user_question retrieved_info : string) : string :=
  join nl
  [ "";
    "        Based on the following information, determine if the user's question can be answered.";
    "";
    "        User Question:";
    "        " +:+ user_question;
    "";
    "        Retrieved Information:";
    "        " +:+ retrieved_info;
    "";
    "        Provide a simple " +:+ dq +:+ "YES" +:+ dq +:+ " or " +:+ dq +:+ "NO" +:+ dq +:+ " response based on the information's relevance and completeness.";
    "        Do not provide any additional explanations or details other than your " +:+ dq +:+ "YES" +:+ dq +:+ " or " +:+ dq +:+ "NO" +:+ dq +:+ " answer.";
    "        " ].

Definition check_messages (user_question : string) (retrieved_info : Evidence)
  : list ChatTurn :=
  [ {| role := "system"; content := system_prompt |};
    {| role := "user";
       content := clean_string (human_input user_question (str_context retrieved_info)) |} ].

Definition no_information : string :=
  "I don't  have relevant information in my data to answer your question.".

Definition sufficient : string :=
  "The retrieved information is sufficient to answer the question.".

(** The three-way decode of the model's text, after [.strip().upper()]. *)
Definition decode (raw : string) : bool * string :=
  let response := upper (strip raw) in
  if startswith "YES" response then (true, sufficient)
  else if startswith "NO" response then (false, no_information)
  else (false, "Unexpected response from LLM: " +:+ response).

(** [IsAnswerableAgent.check_answerability]. The prompt text is built
    before the test on [retrieved_info]; building it has no effect. *)
Definition check_answerability (w : World) (user_question : string)
  (retrieved_info : Evidence) : M (bool * string) :=
  match retrieved_info with
  | [] => mret (false, no_information)
  | _ :: _ =>
      try_except
        (raw ← generate_response w (check_messages user_question retrieved_info);
         mret (decode raw))
        (fun e => mret (false, "Error during answerability check: " +:+ str_exn e))
  end.

End IsAnswerableAgent.

(** ** Answer generator ([answer_generator.py]) *)

Module AnswerGenerator.

Definition system_prompt : string :=
  join nl
  [ "";
    "        You are Alexupport, an expert Amazon product support assistant.";
    "        Your role is to provide helpful, accurate answers based on real customer experiences and verified information.";
    "";
    "        Guidelines:";
    "        1. Base your answers ONLY on the provided information from customer reviews and Q&A";
    "        2. Be specific and detailed in your responses";
    "        3. Mention specific product features, experiences, or issues when relevant";
    "        4. Use a friendly, professional tone";
    "        5. If there are conflicting opinions, acknowledge different perspectives";
    "        6. Don't speculate or make claims not supported by the data";
    "        7. Keep responses concise but informative";
    "";
    "        Format your response as a clear, helpful answer that directly addresses the user's question.";
    "        " ].

(** [bool(self.chat_history)]: the memory object defines neither
    [__bool__] nor [__len__], so it is true whatever it holds. *)
Definition memory_bool (chat_history : list Message) : bool := true.

(** ["; ".join(f"{message.type.upper()}: {message.content}" ...)] *)
Definition history_string (chat_history : list Message) : string :=
  join "; "
    (map (fun m => upper (message_type m) +:+ ": " +:+ message_content m) chat_history).

Definition history_prefix (chat_history : list Message) : string :=
  if memory_bool chat_history
  then "Here's the history of the current chat: [" +:+ history_string chat_history +:+ "]."
  else "".

Definition human_input (history_prefix user_question context : string) : string :=
  join nl
  [ "";
    "        " +:+ history_prefix;
    "        Based on the following information from real customer experiences and reviews, answer the following question using the available information.";
    "";
    "        Question: " +:+ user_question;
    "";
    "        Available Information:";
    "        " +:+ context;
    "";
    "        Provide a helpful, accurate answer based on this information.";
    "        " ].

(** The text of the human turn sent to the model. *)
Definition complete_human_input (chat_history : list Message)
  (user_question : string) (context : Evidence) : string :=
  clean_string
    (human_input (history_prefix chat_history) user_question (str_context context)).

Definition answer_messages (chat_history : list Message)
  (user_question : string) (context : Evidence) : list ChatTurn :=
  [ {| role := "system"; content := system_prompt |};
    {| role := "human";
       content := complete_human_input chat_history user_question context |} ].

(** [AnswerGenerator.generate_answer]; the memory it reads is the one
    the orchestrator appends to. *)
Definition generate_answer (w : World) (user_question : string)
  (context : Evidence) : M string :=
  _ ← modify (fun st => set_generate_answer_calls (S (generate_answer_calls st)) st);
  st ← get_state;
  answer ← generate_response w (answer_messages (messages st) user_question context);
  mret (strip answer).

End AnswerGenerator.

(** ** Follow-up generator ([followup_generator.py]) *)

Module FollowUpGenerator.

Definition system_prompt : string :=
  join nl
  [ "";
    "        You are a customer experience specialist for Amazon product support.";
    "        Your role is to generate 2-3 relevant follow-up questions that would help users discover more useful information.";
    "";
    "        Guidelines:";
    "        1. Questions should be related to the user's original question, and to the retrieved information";
    "        2. Focus on practical concerns users might have";
    "        3. Make questions specific and actionable";
    "        4. Avoid generic questions like " +:+ dq +:+ "Do you have any other questions?" +:+ dq;
    "        5. Questions should help users make informed decisions";
    "";
    "        Format your response as a simple list of 2-3 questions, one per line, without numbering or bullet points.";
    "        " ].

Definition human_input (user_question context : string) : string :=
  join nl
  [ "";
    "        Based on the following conversation, generate 2-3 relevant follow-up questions:";
    "";
    "        User question: " +:+ user_question;
    "        Available Information Context:";
    "        " +:+ context;
    "";
    "        Generate follow-up questions that would help the user discover more useful information about this product or related concerns.";
    "        Return the follow-up questions as a simple list, each question on a new line, separated by a newline character.";
    "        " ].

Definition follow_up_messages (user_question : string) (context : Evidence)
  : list ChatTurn :=
  [ {| role := "system"; content := system_prompt |};
    {| role := "human";
       content := clean_string (human_input user_question (str_context context)) |} ].

(** [[q.strip() for q in follow_ups.split('\n')]] *)
Definition split_follow_ups (follow_ups : string) : list string :=
  map strip (split "010"%char follow_ups).

(** [FollowUpGenerator.generate_follow_ups] *)
Definition generate_follow_ups (w : World) (user_question : string)
  (context : Evidence) : M (list string) :=
  follow_ups ← generate_response w (follow_up_messages user_question context);
  mret (split_follow_ups follow_ups).

End FollowUpGenerator.

(** ** Information retriever ([information_retriever.py]) *)

Module InformationRetriever.

(** An entry of the product list: [{"asin": .., "productTitle": ..}]. *)
Record Product : Type := { asin : string; productTitle : PyVal }.

(** [points] and [page_offset] out of either response shape. *)
Definition decode_scroll (resp : ScrollResponse)
  : list IndexRecord * option nat :=
  match resp with
  | ScrollResult points next => (points, next)
  | ScrollTuple1 points => (points, None)
  | ScrollTuple2 points next => (points, next)
  | ScrollTuple3 points next _ => (points, next)
  end.

(** [payload.get(key)] *)
Definition payload_get (key : string) (p : gmap string PyVal) : PyVal :=
  default VNone (p !! key).

(** The [for p in points] loop of [list_products]. A truthy [asin] that
    is a list cannot be looked up in the set [seen]. *)
Fixpoint add_points (points : list IndexRecord)
  (collected : list Product) (seen : gset string)
  : result (list Product * gset string) :=
  match points with
  | [] => Ok (collected, seen)
  | p :: rest =>
      let payload := default ∅ (record_payload p) in
      let asin_v := payload_get "asin" payload in
      let title := payload_get "productTitle" payload in
      match asin_v with
      | VList (_ :: _) => Raise (Exception "unhashable type: 'list'")
      | VStr a =>
          if truthy asin_v && negb (bool_decide (a ∈ seen))
          then add_points rest
                 (collected ++
                    [ {| asin := a;
                         productTitle := if truthy title then title
                                         else VStr "(untitled)" |} ])
                 ({[ a ]} ∪ seen)
          else add_points rest collected seen
      | _ => add_points rest collected seen
      end
  end.

Definition call_scroll (w : World) (page_offset : option nat) : M ScrollResponse :=
  fun st => (scroll w (scroll_calls st) page_offset,
             set_scroll_calls (S (scroll_calls st)) st).

(** The [while len(collected) < limit] loop of [list_products]; [fuel]
    bounds the number of pages read, and [None] says that the loop was
    still running when the fuel ran out. *)
Fixpoint list_products_loop (w : World) (fuel : nat) (limit : Z)
  (collected : list Product) (page_offset : option nat) (seen : gset string)
  : M (option (list Product)) :=
  if (Z.of_nat (length collected) <? limit)%Z then
    match fuel with
    | O => mret None
    | S fuel' =>
        resp ← call_scroll w page_offset;
        let '(points, page_offset') := decode_scroll resp in
        match points with
        | [] => mret (Some collected)
        | _ :: _ =>
            match add_points points collected seen with
            | Raise e => raise e
            | Ok (collected', seen') =>
                match page_offset' with
                | None => mret (Some collected')
                | Some _ =>
                    list_products_loop w fuel' limit collected' page_offset' seen'
                end
            end
        end
    end
  else mret (Some collected).

(** [InformationRetriever.list_products] *)
Definition list_products (w : World) (fuel : nat) (limit : Z)
  : M (option (list Product)) :=
  list_products_loop w fuel limit [] None ∅.

(** [payload.get(key, [])] *)
Definition payload_get_list (key : string) (p : gmap string PyVal) : PyVal :=
  default (VList []) (p !! key).

(** [point.score >= 0.5] *)
Definition score_ok (p : ScoredPoint) : bool := Qle_bool (1 # 2) (score p).

(** [payload.get('answers', []) + payload.get('review_snippets', [])] *)
Definition snippets (p : ScoredPoint) : result PyVal :=
  py_add (payload_get_list "answers" (payload p))
         (payload_get_list "review_snippets" (payload p)).

(** The second list comprehension of [retrieve_information]. *)
Fixpoint collect_snippets (points : list ScoredPoint) : result Evidence :=
  match points with
  | [] => Ok []
  | p :: rest =>
      match snippets p with
      | Raise e => Raise e
      | Ok v =>
          match collect_snippets rest with
          | Raise e => Raise e
          | Ok vs => Ok (v :: vs)
          end
      end
  end.

Definition call_query_points (w : World) (query_vector : Embedding)
  (product_id : string) : M (list ScoredPoint) :=
  fun st => (query_points w (query_calls st) query_vector product_id,
             set_query_calls (S (query_calls st)) st).

(** [InformationRetriever.retrieve_information] *)
Definition retrieve_information (w : World) (query product_id : string)
  : M Evidence :=
  try_except
    (query_vector ← generate_embeddings w [query];
     search_results ← call_query_points w query_vector product_id;
     let points := List.filter score_ok search_results in
     match collect_snippets points with
     | Raise e => raise e
     | Ok results => mret results
     end)
    (fun e => raise (Exception ("Error retrieving information: " +:+ str_exn e))).

End InformationRetriever.

(** ** Orchestrator ([alexupport_agent.py]) *)

Module AlexupportAgent.

Import InputRefiner IsAnswerableAgent AnswerGenerator FollowUpGenerator
       InformationRetriever.

(** [AlexupportAgent.format_final_answer] *)
Definition format_final_answer (answer : string) (follow_ups : list string)
  : string :=
  join nl
  [ "";
    "        " +:+ answer;
    "        Here are some follow-up questions you might consider:";
    "        " +:+ join "; " follow_ups;
    "        " ].

Definition unanswerable_message (reason1 : string) : string :=
  join nl
  [ "Sorry — I couldn't find information reliable enough to answer that.";
    "";
    "Reason: " +:+ reason1 ].

Definition exhausted_message (reason2 : string) : string :=
  join nl
  [ "Sorry — I couldn't find a relevant answer to that.";
    "";
    "Reason: " +:+ reason2 ].

(** [self.memory.chat_memory.messages.append(m)] *)
Definition append_message (m : Message) : M unit :=
  modify (fun st => set_messages (messages st ++ [m]) st).

(** The call of [self.is_relevant_generator.assess_relevance]. *)
Definition assess_relevance (w : World) (user_question generated_response : string)
  (context : Evidence) : M (option (bool * string)) :=
  fun st =>
    let n := assess_relevance_calls st in
    (assess_relevance_oracle w n user_question generated_response context,
     set_assess_relevance_calls (S n) st).

(** Follow-ups, formatting, the assistant turn and the return value:
    the common tail of the three exits of [answer]. *)
Definition finish (w : World) (text refined_query : string)
  (retrieved_info : Evidence) : M string :=
  followup_questions ← generate_follow_ups w refined_query retrieved_info;
  let final_answer := format_final_answer text followup_questions in
  _ ← append_message (AIMessage final_answer);
  mret final_answer.

(** The code after the loop; [reason2] is unbound when the loop body
    never ran. *)
Definition after_loop (w : World) (refined_query : string)
  (retrieved_info : Evidence) (reason2 : option string) : M string :=
  match reason2 with
  | None => raise (Exception "local variable 'reason2' referenced before assignment")
  | Some r => finish w (exhausted_message r) refined_query retrieved_info
  end.

(** [while iteration < 5: ...] and what follows it. The loop runs at
    most [5 - iteration] times, so [fuel = 5] never runs out before the
    guard fails. *)
Fixpoint generation_loop (w : World) (fuel iteration : nat)
  (refined_query : string) (retrieved_info : Evidence) (reason2 : option string)
  : M string :=
  match fuel with
  | O => after_loop w refined_query retrieved_info reason2
  | S fuel' =>
      if (iteration <? 5)%nat then
        answer ← generate_answer w refined_query retrieved_info;
        relevance_result ← assess_relevance w refined_query answer retrieved_info;
        match relevance_result with
        | None =>
            raise (Exception "assess_relevance must return a tuple (bool, str).")
        | Some (relevant, reason2') =>
            if relevant : bool
            then finish w answer refined_query retrieved_info
            else generation_loop w fuel' (S iteration) refined_query
                   retrieved_info (Some reason2')
        end
      else after_loop w refined_query retrieved_info reason2
  end.

(** The body of the [try] block of [answer]. [check_answerability]
    returns a pair on every path, so the [isinstance] test on its result
    never fires; the one on the result of [assess_relevance] is the [None]
    case of [generation_loop]. *)
Definition answer_body (w : World) (user_query asin : string) : M string :=
  _ ← append_message (HumanMessage user_query);
  refined_query ← refine_input w user_query;
  retrieved_info ← retrieve_information w refined_query asin;
  '(answerable, reason1) ← check_answerability w refined_query retrieved_info;
  if answerable : bool
  then generation_loop w 5 0 refined_query retrieved_info None
  else finish w (unanswerable_message reason1) refined_query retrieved_info.

Definition error_message (e : exn) : string :=
  "An error occurred while processing your request: " +:+ str_exn e.

(** [except Exception as e]: the error text becomes an assistant turn
    and the return value. *)
Definition outer_guard (r : result string * State) : string * State :=
  match r with
  | (Ok final_answer, st') => (final_answer, st')
  | (Raise e, st') =>
      (error_message e,
       set_messages (messages st' ++ [AIMessage (error_message e)]) st')
  end.

(** [AlexupportAgent.answer] *)
Definition answer (w : World) (user_query asin : string) (st : State)
  : string * State :=
  outer_guard (answer_body w user_query asin st).

End AlexupportAgent.

(** ** Auxiliary definitions for the statements *)

(** Number of occurrences of a character in a text. *)
Fixpoint count_char (c : codepoint) (s : string) : nat :=
  match s with
  | EmptyString => 0
  | String a s' => (if N.eqb a c then 1 else 0) + count_char c s'
  end.

(** No character of the text is whitespace. *)
Fixpoint no_space (s : string) : bool :=
  match s with
  | EmptyString => true
  | String c s' => negb (isspace c) && no_space s'
  end.

(** Sample worlds for the concrete runs. *)

Module Samples.

(** A world given by its chat answers, its log outcomes, its relevance
    verdicts, its index matches and its index pages; embeddings always
    succeed, every text counts as one token, the clock stands still. *)
Definition make_world
  (chat : nat -> result string)
  (log : nat -> option exn)
  (relevance : nat -> result (option (bool * string)))
  (matches : result (list ScoredPoint))
  (pages : nat -> result ScrollResponse) : World :=
  {| chat_model_invoke := fun n _ => chat n;
     embed_query := fun _ _ => Ok [1 # 1];
     embed_documents := fun _ texts => Ok (map (fun _ => [1 # 1]) texts);
     count_tokens := fun _ => 1;
     now_isoformat := fun _ => "2025-01-01T00:00:00";
     log_write := log;
     query_points := fun _ _ _ => matches;
     scroll := fun n _ => pages n;
     assess_relevance_oracle := fun n _ _ _ => relevance n |}.

Definition no_pages : nat -> result ScrollResponse :=
  fun _ => Ok (ScrollResult [] None).

(** Everything works; the model says "YES" to everything and every
    answer is found relevant. *)
Definition agreeable_world : World :=
  make_world (fun _ => Ok "YES") (fun _ => None)
             (fun _ => Ok (Some (true, "relevant"))) (Ok []) no_pages.

(** The chat model works, the token log cannot be written. *)
Definition log_down_world : World :=
  make_world (fun _ => Ok "Durable.")
             (fun _ => Some (Exception "[Errno 13] Permission denied"))
             (fun _ => Ok (Some (true, "relevant"))) (Ok []) no_pages.

Definition question : list ChatTurn :=
  [ {| role := "user"; content := "Is it waterproof?" |} ].

End Samples.

Module Samples2.

(** The model answers "maybe" to every prompt. *)
Definition maybe_world : World :=
  Samples.make_world (fun _ => Ok "maybe") (fun _ => None)
    (fun _ => Ok (Some (true, "relevant"))) (Ok []) Samples.no_pages.

(** The model answers with two questions separated by a blank line. *)
Definition follow_up_world : World :=
  Samples.make_world
    (fun _ => Ok ("Is it durable?" +:+ nl +:+ nl +:+ " How long does it last? "))
    (fun _ => None)
    (fun _ => Ok (Some (true, "relevant"))) (Ok []) Samples.no_pages.

Definition evidence : Evidence := [VList ["durable per reviews"]].

End Samples2.

(** The list stored under [key] in the payload of a match, empty when the
    key is missing. *)
Definition field_list (key : string) (p : ScoredPoint) : list string :=
  match payload p !! key with
  | Some (VList l) => l
  | _ => []
  end.

(** The fields [answers] and [review_snippets] of a match are lists when
    they are present. *)
Definition list_fields (p : ScoredPoint) : Prop :=
  forall key, key ∈ ["answers"; "review_snippets"] ->
    payload p !! key = None \/ exists l, payload p !! key = Some (VList l).

(** The evidence item of a match: its answers followed by its review
    snippets. *)
Definition evidence_item (p : ScoredPoint) : PyVal :=
  VList (field_list "answers" p ++ field_list "review_snippets" p).

Module Samples3.

Definition both_fields : ScoredPoint :=
  {| score := 9 # 10;
     payload := {[ "answers" := VList ["Yes, it is."];
                   "review_snippets" := VList ["Survived the rain."] ]} |}.

Definition low_score : ScoredPoint :=
  {| score := 3 # 10;
     payload := {[ "answers" := VList ["Not sure."] ]} |}.

Definition only_reviews : ScoredPoint :=
  {| score := 1 # 2;
     payload := {[ "asin" := VStr "B000"; "review_snippets" := VList ["Sturdy."] ]} |}.

Definition index_world : World :=
  Samples.make_world (fun _ => Ok "YES") (fun _ => None)
    (fun _ => Ok (Some (true, "relevant")))
    (Ok [both_fields; low_score; only_reviews]) Samples.no_pages.

End Samples3.

Module Samples4.

Definition record_of (a title : string) : IndexRecord :=
  {| record_payload := Some {[ "asin" := VStr a; "productTitle" := VStr title ]} |}.

(** One page with two points of different products and a third point
    that repeats the first product under another title. *)
Definition one_page : nat -> result ScrollResponse :=
  fun _ => Ok (ScrollResult
                 [ record_of "B001" "Kettle"; record_of "B002" "Toaster";
                   record_of "B001" "Kettle (renewed)" ]
                 None).

Definition catalogue_world : World :=
  Samples.make_world (fun _ => Ok "YES") (fun _ => None)
    (fun _ => Ok (Some (true, "relevant"))) (Ok []) one_page.

End Samples4.

(** The indentation of the lines of [format_final_answer]. *)
Definition indent : string := "        ".

(** [seen] holds exactly the asins collected, each collected once. *)
Definition listing_inv (collected : list InformationRetriever.Product)
  (seen : gset string) : Prop :=
  NoDup (map InformationRetriever.asin collected)
  /\ forall a, a ∈ seen <-> a ∈ map InformationRetriever.asin collected.

(** What the orchestrator owns or counts: the conversation and the two
    call counters. *)
Definition view (st : State) : list Message * nat * nat :=
  (messages st, generate_answer_calls st, assess_relevance_calls st).

(** A computation that leaves the conversation and the counters alone. *)
Definition keeps {A : Type} (m : M A) : Prop :=
  forall st, view (snd (m st)) = view st.

(** The answer that the [i]-th further call of [generate_answer] gives in
    the turn running in state [st]: the chat model is asked for the
    [i]-th time from now, with the prompt built from the conversation of
    [st], and the token line is written. *)
Definition attempt_answer (w : World) (st : State) (refined_query : string)
  (retrieved_info : Evidence) (i : nat) : result string :=
  match chat_model_invoke w (chat_calls st + i)
          (map to_langchain
             (AnswerGenerator.answer_messages (messages st) refined_query retrieved_info))
  with
  | Raise e => Raise e
  | Ok raw =>
      match log_write w (log_calls st + i) with
      | Some e => Raise e
      | None => Ok (strip raw)
      end
  end.

(** The verdict of the relevance checker on that answer. *)
Definition attempt_verdict (w : World) (st : State) (refined_query : string)
  (retrieved_info : Evidence) (i : nat) : result (option (bool * string)) :=
  match attempt_answer w st refined_query retrieved_info i with
  | Raise e => Raise e
  | Ok a =>
      assess_relevance_oracle w (assess_relevance_calls st + i)
        refined_query a retrieved_info
  end.

(** The follow-up questions that [generate_follow_ups] gives after [n]
    attempts of the turn running in state [st]: the chat model is asked
    once more, the token line is written, and the text is split into
    lines. *)
Definition follow_ups_after (w : World) (st : State) (refined_query : string)
  (retrieved_info : Evidence) (n : nat) : result (list string) :=
  match chat_model_invoke w (chat_calls st + n)
          (map to_langchain
             (FollowUpGenerator.follow_up_messages refined_query retrieved_info))
  with
  | Raise e => Raise e
  | Ok raw =>
      match log_write w (log_calls st + n) with
      | Some e => Raise e
      | None => Ok (FollowUpGenerator.split_follow_ups raw)
      end
  end.

(** A verdict "not relevant", with some reason. *)
Definition rejected (v : result (option (bool * string))) : Prop :=
  exists reason, v = Ok (Some (false, reason)).

(** The conversation after a call that started with the turns [ms]: one
    assistant turn with the returned text, or no new turn when the call
    raised. *)
Definition closes_turn (ms : list Message) (out : result string * State) : Prop :=
  match out with
  | (Ok s, st') => messages st' = (ms ++ [AIMessage s])%list
  | (Raise _, st') => messages st' = ms
  end.

Module Samples5.

Definition matches : result (list ScoredPoint) :=
  Ok [ {| score := 9 # 10;
          payload := {[ "answers" := VList ["durable per reviews"] ]} |} ].

(** The relevance checker rejects the first two answers of a turn and
    accepts the third. *)
Definition third_time_world : World :=
  Samples.make_world (fun _ => Ok "YES") (fun _ => None)
    (fun n => if (n <? 2)%nat then Ok (Some (false, "off topic"))
              else Ok (Some (true, "on topic")))
    matches Samples.no_pages.

(** The relevance checker rejects every answer; the reason names the
    call. *)
Definition never_relevant_world : World :=
  Samples.make_world (fun _ => Ok "YES") (fun _ => None)
    (fun n => Ok (Some (false, "rejected, call " +:+ str_nat n)))
    matches Samples.no_pages.

(** The relevance checker rejects every answer, and the chat model is
    gone by its eighth call, the one for the follow-up questions. *)
Definition follow_ups_down_world : World :=
  Samples.make_world
    (fun n => if (n <? 7)%nat then Ok "YES" else Raise (Exception "Connection error."))
    (fun _ => None)
    (fun n => Ok (Some (false, "rejected, call " +:+ str_nat n)))
    matches Samples.no_pages.

(** The chat model is unreachable. *)
Definition offline_world : World :=
  Samples.make_world (fun _ => Raise (Exception "Connection error."))
    (fun _ => None)
    (fun _ => Ok (Some (true, "on topic"))) matches Samples.no_pages.

End Samples5.

(** The shape of the state after one more rejected attempt. *)
Definition one_attempt_later (st st' : State) : Prop :=
  messages st' = messages st
  /\ generate_answer_calls st' = S (generate_answer_calls st)
  /\ assess_relevance_calls st' = S (assess_relevance_calls st)
  /\ chat_calls st' = S (chat_calls st)
  /\ log_calls st' = S (log_calls st).

(** ** Auxiliary definitions for the further properties *)

(** The line of the token log written at the [n]-th log write. *)
Definition token_line (w : World) (n : nat) (operation : string)
  (input_tokens output_tokens : nat) : string :=
  now_isoformat w n +:+ " - " +:+ operation +:+ ": input=" +:+ str_nat input_tokens
  +:+ ", output=" +:+ str_nat output_tokens +:+ nl.

(** The text is empty or starts with a character that is not whitespace. *)
Definition head_nonspace (s : string) : bool :=
  match s with
  | EmptyString => true
  | String d _ => negb (isspace d)
  end.

(** Every whitespace character of the text is a blank, and it is
    followed by a character that is not whitespace, or ends the text. *)
Fixpoint single_spaced (s : string) : bool :=
  match s with
  | EmptyString => true
  | String c s' =>
      (if isspace c then N.eqb c " "%char && head_nonspace s' else true)
      && single_spaced s'
  end.

(** The characters of the text that are not whitespace. *)
Fixpoint remove_spaces (s : string) : string :=
  match s with
  | EmptyString => EmptyString
  | String c s' => if isspace c then remove_spaces s' else String c (remove_spaces s')
  end.

(** No whitespace at the start or at the end of the text. *)
Definition trimmed (s : string) : Prop := lstrip s = s /\ rstrip s = s.

(** A computation that asks the chat model at most [n] times. *)
Definition chat_cost {A : Type} (m : M A) (n : nat) : Prop :=
  forall st, chat_calls (snd (m st)) <= chat_calls st + n.

Module Samples6.

(** The model says "YES" to everything; the token log cannot be written. *)
Definition yes_but_log_down_world : World :=
  Samples.make_world (fun _ => Ok "YES")
    (fun _ => Some (Exception "[Errno 13] Permission denied"))
    (fun _ => Ok (Some (true, "relevant"))) Samples5.matches Samples.no_pages.

End Samples6.

Module Samples7.

(** A match whose [answers] field is stored as [None]. *)
Definition null_answers : ScoredPoint :=
  {| score := 8 # 10;
     payload := {[ "answers" := VNone; "review_snippets" := VList ["Sturdy."] ]} |}.

Definition null_field_world : World :=
  Samples.make_world (fun _ => Ok "YES") (fun _ => None)
    (fun _ => Ok (Some (true, "relevant")))
    (Ok [Samples3.both_fields; null_answers]) Samples.no_pages.

(** The vector index is unreachable. *)
Definition index_down_world : World :=
  Samples.make_world (fun _ => Ok "YES") (fun _ => None)
    (fun _ => Ok (Some (true, "relevant")))
    (Raise (Exception "Connection refused")) Samples.no_pages.

End Samples7.

(** An entry of the product list is well formed: its asin is not empty
    and its title is a true value. *)
Definition well_formed_product (p : InformationRetriever.Product) : Prop :=
  InformationRetriever.asin p <> ""
  /\ truthy (InformationRetriever.productTitle p) = true.

(** No page of the index holds more than [size] points. *)
Definition pages_within (w : World) (size : nat) : Prop :=
  forall n page_offset resp,
    scroll w n page_offset = Ok resp ->
    length (fst (InformationRetriever.decode_scroll resp)) <= size.


Module Samples8.



End Samples8.

(** How the attempt [i] of a turn fails, if it does: the answer generator
    or the relevance checker raises, or the relevance checker returns
    something that is not a pair. *)
Definition attempt_failure (w : World) (st : State) (refined_query : string)
  (retrieved_info : Evidence) (i : nat) : option exn :=
  match attempt_verdict w st refined_query retrieved_info i with
  | Raise e => Some e
  | Ok None => Some (Exception "assess_relevance must return a tuple (bool, str).")
  | Ok (Some _) => None
  end.

(** A session: the questions are answered one after the other by the
    same agent, as the chat front-end does; the result is the list of the
    texts returned and the last state. *)
Fixpoint run_turns (w : World) (questions : list (string * string)) (st : State)
  : list string * State :=
  match questions with
  | [] => ([], st)
  | (user_query, asin) :: rest =>
      let '(reply, st1) := AlexupportAgent.answer w user_query asin st in
      let '(replies, st2) := run_turns w rest st1 in
      (reply :: replies, st2)
  end.

(** The turns that a list of questions and the replies to them add to
    the conversation. *)
Fixpoint transcript (questions : list (string * string)) (replies : list string)
  : list Message :=
  match questions, replies with
  | (user_query, _) :: qs, reply :: rs =>
      HumanMessage user_query :: AIMessage reply :: transcript qs rs
  | _, _ => []
  end.

Module Samples9.

(** The relevance checker rejects the first answer and then returns
    something that is not a pair. *)
Definition broken_checker_world : World :=
  Samples.make_world (fun _ => Ok "YES") (fun _ => None)
    (fun n => if (n <? 1)%nat then Ok (Some (false, "off topic")) else Ok None)
    Samples5.matches Samples.no_pages.

(** The index has no match for the product. *)
Definition no_match_world : World :=
  Samples.make_world (fun _ => Ok "Anything else?") (fun _ => None)
    (fun _ => Ok (Some (true, "relevant"))) (Ok []) Samples.no_pages.

End Samples9.

(** ** The chat front-end ([streamlit_app.py]) *)

Module StreamlitApp.

(** A finished word goes in front of the later words; nothing is added
    when no word was being read. *)
Definition cons_word (word : string) (words : list string) : list string :=
  match word with
  | EmptyString => words
  | _ => word :: words
  end.

(** The word that starts at the head of the text (empty when the text
    starts with whitespace) and the words after it. *)
Fixpoint split_ws (s : string) : string * list string :=
  match s with
  | EmptyString => (EmptyString, [])
  | String c s' =>
      let '(word, words) := split_ws s' in
      if isspace c then (EmptyString, cons_word word words)
      else (String c word, words)
  end.

(** [text.split()]: the maximal runs of characters that are not
    whitespace. *)
Definition py_split (s : string) : list string :=
  let '(word, words) := split_ws s in cons_word word words.

(** [typing_stream]: the values the generator yields, in order (the
    pause between two of them is not modelled). *)
Definition typing_stream (text : string) : list string :=
  map (fun word => word +:+ " ") (py_split text).

(** [s.split(sep, 1)[0]]: the text before the first occurrence of [sep],
    the whole text when there is none. *)
Fixpoint before_first (sep s : string) : string :=
  if startswith sep s then EmptyString
  else match s with
       | EmptyString => EmptyString
       | String c s' => String c (before_first sep s')
       end.

(** [f"{v}"] for a payload value. *)
Definition str_val (v : PyVal) : string :=
  match v with
  | VStr s => s
  | other => repr_val other
  end.

Definition separator : string := " — ".

(** An entry of the product selector:
    [f"{p['asin']} — {p.get('productTitle', '(untitled)')}"]. *)
Definition option_label (p : InformationRetriever.Product) : string :=
  InformationRetriever.asin p +:+ separator
  +:+ str_val (InformationRetriever.productTitle p).

(** [chosen.split(" — ", 1)[0]] *)
Definition selected_asin (chosen : string) : string := before_first separator chosen.

(** [next((p.get("productTitle") for p in products if p["asin"] ==
    selected_asin), None)] *)
Fixpoint product_title (products : list InformationRetriever.Product)
  (selected : string) : option PyVal :=
  match products with
  | [] => None
  | p :: rest =>
      if PyStr.eqb (InformationRetriever.asin p) selected
      then Some (InformationRetriever.productTitle p)
      else product_title rest selected
  end.

End StreamlitApp.

(** The words of a list, each with a blank in front. *)
Fixpoint spaced (words : list string) : string :=
  match words with
  | [] => EmptyString
  | x :: rest => " " +:+ x +:+ spaced rest
  end.

(** * Properties *)

(** ** Strings *)

Section StringFacts.

Lemma append_cons (c : codepoint) (a b : string) :
  String c a +:+ b = String c (a +:+ b).
Proof. reflexivity. Qed.

Lemma append_nil_l (b : string) : "" +:+ b = b.
Proof. reflexivity. Qed.

Lemma append_assoc (a b c : string) : (a +:+ b) +:+ c = a +:+ (b +:+ c).
Proof.
  induction a as [|x a IH]; [reflexivity|].
  rewrite !append_cons. now rewrite IH.
Qed.

Lemma append_nil_r (a : string) : a +:+ "" = a.
Proof.
  induction a as [|x a IH]; [reflexivity|].
  rewrite append_cons. now f_equal.
Qed.

Lemma str_eqb_refl (a : string) : PyStr.eqb a a = true.
Proof. induction a as [|c a IH]; [reflexivity|]. cbn. now rewrite N.eqb_refl. Qed.

Lemma str_eqb_spec (a b : string) : reflect (a = b) (PyStr.eqb a b).
Proof.
  revert b. induction a as [|c a IH]; intros [|d b]; cbn;
    try (constructor; congruence).
  destruct (N.eqb_spec c d) as [->|Hcd]; cbn.
  - destruct (IH b) as [->|Hab]; constructor; congruence.
  - constructor. congruence.
Qed.

Lemma startswith_app (p s : string) : startswith p (p +:+ s) = true.
Proof.
  induction p as [|c p IH]; [reflexivity|].
  rewrite append_cons. cbn. now rewrite N.eqb_refl.
Qed.

Lemma startswith_prefix (p s : string) :
  startswith p s = true -> exists t, s = p +:+ t.
Proof.
  revert s. induction p as [|c p IH]; intros s H.
  - now exists s.
  - destruct s as [|d s]; [discriminate|]. cbn in H.
    destruct (N.eqb_spec c d) as [->|]; [|discriminate].
    destruct (IH _ H) as [t ->]. now exists t.
Qed.

Lemma contains_app (a p b : string) : contains p (a +:+ p +:+ b) = true.
Proof.
  induction a as [|c a IH].
  - change ("" +:+ p +:+ b) with (p +:+ b).
    destruct (p +:+ b) eqn:E; cbn; rewrite <- E, startswith_app; reflexivity.
  - change (String c a +:+ p +:+ b) with (String c (a +:+ p +:+ b)).
    cbn [contains]. rewrite IH. apply orb_true_r.
Qed.

Lemma split_nonempty (c : codepoint) (s : string) : split c s <> [].
Proof.
  induction s as [|a s IH]; cbn; [discriminate|].
  destruct (N.eqb a c); [discriminate|].
  destruct (split c s); [contradiction|discriminate].
Qed.

Lemma split_length (c : codepoint) (s : string) :
  length (split c s) = S (count_char c s).
Proof.
  induction s as [|a s IH]; cbn; [reflexivity|].
  destruct (N.eqb a c); cbn; [now rewrite IH|].
  pose proof (split_nonempty c s) as Hne.
  destruct (split c s) as [|piece rest]; [contradiction|].
  cbn in *. exact IH.
Qed.

Lemma split_join (c : codepoint) (s : string) :
  join (String c "") (split c s) = s.
Proof.
  induction s as [|a s IH]; [reflexivity|].
  cbn [split]. pose proof (split_nonempty c s) as Hne.
  destruct (N.eqb_spec a c) as [->|Hac].
  - destruct (split c s) as [|piece rest] eqn:E; [contradiction|].
    change (join (String c "") ("" :: piece :: rest))
      with ("" +:+ String c "" +:+ join (String c "") (piece :: rest)).
    now rewrite IH.
  - destruct (split c s) as [|piece rest] eqn:E; [contradiction|].
    destruct rest as [|p2 rest].
    + cbn in IH. cbn. now rewrite IH.
    + change (join (String c "") (String a piece :: p2 :: rest))
        with (String a (piece +:+ String c "" +:+ join (String c "") (p2 :: rest))).
      f_equal. exact IH.
Qed.

Lemma split_no_separator (c : codepoint) (s : string) :
  Forall (fun piece => count_char c piece = 0) (split c s).
Proof.
  induction s as [|a s IH]; cbn.
  - constructor; [reflexivity|constructor].
  - destruct (N.eqb_spec a c) as [->|Hac].
    + constructor; [reflexivity|exact IH].
    + pose proof (split_nonempty c s) as Hne.
      destruct (split c s) as [|piece rest]; [contradiction|].
      inversion IH; subst. constructor; [|assumption].
      cbn. destruct (N.eqb_spec a c); [contradiction|]. assumption.
Qed.

Lemma rstrip_cons_nonspace (c : codepoint) (s : string) :
  isspace c = false -> rstrip (String c s) = String c (rstrip s).
Proof. intros H. cbn. rewrite H. now destruct (rstrip s). Qed.

Lemma rstrip_app (a s : string) :
  rstrip s <> "" -> rstrip (a +:+ s) = a +:+ rstrip s.
Proof.
  intros H. induction a as [|c a IH]; [reflexivity|].
  change (String c a +:+ s) with (String c (a +:+ s)).
  cbn [rstrip]. rewrite IH, append_cons.
  destruct (a +:+ rstrip s) eqn:E; [|reflexivity].
  destruct a; [contradiction|discriminate].
Qed.

End StringFacts.

(** Whitespace and case beyond ASCII: the no-break space (U+00A0) and the
    line separator (U+2028) are whitespace for [strip], [split] and
    [clean_string]; [upper] maps accented letters, and some letters to
    more than one. *)
Example strip_no_break_space :
  strip (String 160%N "yes" +:+ String 8232%N "") = "yes".
Proof. vm_compute. reflexivity. Qed.

Example clean_string_no_break_space :
  clean_string ("a" +:+ String 160%N "b") = "a b".
Proof. vm_compute. reflexivity. Qed.

Example upper_beyond_ascii :
  upper "café" = "CAFÉ" /\ upper "straße" = "STRASSE" /\ upper "ſ" = "S".
Proof. vm_compute. repeat split; reflexivity. Qed.

Example repr_beyond_ascii :
  repr ("née" +:+ String 160%N "") = sq +:+ "née" +:+ bs +:+ "xa0" +:+ sq.
Proof. vm_compute. reflexivity. Qed.

(** ** Running monadic code *)

Section MonadFacts.

Context {A B : Type}.

Lemma bind_run (m : M A) (f : A -> M B) (st : State) :
  (m ≫= f) st =
  match m st with
  | (Ok a, st') => f a st'
  | (Raise e, st') => (Raise e, st')
  end.
Proof. reflexivity. Qed.

Lemma bind_ok (m : M A) (f : A -> M B) (st st' : State) (a : A) :
  m st = (Ok a, st') -> (m ≫= f) st = f a st'.
Proof. intros H. now rewrite bind_run, H. Qed.

Lemma bind_raise (m : M A) (f : A -> M B) (st st' : State) (e : exn) :
  m st = (Raise e, st') -> (m ≫= f) st = (Raise e, st').
Proof. intros H. now rewrite bind_run, H. Qed.

Lemma ret_run (a : A) (st : State) : (mret a : M A) st = (Ok a, st).
Proof. reflexivity. Qed.

Lemma raise_run (e : exn) (st : State) : @raise A e st = (Raise e, st).
Proof. reflexivity. Qed.

End MonadFacts.


(** ** Token log and text client *)

Section TextClientFacts.

Variable w : World.

Lemma log_token_usage_run (operation : string) (i o : nat) (st : State) :
  operation ∈ ["response_generation"; "embeddings_generation"] ->
  log_token_usage w operation i o st =
  match log_write w (log_calls st) with
  | Some e => (Raise e, set_log_calls (S (log_calls st)) st)
  | None =>
      (Ok tt,
       set_token_log
         (token_log st ++
            [now_isoformat w (log_calls st) +:+ " - " +:+ operation +:+ ": input="
             +:+ str_nat i +:+ ", output=" +:+ str_nat o +:+ nl])
         (set_log_calls (S (log_calls st)) st))
  end.
Proof.
  intros Hop. unfold log_token_usage.
  now rewrite bool_decide_eq_true_2 by exact Hop.
Qed.

Lemma response_generation_valid :
  "response_generation" ∈ ["response_generation"; "embeddings_generation"].
Proof. apply list_elem_of_here. Qed.

Lemma embeddings_generation_valid :
  "embeddings_generation" ∈ ["response_generation"; "embeddings_generation"].
Proof. apply list_elem_of_further, list_elem_of_here. Qed.

Lemma generate_response_run (msgs : list ChatTurn) (st : State) :
  fst (generate_response w msgs st) =
  match chat_model_invoke w (chat_calls st) (map to_langchain msgs) with
  | Raise e => Raise e
  | Ok r => match log_write w (log_calls st) with
            | None => Ok r
            | Some e => Raise e
            end
  end.
Proof.
  unfold generate_response. rewrite bind_run. unfold invoke_chat_model.
  destruct (chat_model_invoke w (chat_calls st) (map to_langchain msgs)) as [r|e];
    [|reflexivity].
  rewrite bind_run, (log_token_usage_run _ _ _ _ response_generation_valid). cbn.
  now destruct (log_write w (log_calls st)).
Qed.

Lemma generate_embeddings_run (texts : list string) (st : State) :
  fst (generate_embeddings w texts st) =
  match fst (invoke_embedding_model w texts st) with
  | Raise e => Raise e
  | Ok v => match log_write w (log_calls st) with
            | None => Ok v
            | Some e => Raise e
            end
  end.
Proof.
  unfold generate_embeddings. rewrite bind_run.
  destruct (invoke_embedding_model w texts st) as [[v|e] st1] eqn:E; [|reflexivity].
  assert (log_calls st1 = log_calls st) as Hl.
  { unfold invoke_embedding_model in E. now inversion E. }
  rewrite bind_run, (log_token_usage_run _ _ _ _ embeddings_generation_valid).
  cbn. rewrite Hl.
  now destruct (log_write w (log_calls st)).
Qed.

End TextClientFacts.

(** C7 (as the code has it): the token-usage line is written after the
    model has answered and before the answer is handed back, with nothing
    around the write to catch a failure. So the caller gets the response
    (or the embedding) exactly when the log write succeeds; when the write
    fails, the caller gets that exception instead of the result. *)
Theorem log_write_decides_result :
  forall (w : World) (st : State),
    (forall (msgs : list ChatTurn) (r : string),
        chat_model_invoke w (chat_calls st) (map to_langchain msgs) = Ok r ->
        fst (generate_response w msgs st) =
        match log_write w (log_calls st) with
        | None => Ok r
        | Some e => Raise e
        end)
    /\
    (forall (texts : list string) (v : Embedding),
        fst (invoke_embedding_model w texts st) = Ok v ->
        fst (generate_embeddings w texts st) =
        match log_write w (log_calls st) with
        | None => Ok v
        | Some e => Raise e
        end).
Proof.
  intros w st. split.
  - intros msgs r H. now rewrite generate_response_run, H.
  - intros texts v H. now rewrite generate_embeddings_run, H.
Qed.

Lemma log_write_decides_result_witness :
  fst (generate_response Samples.log_down_world Samples.question initial_state)
  = Raise (Exception "[Errno 13] Permission denied")
  /\ fst (generate_embeddings Samples.log_down_world ["Is it waterproof?"] initial_state)
     = Raise (Exception "[Errno 13] Permission denied").
Proof.
  destruct (log_write_decides_result Samples.log_down_world initial_state) as [H1 H2].
  split.
  - exact (H1 Samples.question "Durable." eq_refl).
  - exact (H2 ["Is it waterproof?"] (EmbedQuery [1 # 1]) eq_refl).
Defined.

(** C7 as stated fails: the model answers "Durable.", the log file cannot
    be written, and [generate_response] raises instead of returning the
    answer. *)
Lemma log_failure_loses_response :
  chat_model_invoke Samples.log_down_world 0 (map to_langchain Samples.question)
  = Ok "Durable."
  /\ fst (generate_response Samples.log_down_world Samples.question initial_state)
     <> Ok "Durable.".
Proof. split; [reflexivity|]. vm_compute. discriminate. Qed.

(** ** Output formatting *)

(** C3 (as the code has it): the formatted response is a line break and
    eight blanks, the answer text, and then, each on a line of its own and
    indented by eight blanks, the heading "Here are some follow-up
    questions you might consider:", the follow-ups joined by "; ", and a
    last line of eight blanks. So the answer text comes right after the
    leading line break and indentation. *)
Theorem format_final_answer_template :
  forall (answer : string) (follow_ups : list string),
    AlexupportAgent.format_final_answer answer follow_ups =
      nl +:+ indent +:+ answer +:+
      nl +:+ indent +:+ "Here are some follow-up questions you might consider:" +:+
      nl +:+ indent +:+ join "; " follow_ups +:+
      nl +:+ indent
    /\ startswith (nl +:+ indent +:+ answer)
         (AlexupportAgent.format_final_answer answer follow_ups) = true.
Proof.
  intros answer follow_ups.
  assert (AlexupportAgent.format_final_answer answer follow_ups =
          (nl +:+ indent +:+ answer) +:+
          nl +:+ indent +:+ "Here are some follow-up questions you might consider:" +:+
          nl +:+ indent +:+ join "; " follow_ups +:+ nl +:+ indent) as E.
  { unfold AlexupportAgent.format_final_answer, indent.
    cbn [join]. rewrite !append_nil_l, !append_assoc. reflexivity. }
  split.
  - rewrite E, !append_assoc. reflexivity.
  - rewrite E. apply startswith_app.
Qed.

(** C3 as stated fails: the response to the answer "Durable." does not
    start with "Durable." and is not the answer followed directly by the
    heading line. *)
Lemma format_final_answer_not_prefixed :
  startswith "Durable."
    (AlexupportAgent.format_final_answer "Durable." ["How long does it last?"]) = false
  /\ AlexupportAgent.format_final_answer "Durable." ["How long does it last?"]
     <> "Durable." +:+ nl +:+ "Here are some follow-up questions you might consider:"
        +:+ nl +:+ "How long does it last?".
Proof. split; [reflexivity|]. vm_compute. discriminate. Qed.

(** ** Follow-up generator *)

(** C10: when the model call returns [raw], [generate_follow_ups] returns
    the pieces of [raw] between its line breaks, each trimmed: the pieces
    joined by line breaks give [raw] back, no piece holds a line break, and
    there is one piece more than there are line breaks, so the list is
    never empty, blank lines stay as empty entries, and nothing is dropped
    or merged. *)
Theorem generate_follow_ups_lines :
  forall (w : World) (q : string) (ctx : Evidence) (st st1 : State) (raw : string),
    generate_response w (FollowUpGenerator.follow_up_messages q ctx) st = (Ok raw, st1) ->
    let pieces := split "010"%char raw in
    FollowUpGenerator.generate_follow_ups w q ctx st = (Ok (map strip pieces), st1)
    /\ join nl pieces = raw
    /\ Forall (fun piece => count_char "010"%char piece = 0) pieces
    /\ length (map strip pieces) = S (count_char "010"%char raw)
    /\ (raw = "" -> map strip pieces = [""]).
Proof.
  intros w q ctx st st1 raw H pieces. subst pieces.
  split; [|split; [|split; [|split]]].
  - unfold FollowUpGenerator.generate_follow_ups. now rewrite (bind_ok _ _ _ _ _ H).
  - apply split_join.
  - apply split_no_separator.
  - rewrite length_map. apply split_length.
  - intros ->. reflexivity.
Qed.

Lemma generate_follow_ups_lines_witness :
  fst (FollowUpGenerator.generate_follow_ups Samples2.follow_up_world
         "Is it waterproof?" Samples2.evidence initial_state)
  = Ok ["Is it durable?"; ""; "How long does it last?"].
Proof.
  pose proof (generate_follow_ups_lines Samples2.follow_up_world
                "Is it waterproof?" Samples2.evidence initial_state _ _ eq_refl) as H.
  cbv zeta in H. destruct H as [H _]. rewrite H. reflexivity.
Defined.

(** ** Answerability checker *)

(** C2 (as the code has it): with no evidence the checker returns
    [(False, "I don't  have relevant information in my data to answer your
    question.")] and leaves the state as it was: no call of the chat model,
    no line in the token log. *)
Theorem check_answerability_empty :
  forall (w : World) (user_question : string) (st : State),
    IsAnswerableAgent.check_answerability w user_question [] st =
      (Ok (false,
           "I don't  have relevant information in my data to answer your question."),
       st)
    /\ chat_calls (snd (IsAnswerableAgent.check_answerability w user_question [] st))
       = chat_calls st.
Proof. intros w q st. split; reflexivity. Qed.

(** C2 as stated fails: the reason returned for empty evidence is not the
    text "insufficient information". *)
Lemma empty_evidence_reason_differs :
  fst (IsAnswerableAgent.check_answerability Samples.agreeable_world
         "Is it waterproof?" [] initial_state)
  <> Ok (false, "insufficient information").
Proof. vm_compute. discriminate. Qed.

Section VerdictDecoding.

(** The whitespace characters, one by one. *)
Lemma isspace_cases (c : codepoint) :
  isspace c = true ->
  In c [9; 10; 11; 12; 13; 28; 29; 30; 31; 32; 133; 160; 5760; 8192; 8193; 8194;
        8195; 8196; 8197; 8198; 8199; 8200; 8201; 8202; 8232; 8233; 8239; 8287;
        12288]%N.
Proof.
  unfold isspace. intros H.
  repeat (apply orb_true_iff in H as [H|H]);
    repeat (apply andb_true_iff in H as [? H]);
    repeat match goal with
           | X : (_ <=? _)%N = true |- _ => apply N.leb_le in X
           | X : (_ =? _)%N = true |- _ => apply N.eqb_eq in X
           end;
    cbn [In]; lia.
Qed.

(** [str.upper] leaves whitespace as it is. *)
Lemma upper_char_space (c : codepoint) :
  isspace c = true -> upper_char c = String c "".
Proof.
  intros H. apply isspace_cases in H. cbn [In] in H.
  repeat (destruct H as [<-|H]; [vm_compute; reflexivity|]).
  contradiction.
Qed.

(** What begins [a + x] and has no whitespace also begins [a + x'] when
    [x'] begins with whatever whitespace-free text [x] begins with. *)
Lemma startswith_append_mono (a x x' p : string) :
  (forall p', no_space p' = true -> startswith p' x = true -> startswith p' x' = true) ->
  no_space p = true ->
  startswith p (a +:+ x) = true ->
  startswith p (a +:+ x') = true.
Proof.
  intros Hx. revert p. induction a as [|d a IH]; intros p Hp H.
  - now apply Hx.
  - destruct p as [|e p]; [reflexivity|].
    rewrite append_cons in *. cbn [startswith] in *.
    destruct (N.eqb e d); [|discriminate].
    cbn in Hp. apply andb_true_iff in Hp as [_ Hp]. now apply IH.
Qed.

(** A prefix without whitespace survives [rstrip]. *)
Lemma startswith_upper_rstrip (p s : string) :
  no_space p = true ->
  startswith p (upper s) = true ->
  startswith p (upper (rstrip s)) = true.
Proof.
  revert p. induction s as [|c s IH]; intros p Hp H; [exact H|].
  destruct p as [|a p]; [reflexivity|].
  destruct (isspace c) eqn:Hc.
  - cbn [upper] in H. rewrite (upper_char_space _ Hc) in H.
    rewrite append_cons in H. cbn [startswith] in H.
    destruct (N.eqb_spec a c) as [->|]; [|discriminate].
    cbn in Hp. rewrite Hc in Hp. discriminate.
  - rewrite (rstrip_cons_nonspace _ _ Hc). cbn [upper] in *.
    apply (startswith_append_mono _ (upper s)); auto.
Qed.

(** A non-empty prefix without whitespace survives [strip]. *)
Lemma startswith_upper_strip (p s : string) :
  p <> "" -> no_space p = true ->
  startswith p (upper s) = true ->
  startswith p (upper (strip s)) = true.
Proof.
  intros Hne Hp H. unfold strip.
  destruct p as [|a p]; [contradiction|].
  destruct s as [|c s]; [discriminate|].
  assert (isspace c = false) as Hc.
  { destruct (isspace c) eqn:Hc; [|reflexivity].
    cbn [upper] in H. rewrite (upper_char_space _ Hc) in H.
    rewrite append_cons in H. cbn [startswith] in H.
    destruct (N.eqb_spec a c) as [->|]; [|discriminate].
    cbn in Hp. rewrite Hc in Hp. discriminate. }
  cbn [lstrip]. rewrite Hc.
  now apply startswith_upper_rstrip.
Qed.

Lemma startswith_yes_not_no (s : string) :
  startswith "NO" s = true -> startswith "YES" s = false.
Proof.
  destruct s as [|c s]; [discriminate|]. cbn [startswith].
  destruct (N.eqb_spec "N"%char c) as [<-|]; [|discriminate].
  intros _. reflexivity.
Qed.

End VerdictDecoding.

(** C4 (as the code has it): with evidence at hand the check never raises.
    When the model call returns [raw], the verdict is true exactly when
    [raw], trimmed and upper-cased, begins with "YES"; in particular it is
    true when [raw] begins with "YES" in any case and false when [raw]
    begins with "NO" in any case. When the trimmed, upper-cased text
    begins with neither, the reason is "Unexpected response from LLM: "
    followed by that trimmed, upper-cased text (not the raw text). When
    the model call raises [e], the verdict is false and the reason is
    "Error during answerability check: " followed by the text of [e]. *)
Theorem check_answerability_decode :
  forall (w : World) (q : string) (info : Evidence) (st : State),
    info <> [] ->
    exists (verdict : bool) (reason : string),
      fst (IsAnswerableAgent.check_answerability w q info st) = Ok (verdict, reason)
      /\ match fst (generate_response w (IsAnswerableAgent.check_messages q info) st) with
         | Raise e =>
             verdict = false
             /\ reason = "Error during answerability check: " +:+ str_exn e
         | Ok raw =>
             let text := upper (strip raw) in
             verdict = startswith "YES" text
             /\ (startswith "YES" (upper raw) = true -> verdict = true)
             /\ (startswith "NO" (upper raw) = true -> verdict = false)
             /\ (startswith "YES" text = false -> startswith "NO" text = false ->
                 reason = "Unexpected response from LLM: " +:+ text
                 /\ contains text reason = true)
         end.
Proof.
  intros w q info st Hne.
  destruct info as [|item rest]; [contradiction|].
  unfold IsAnswerableAgent.check_answerability, try_except.
  rewrite bind_run.
  destruct (generate_response w _ st) as [[raw|e] st1]; cbn [fst].
  - unfold IsAnswerableAgent.decode.
    destruct (startswith "YES" (upper (strip raw))) eqn:Hyes.
    + eexists _, _. split; [reflexivity|]. cbv zeta.
      repeat split; try congruence.
      intros Hno.
      apply (startswith_upper_strip "NO" raw) in Hno; [|discriminate|reflexivity].
      apply startswith_yes_not_no in Hno. congruence.
    + destruct (startswith "NO" (upper (strip raw))) eqn:Hno.
      * eexists _, _. split; [reflexivity|]. cbv zeta.
        repeat split; try congruence.
        intros H.
        apply (startswith_upper_strip "YES" raw) in H; [|discriminate|reflexivity].
        congruence.
      * eexists _, _. split; [reflexivity|]. cbv zeta.
        repeat split; try congruence.
        -- intros H.
           apply (startswith_upper_strip "YES" raw) in H; [|discriminate|reflexivity].
           congruence.
        -- rewrite <- (append_nil_r (upper (strip raw))) at 2.
           apply contains_app.
  - eexists _, _. split; [reflexivity|]. split; reflexivity.
Qed.

Lemma check_answerability_decode_witness :
  fst (IsAnswerableAgent.check_answerability Samples.agreeable_world
         "Is it waterproof?" Samples2.evidence initial_state)
  = Ok (true, "The retrieved information is sufficient to answer the question.").
Proof.
  assert (Samples2.evidence <> []) as Hne by discriminate.
  destruct (check_answerability_decode Samples.agreeable_world "Is it waterproof?"
              Samples2.evidence initial_state Hne)
    as (verdict & reason & H & _).
  rewrite H. vm_compute in H. symmetry. exact H.
Defined.

(** C4 as stated fails: the model text "maybe" begins with neither "YES"
    nor "NO", and the reason returned does not contain "maybe"; the text
    " yes" does not begin with "YES", and the verdict is true. *)
Lemma check_answerability_reason_not_raw :
  (exists reason,
     fst (IsAnswerableAgent.check_answerability Samples2.maybe_world
            "Is it waterproof?" Samples2.evidence initial_state) = Ok (false, reason)
     /\ contains "maybe" reason = false)
  /\ startswith "YES" (upper " yes") = false
  /\ fst (IsAnswerableAgent.decode " yes") = true.
Proof.
  split; [|split; reflexivity].
  eexists. split; [vm_compute; reflexivity|reflexivity].
Qed.

(** The verdict on a text that opens with a no-break space, and the
    reason for a text with an accented letter. *)
Example decode_beyond_ascii :
  IsAnswerableAgent.decode (String 160%N "yes")
  = (true, "The retrieved information is sufficient to answer the question.")
  /\ IsAnswerableAgent.decode "peut-être"
     = (false, "Unexpected response from LLM: PEUT-ÊTRE").
Proof. vm_compute. split; reflexivity. Qed.

(** ** Information retriever *)

Section RetrieverFacts.

Import InformationRetriever.

Lemma score_ok_iff (p : ScoredPoint) :
  score_ok p = true <-> (1 # 2 <= score p)%Q.
Proof. apply Qle_bool_iff. Qed.

Lemma payload_get_list_field (key : string) (p : ScoredPoint) :
  (payload p !! key = None \/ exists l, payload p !! key = Some (VList l)) ->
  payload_get_list key (payload p) = VList (field_list key p).
Proof.
  unfold payload_get_list, field_list.
  intros [-> | [l ->]]; reflexivity.
Qed.

Lemma snippets_lists (p : ScoredPoint) :
  list_fields p -> snippets p = Ok (evidence_item p).
Proof.
  intros H. unfold snippets, evidence_item.
  rewrite !payload_get_list_field; [reflexivity| |].
  - apply H, list_elem_of_further, list_elem_of_here.
  - apply H, list_elem_of_here.
Qed.

Lemma collect_snippets_lists (ps : list ScoredPoint) :
  Forall list_fields ps -> collect_snippets ps = Ok (map evidence_item ps).
Proof.
  induction 1 as [|p ps Hp _ IH]; [reflexivity|].
  cbn [collect_snippets]. now rewrite (snippets_lists _ Hp), IH.
Qed.

Lemma filter_none (ps : list ScoredPoint) :
  (forall p, p ∈ ps -> (score p < 1 # 2)%Q) -> List.filter score_ok ps = [].
Proof.
  induction ps as [|p ps IH]; intros H; [reflexivity|].
  cbn [List.filter].
  destruct (score_ok p) eqn:E.
  - apply score_ok_iff in E.
    pose proof (H p (list_elem_of_here _ _)) as Hlt.
    exfalso. exact (Qlt_not_le _ _ Hlt E).
  - apply IH. intros q Hq. apply H. now apply list_elem_of_further.
Qed.

End RetrieverFacts.

(** C5: when the embedding call and the index query succeed and the
    index answers the matches [ps], whose [answers] and [review_snippets]
    fields are lists where present, [retrieve_information] returns, in the
    order of [ps], one item for each match with score at least 0.5 and for
    no other: the match's answers followed by its review snippets, a
    missing field counting as the empty list. When no match reaches 0.5
    the result is the empty list, not an exception. *)
Theorem retrieve_information_filters :
  forall (w : World) (query product_id : string) (st st1 : State)
         (v : Embedding) (ps : list ScoredPoint),
    generate_embeddings w [query] st = (Ok v, st1) ->
    query_points w (query_calls st1) v product_id = Ok ps ->
    (forall p, p ∈ ps -> (1 # 2 <= score p)%Q -> list_fields p) ->
    fst (InformationRetriever.retrieve_information w query product_id st)
    = Ok (map evidence_item (List.filter InformationRetriever.score_ok ps))
    /\ (forall p, InformationRetriever.score_ok p = true <-> (1 # 2 <= score p)%Q)
    /\ ((forall p, p ∈ ps -> (score p < 1 # 2)%Q) ->
        fst (InformationRetriever.retrieve_information w query product_id st) = Ok []).
Proof.
  intros w query product_id st st1 v ps Hemb Hquery Hlists.
  assert (fst (InformationRetriever.retrieve_information w query product_id st)
          = Ok (map evidence_item (List.filter InformationRetriever.score_ok ps))) as E.
  { unfold InformationRetriever.retrieve_information, try_except.
    rewrite (bind_ok _ _ _ _ _ Hemb), bind_run.
    unfold InformationRetriever.call_query_points. rewrite Hquery.
    rewrite collect_snippets_lists; [reflexivity|].
    apply Forall_forall. intros p Hp.
    apply list_elem_of_In, filter_In in Hp as [Hp Hs].
    apply Hlists; [now apply list_elem_of_In|]. now apply score_ok_iff. }
  split; [exact E|]. split; [exact score_ok_iff|].
  intros Hlow. rewrite E, filter_none by exact Hlow. reflexivity.
Qed.

Lemma retrieve_information_filters_witness :
  fst (InformationRetriever.retrieve_information Samples3.index_world
         "Is it waterproof?" "B000" initial_state)
  = Ok [ VList ["Yes, it is."; "Survived the rain."]; VList ["Sturdy."] ].
Proof.
  assert (forall p, p ∈ [Samples3.both_fields; Samples3.low_score; Samples3.only_reviews] ->
                    (1 # 2 <= score p)%Q -> list_fields p) as Hlists.
  { intros p Hp _ key Hkey.
    apply list_elem_of_In in Hp, Hkey. cbn [In] in Hp, Hkey.
    destruct Hkey as [<- | [<- | []]];
      destruct Hp as [<- | [<- | [<- | []]]]; vm_compute; eauto. }
  destruct (retrieve_information_filters Samples3.index_world "Is it waterproof?" "B000"
              initial_state _ _ _ eq_refl eq_refl Hlists) as [H _].
  rewrite H. vm_compute. reflexivity.
Defined.

(** ** Product listing *)

Section ListProductsFacts.

Import InformationRetriever.

Lemma listing_inv_init : listing_inv [] ∅.
Proof.
  split; [constructor|]. intros a. cbn. split; intros H.
  - now apply not_elem_of_empty in H.
  - now apply not_elem_of_nil in H.
Qed.

Lemma listing_inv_add (collected : list Product) (seen : gset string)
  (a : string) (title : PyVal) :
  listing_inv collected seen -> a ∉ seen ->
  listing_inv (collected ++ [ {| asin := a; productTitle := title |} ])
              ({[ a ]} ∪ seen).
Proof.
  intros [Hnd Hseen] Hnew. split.
  - rewrite map_app. cbn. apply NoDup_app. split; [exact Hnd|]. split.
    + intros x Hx Hx'. apply list_elem_of_singleton in Hx'. subst x.
      apply Hnew. now apply Hseen.
    + apply NoDup_singleton.
  - intros x. rewrite map_app, elem_of_app, elem_of_union, elem_of_singleton.
    cbn. rewrite list_elem_of_singleton, Hseen. tauto.
Qed.

Lemma add_points_inv (points : list IndexRecord) :
  forall collected seen collected' seen',
    listing_inv collected seen ->
    add_points points collected seen = Ok (collected', seen') ->
    listing_inv collected' seen'.
Proof.
  induction points as [|p rest IH]; intros collected seen collected' seen' Hinv H.
  - cbn in H. now inversion H; subst.
  - cbn [add_points] in H.
    destruct (payload_get "asin" (default ∅ (record_payload p))) as [|a|[|x l]].
    + eapply IH; eauto.
    + destruct (truthy (VStr a) && negb (bool_decide (a ∈ seen))) eqn:E.
      * apply andb_true_iff in E as [_ E]. apply negb_true_iff in E.
        apply bool_decide_eq_false in E.
        eapply IH; [|exact H]. now apply listing_inv_add.
      * eapply IH; eauto.
    + eapply IH; eauto.
    + discriminate.
Qed.

Lemma list_products_loop_inv (w : World) (fuel : nat) (limit : Z) :
  forall collected page_offset seen st st' l,
    listing_inv collected seen ->
    list_products_loop w fuel limit collected page_offset seen st = (Ok (Some l), st') ->
    NoDup (map asin l).
Proof.
  induction fuel as [|fuel IH]; intros collected page_offset seen st st' l Hinv H.
  - cbn in H. destruct (Z.of_nat (length collected) <? limit)%Z.
    + discriminate.
    + inversion H; subst. apply Hinv.
  - cbn [list_products_loop] in H.
    destruct (Z.of_nat (length collected) <? limit)%Z;
      [|inversion H; subst; apply Hinv].
    rewrite bind_run in H. unfold call_scroll in H.
    destruct (scroll w (scroll_calls st) page_offset) as [resp|e]; [|discriminate].
    destruct (decode_scroll resp) as [points page_offset'].
    destruct points as [|p0 points]; [inversion H; subst; apply Hinv|].
    destruct (add_points (p0 :: points) collected seen) as [[c' s']|e] eqn:Eadd;
      [|discriminate].
    pose proof (add_points_inv _ _ _ _ _ Hinv Eadd) as Hinv'.
    destruct page_offset' as [off|]; [|inversion H; subst; apply Hinv'].
    eapply IH; eauto.
Qed.

(** Whatever the index answers, the products listed have pairwise
    different asins. *)
Lemma list_products_distinct (w : World) (fuel : nat) (limit : Z)
  (st st' : State) (l : list Product) :
  list_products w fuel limit st = (Ok (Some l), st') -> NoDup (map asin l).
Proof. apply list_products_loop_inv, listing_inv_init. Qed.

End ListProductsFacts.

(** C6, the run that breaks the bound: the index answers one page with
    the products B001 and B002 (and B001 once more), and [list_products]
    with [limit = 1] returns both products. The limit is only tested
    between pages, never while a page is added. The asins are distinct and
    the first title seen for B001 is kept. *)
Theorem list_products_page_exceeds_limit :
  fst (InformationRetriever.list_products Samples4.catalogue_world 3 1 initial_state)
  = Ok (Some [ {| InformationRetriever.asin := "B001";
                  InformationRetriever.productTitle := VStr "Kettle" |};
               {| InformationRetriever.asin := "B002";
                  InformationRetriever.productTitle := VStr "Toaster" |} ]).
Proof. vm_compute. reflexivity. Qed.

(** ** Answer generator *)

Section AnswerPromptFacts.

Import AnswerGenerator.

Lemma startswith_rstrip_app (a : string) (c : codepoint) (y : string) :
  isspace c = false ->
  startswith (a +:+ String c "") (rstrip (a +:+ String c y)) = true.
Proof.
  intros Hc.
  rewrite rstrip_app by (rewrite (rstrip_cons_nonspace _ _ Hc); discriminate).
  rewrite (rstrip_cons_nonspace _ _ Hc).
  replace (a +:+ String c (rstrip y)) with ((a +:+ String c "") +:+ rstrip y)
    by (now rewrite append_assoc).
  apply startswith_app.
Qed.

End AnswerPromptFacts.

(** ** What the micro-agents leave untouched *)

Create HintDb frame.

Section Frames.

Variable w : World.

Lemma keeps_ret {A : Type} (a : A) : keeps (mret a).
Proof. intros st. reflexivity. Qed.

Lemma keeps_raise {A : Type} (e : exn) : keeps (@raise A e).
Proof. intros st. reflexivity. Qed.

Lemma keeps_bind {A B : Type} (m : M A) (f : A -> M B) :
  keeps m -> (forall a, keeps (f a)) -> keeps (m ≫= f).
Proof.
  intros Hm Hf st. rewrite bind_run. specialize (Hm st).
  destruct (m st) as [[a|e] st1]; cbn [snd] in *; [|exact Hm].
  now rewrite Hf.
Qed.

Lemma keeps_try_except {A : Type} (body : M A) (handler : exn -> M A) :
  keeps body -> (forall e, keeps (handler e)) -> keeps (try_except body handler).
Proof.
  intros Hb Hh st. unfold try_except. specialize (Hb st).
  destruct (body st) as [[a|e] st1]; cbn [snd] in *; [exact Hb|].
  now rewrite Hh.
Qed.

Lemma keeps_invoke_chat_model (ms : list Message) : keeps (invoke_chat_model w ms).
Proof. intros st. reflexivity. Qed.

Lemma keeps_log_token_usage (operation : string) (i o : nat) :
  keeps (log_token_usage w operation i o).
Proof.
  intros st. unfold log_token_usage.
  destruct (negb _); [reflexivity|].
  now destruct (log_write w (log_calls st)).
Qed.

Lemma keeps_invoke_embedding_model (texts : list string) :
  keeps (invoke_embedding_model w texts).
Proof. intros st. reflexivity. Qed.

Lemma keeps_call_query_points (v : Embedding) (product_id : string) :
  keeps (InformationRetriever.call_query_points w v product_id).
Proof. intros st. reflexivity. Qed.

Hint Resolve keeps_ret keeps_raise keeps_invoke_chat_model keeps_log_token_usage
  keeps_invoke_embedding_model keeps_call_query_points : frame.
Hint Extern 2 (keeps (_ ≫= _)) => (apply keeps_bind; [|intros ?]) : frame.
Hint Extern 2 (keeps (try_except _ _)) => (apply keeps_try_except; [|intros ?]) : frame.

Lemma keeps_generate_response (msgs : list ChatTurn) : keeps (generate_response w msgs).
Proof. unfold generate_response. auto with frame. Qed.

Lemma keeps_generate_embeddings (texts : list string) :
  keeps (generate_embeddings w texts).
Proof. unfold generate_embeddings. auto with frame. Qed.

Hint Resolve keeps_generate_response keeps_generate_embeddings : frame.

Lemma keeps_refine_input (user_input : string) :
  keeps (InputRefiner.refine_input w user_input).
Proof. unfold InputRefiner.refine_input. auto with frame. Qed.

Lemma keeps_retrieve_information (query product_id : string) :
  keeps (InformationRetriever.retrieve_information w query product_id).
Proof.
  unfold InformationRetriever.retrieve_information.
  apply keeps_try_except; [|auto with frame].
  apply keeps_bind; [auto with frame|intros v].
  apply keeps_bind; [auto with frame|intros ps].
  destruct (InformationRetriever.collect_snippets _); auto with frame.
Qed.

Lemma keeps_check_answerability (user_question : string) (info : Evidence) :
  keeps (IsAnswerableAgent.check_answerability w user_question info).
Proof.
  unfold IsAnswerableAgent.check_answerability.
  destruct info; auto with frame.
Qed.

Lemma keeps_generate_follow_ups (user_question : string) (context : Evidence) :
  keeps (FollowUpGenerator.generate_follow_ups w user_question context).
Proof. unfold FollowUpGenerator.generate_follow_ups. auto with frame. Qed.

End Frames.

(** ** Orchestrator *)

Section OrchestratorFacts.

Import AlexupportAgent.

Variable w : World.
Variable refined_query : string.
Variable retrieved_info : Evidence.

Lemma view_inv (st st' : State) :
  view st' = view st ->
  messages st' = messages st
  /\ generate_answer_calls st' = generate_answer_calls st
  /\ assess_relevance_calls st' = assess_relevance_calls st.
Proof. unfold view. intros H. now inversion H. Qed.

Lemma keeps_run {A : Type} (m : M A) (st st' : State) (r : result A) :
  keeps m -> m st = (r, st') -> view st' = view st.
Proof. intros Hk H. specialize (Hk st). now rewrite H in Hk. Qed.

Lemma generate_response_counts (msgs : list ChatTurn) (st : State) (r : string) :
  fst (generate_response w msgs st) = Ok r ->
  chat_calls (snd (generate_response w msgs st)) = S (chat_calls st)
  /\ log_calls (snd (generate_response w msgs st)) = S (log_calls st).
Proof.
  unfold generate_response. rewrite bind_run. unfold invoke_chat_model.
  destruct (chat_model_invoke w (chat_calls st) (map to_langchain msgs)) as [raw|e];
    [|discriminate].
  rewrite bind_run, (log_token_usage_run _ _ _ _ _ response_generation_valid).
  cbn [log_calls set_chat_calls].
  destruct (log_write w (log_calls st)); [discriminate|].
  intros _. split; reflexivity.
Qed.

Lemma generate_answer_unfold (st : State) :
  AnswerGenerator.generate_answer w refined_query retrieved_info st
  = match generate_response w
            (AnswerGenerator.answer_messages (messages st) refined_query retrieved_info)
            (set_generate_answer_calls (S (generate_answer_calls st)) st)
    with
    | (Ok a, st1) => (Ok (strip a), st1)
    | (Raise e, st1) => (Raise e, st1)
    end.
Proof. reflexivity. Qed.

(** One call of [generate_answer]: its result is the next attempt's
    answer; the conversation is untouched and the call is counted. *)
Lemma generate_answer_attempt (st : State) :
  exists st1,
    AnswerGenerator.generate_answer w refined_query retrieved_info st
    = (attempt_answer w st refined_query retrieved_info 0, st1)
    /\ messages st1 = messages st
    /\ generate_answer_calls st1 = S (generate_answer_calls st)
    /\ assess_relevance_calls st1 = assess_relevance_calls st
    /\ (forall a, attempt_answer w st refined_query retrieved_info 0 = Ok a ->
        chat_calls st1 = S (chat_calls st) /\ log_calls st1 = S (log_calls st)).
Proof.
  rewrite generate_answer_unfold.
  set (msgs := AnswerGenerator.answer_messages (messages st) refined_query retrieved_info).
  set (st0 := set_generate_answer_calls (S (generate_answer_calls st)) st).
  pose proof (generate_response_run w msgs st0) as Hrun.
  pose proof (keeps_generate_response w msgs st0) as Hview.
  pose proof (generate_response_counts msgs st0) as Hcount.
  apply view_inv in Hview as (Hm & Hg & Hr).
  assert (attempt_answer w st refined_query retrieved_info 0
          = match fst (generate_response w msgs st0) with
            | Ok a => Ok (strip a)
            | Raise e => Raise e
            end) as Hatt.
  { rewrite Hrun. unfold attempt_answer. rewrite !Nat.add_0_r. fold msgs.
    change (chat_calls st0) with (chat_calls st).
    change (log_calls st0) with (log_calls st).
    destruct (chat_model_invoke w (chat_calls st) (map to_langchain msgs));
      [|reflexivity].
    now destruct (log_write w (log_calls st)). }
  rewrite Hatt.
  destruct (generate_response w msgs st0) as [[a|e] st1]; cbn [fst snd] in *.
  - exists st1. split; [reflexivity|]. repeat split; try assumption.
    + apply (Hcount a eq_refl).
    + apply (Hcount a eq_refl).
  - exists st1. split; [reflexivity|]. repeat split; try assumption; discriminate.
Qed.

(** One call of the relevance checker. *)
Lemma assess_relevance_run (a : string) (st : State) :
  assess_relevance w refined_query a retrieved_info st
  = (assess_relevance_oracle w (assess_relevance_calls st)
       refined_query a retrieved_info,
     set_assess_relevance_calls (S (assess_relevance_calls st)) st).
Proof. reflexivity. Qed.

(** The exits: follow-ups, formatting, one assistant turn. *)
Lemma finish_closes_turn (text : string) (st : State) :
  closes_turn (messages st) (finish w text refined_query retrieved_info st)
  /\ generate_answer_calls (snd (finish w text refined_query retrieved_info st))
     = generate_answer_calls st
  /\ assess_relevance_calls (snd (finish w text refined_query retrieved_info st))
     = assess_relevance_calls st.
Proof.
  unfold finish. rewrite bind_run.
  destruct (FollowUpGenerator.generate_follow_ups w refined_query retrieved_info st)
    as [[fu|e] st1] eqn:E;
    apply keeps_run in E; try apply keeps_generate_follow_ups;
    apply view_inv in E as (Hm & Hg & Hr).
  - rewrite bind_run. unfold append_message, modify, mret, M_ret, closes_turn.
    cbn [fst snd messages generate_answer_calls assess_relevance_calls set_messages].
    rewrite Hm. auto.
  - unfold closes_turn. cbn [fst snd]. auto.
Qed.

Lemma finish_returns (text : string) (st st1 : State) (follow_ups : list string) :
  FollowUpGenerator.generate_follow_ups w refined_query retrieved_info st
  = (Ok follow_ups, st1) ->
  fst (finish w text refined_query retrieved_info st)
  = Ok (format_final_answer text follow_ups).
Proof. intros H. unfold finish. now rewrite (bind_ok _ _ _ _ _ H). Qed.

Lemma after_loop_closes_turn (reason2 : option string) (st : State) :
  closes_turn (messages st) (after_loop w refined_query retrieved_info reason2 st)
  /\ generate_answer_calls (snd (after_loop w refined_query retrieved_info reason2 st))
     = generate_answer_calls st
  /\ assess_relevance_calls (snd (after_loop w refined_query retrieved_info reason2 st))
     = assess_relevance_calls st.
Proof.
  destruct reason2 as [r|]; [apply finish_closes_turn|].
  cbn. auto.
Qed.

(** The loop, whatever the world answers: one assistant turn at most,
    and no more calls than there is fuel. *)
Lemma generation_loop_bounds (fuel : nat) :
  forall (iteration : nat) (reason2 : option string) (st : State),
    let out := generation_loop w fuel iteration refined_query retrieved_info reason2 st in
    closes_turn (messages st) out
    /\ generate_answer_calls (snd out) <= generate_answer_calls st + fuel
    /\ assess_relevance_calls (snd out) <= assess_relevance_calls st + fuel.
Proof.
  induction fuel as [|fuel IH]; intros iteration reason2 st out; subst out.
  - cbn [generation_loop].
    destruct (after_loop_closes_turn reason2 st) as (Hc & Hg & Hr).
    rewrite Hg, Hr. split; [exact Hc|]. lia.
  - cbn [generation_loop]. destruct (iteration <? 5)%nat.
    + rewrite bind_run.
      destruct (generate_answer_attempt st) as (st1 & -> & Hm & Hg & Hr & _).
      destruct (attempt_answer w st refined_query retrieved_info 0) as [a|e].
      * rewrite bind_run, assess_relevance_run.
        set (st2 := set_assess_relevance_calls (S (assess_relevance_calls st1)) st1).
        assert (messages st2 = messages st) as Hm2 by exact Hm.
        assert (generate_answer_calls st2 = S (generate_answer_calls st)) as Hg2
          by exact Hg.
        assert (assess_relevance_calls st2 = S (assess_relevance_calls st)) as Hr2
          by (cbn; now rewrite Hr).
        destruct (assess_relevance_oracle w _ _ _ _) as [[[[] reason]|]|e].
        -- destruct (finish_closes_turn a st2) as (Hc & Hg' & Hr').
           rewrite Hg', Hr', Hg2, Hr2, <- Hm2. split; [exact Hc|]. lia.
        -- specialize (IH (S iteration) (Some reason) st2).
           cbv zeta in IH. destruct IH as (Hc & Hg' & Hr').
           rewrite <- Hm2. split; [exact Hc|]. lia.
        -- rewrite raise_run. unfold closes_turn. cbn [snd].
           rewrite Hm2, Hg2, Hr2. split; [reflexivity|]. lia.
        -- unfold closes_turn. cbn [snd].
           rewrite Hm2, Hg2, Hr2. split; [reflexivity|]. lia.
      * unfold closes_turn. cbn [snd].
        rewrite Hm, Hg, Hr. split; [reflexivity|]. lia.
    + destruct (after_loop_closes_turn reason2 st) as (Hc & Hg & Hr).
      rewrite Hg, Hr. split; [exact Hc|]. lia.
Qed.

End OrchestratorFacts.

Section RetryLoop.

Import AlexupportAgent.

Variable w : World.
Variable refined_query : string.
Variable retrieved_info : Evidence.

Lemma attempt_shift (st st' : State) (i : nat) :
  one_attempt_later st st' ->
  attempt_answer w st' refined_query retrieved_info i
  = attempt_answer w st refined_query retrieved_info (S i)
  /\ attempt_verdict w st' refined_query retrieved_info i
     = attempt_verdict w st refined_query retrieved_info (S i).
Proof.
  intros (Hm & _ & Hr & Hc & Hl).
  assert (attempt_answer w st' refined_query retrieved_info i
          = attempt_answer w st refined_query retrieved_info (S i)) as E.
  { unfold attempt_answer. rewrite Hm, Hc, Hl.
    now replace (S (chat_calls st) + i) with (chat_calls st + S i) by lia;
        replace (S (log_calls st) + i) with (log_calls st + S i) by lia. }
  split; [exact E|].
  unfold attempt_verdict. rewrite E, Hr.
  now replace (S (assess_relevance_calls st) + i)
    with (assess_relevance_calls st + S i) by lia.
Qed.

(** A rejected attempt: the loop goes round once more. *)
Lemma loop_step_rejected (fuel iteration : nat) (reason2 : option string)
  (st : State) (reason : string) :
  iteration < 5 ->
  attempt_verdict w st refined_query retrieved_info 0 = Ok (Some (false, reason)) ->
  exists st2,
    generation_loop w (S fuel) iteration refined_query retrieved_info reason2 st
    = generation_loop w fuel (S iteration) refined_query retrieved_info
        (Some reason) st2
    /\ one_attempt_later st st2.
Proof.
  intros Hit Hv. cbn [generation_loop].
  apply Nat.ltb_lt in Hit. rewrite Hit, bind_run.
  destruct (generate_answer_attempt w refined_query retrieved_info st)
    as (st1 & -> & Hm & Hg & Hr & Hcl).
  unfold attempt_verdict in Hv.
  destruct (attempt_answer w st refined_query retrieved_info 0) as [a|e];
    [|discriminate].
  destruct (Hcl a eq_refl) as [Hc Hl].
  rewrite Nat.add_0_r in Hv.
  rewrite bind_run, assess_relevance_run, Hr, Hv.
  eexists. split; [reflexivity|].
  unfold one_attempt_later. cbn. now rewrite Hm, Hg, Hc, Hl.
Qed.

(** A relevant attempt: the loop is left at once. *)
Lemma loop_step_relevant (fuel iteration : nat) (reason2 : option string)
  (st : State) (a reason : string) :
  iteration < 5 ->
  attempt_answer w st refined_query retrieved_info 0 = Ok a ->
  attempt_verdict w st refined_query retrieved_info 0 = Ok (Some (true, reason)) ->
  exists st2,
    generation_loop w (S fuel) iteration refined_query retrieved_info reason2 st
    = finish w a refined_query retrieved_info st2
    /\ one_attempt_later st st2.
Proof.
  intros Hit Ha Hv. cbn [generation_loop].
  apply Nat.ltb_lt in Hit. rewrite Hit, bind_run.
  destruct (generate_answer_attempt w refined_query retrieved_info st)
    as (st1 & -> & Hm & Hg & Hr & Hcl).
  unfold attempt_verdict in Hv. rewrite Ha in *.
  destruct (Hcl a eq_refl) as [Hc Hl].
  rewrite Nat.add_0_r in Hv.
  rewrite bind_run, assess_relevance_run, Hr, Hv.
  eexists. split; [reflexivity|].
  unfold one_attempt_later. cbn. now rewrite Hm, Hg, Hc, Hl.
Qed.

Lemma loop_first_relevant (k : nat) :
  forall (fuel iteration : nat) (reason2 : option string) (st : State)
         (a reason : string),
    iteration + k < 5 -> k < fuel ->
    (forall i, i < k -> rejected (attempt_verdict w st refined_query retrieved_info i)) ->
    attempt_answer w st refined_query retrieved_info k = Ok a ->
    attempt_verdict w st refined_query retrieved_info k = Ok (Some (true, reason)) ->
    exists stk,
      generation_loop w fuel iteration refined_query retrieved_info reason2 st
      = finish w a refined_query retrieved_info stk
      /\ messages stk = messages st
      /\ generate_answer_calls stk = generate_answer_calls st + S k
      /\ assess_relevance_calls stk = assess_relevance_calls st + S k
      /\ chat_calls stk = chat_calls st + S k
      /\ log_calls stk = log_calls st + S k.
Proof.
  induction k as [|k IH]; intros fuel iteration reason2 st a reason Hit Hfuel Hrej Ha Hv;
    (destruct fuel as [|fuel]; [lia|]).
  - destruct (loop_step_relevant fuel iteration reason2 st a reason)
      as (st2 & E & Hm & Hg & Hr & Hc & Hl); [lia|assumption|assumption|].
    exists st2. rewrite E, Hg, Hr, Hc, Hl. repeat split; [assumption|lia..].
  - destruct (Hrej 0) as [r0 Hr0]; [lia|].
    destruct (loop_step_rejected fuel iteration reason2 st r0)
      as (st2 & E & Hlater); [lia|assumption|].
    destruct (IH fuel (S iteration) (Some r0) st2 a reason)
      as (stk & E' & Hm & Hg & Hr & Hc & Hl).
    + lia.
    + lia.
    + intros i Hi. rewrite (proj2 (attempt_shift st st2 i Hlater)).
      apply Hrej. lia.
    + now rewrite (proj1 (attempt_shift st st2 k Hlater)).
    + now rewrite (proj2 (attempt_shift st st2 k Hlater)).
    + destruct Hlater as (Hm2 & Hg2 & Hr2 & Hc2 & Hl2).
      exists stk. rewrite E, E', Hm, Hg, Hr, Hc, Hl, Hm2, Hg2, Hr2, Hc2, Hl2.
      repeat split; lia.
Qed.

Lemma loop_all_rejected (n : nat) :
  forall (fuel iteration : nat) (reason2 : option string) (st : State)
         (reason : string),
    iteration + S n = 5 -> n < fuel ->
    (forall i, i < n -> rejected (attempt_verdict w st refined_query retrieved_info i)) ->
    attempt_verdict w st refined_query retrieved_info n = Ok (Some (false, reason)) ->
    exists st',
      generation_loop w fuel iteration refined_query retrieved_info reason2 st
      = finish w (exhausted_message reason) refined_query retrieved_info st'
      /\ messages st' = messages st
      /\ generate_answer_calls st' = generate_answer_calls st + S n
      /\ assess_relevance_calls st' = assess_relevance_calls st + S n
      /\ chat_calls st' = chat_calls st + S n
      /\ log_calls st' = log_calls st + S n.
Proof.
  induction n as [|n IH]; intros fuel iteration reason2 st reason Hit Hfuel Hrej Hv;
    (destruct fuel as [|fuel]; [lia|]).
  - destruct (loop_step_rejected fuel iteration reason2 st reason)
      as (st2 & E & Hm & Hg & Hr & Hc & Hl); [lia|assumption|].
    exists st2. rewrite E, Hm, Hg, Hr, Hc, Hl.
    assert (S iteration = 5) as -> by lia.
    split; [|repeat split; lia].
    destruct fuel; reflexivity.
  - destruct (Hrej 0) as [r0 Hr0]; [lia|].
    destruct (loop_step_rejected fuel iteration reason2 st r0)
      as (st2 & E & Hlater); [lia|assumption|].
    destruct (IH fuel (S iteration) (Some r0) st2 reason)
      as (st' & E' & Hm & Hg & Hr & Hc & Hl).
    + lia.
    + lia.
    + intros i Hi. rewrite (proj2 (attempt_shift st st2 i Hlater)).
      apply Hrej. lia.
    + now rewrite (proj2 (attempt_shift st st2 n Hlater)).
    + destruct Hlater as (Hm2 & Hg2 & Hr2 & Hc2 & Hl2).
      exists st'. rewrite E, E', Hm, Hg, Hr, Hc, Hl, Hm2, Hg2, Hr2, Hc2, Hl2.
      repeat split; lia.
Qed.

(** The text with which a turn ends once the loop is left in state
    [st'], [n] attempts after [st]. *)
Lemma finish_text (text : string) (st st' : State) (n : nat) :
  chat_calls st' = chat_calls st + n ->
  log_calls st' = log_calls st + n ->
  fst (outer_guard (finish w text refined_query retrieved_info st'))
  = match follow_ups_after w st refined_query retrieved_info n with
    | Ok follow_ups => format_final_answer text follow_ups
    | Raise e => error_message e
    end.
Proof.
  intros Hc Hl. unfold finish, follow_ups_after. rewrite bind_run.
  unfold FollowUpGenerator.generate_follow_ups. rewrite bind_run.
  pose proof (generate_response_run w
                (FollowUpGenerator.follow_up_messages refined_query retrieved_info) st')
    as Hrun.
  rewrite Hc, Hl in Hrun.
  destruct (generate_response w _ st') as [[raw|e] st1]; cbn [fst] in Hrun.
  - destruct (chat_model_invoke w _ _) as [raw'|e']; [|discriminate].
    destruct (log_write w _); [discriminate|].
    inversion Hrun; subst raw'. reflexivity.
  - destruct (chat_model_invoke w _ _) as [raw'|e'].
    + destruct (log_write w _); [|discriminate]. now inversion Hrun.
    + now inversion Hrun.
Qed.

End RetryLoop.

Section AnswerFacts.

Import AlexupportAgent.

Variable w : World.

Lemma answer_body_unfold (user_query asin : string) (st : State) :
  answer_body w user_query asin st =
  match InputRefiner.refine_input w user_query
          (set_messages (messages st ++ [HumanMessage user_query]) st) with
  | (Raise e, st1) => (Raise e, st1)
  | (Ok refined_query, st1) =>
      match InformationRetriever.retrieve_information w refined_query asin st1 with
      | (Raise e, st2) => (Raise e, st2)
      | (Ok retrieved_info, st2) =>
          match IsAnswerableAgent.check_answerability w refined_query retrieved_info st2
          with
          | (Raise e, st3) => (Raise e, st3)
          | (Ok (true, _), st3) =>
              generation_loop w 5 0 refined_query retrieved_info None st3
          | (Ok (false, reason1), st3) =>
              finish w (unanswerable_message reason1) refined_query retrieved_info st3
          end
      end
  end.
Proof.
  unfold answer_body. rewrite bind_run. unfold append_message, modify.
  rewrite bind_run.
  destruct (InputRefiner.refine_input w user_query _) as [[rq|e] st1]; [|reflexivity].
  rewrite bind_run.
  destruct (InformationRetriever.retrieve_information w rq asin st1)
    as [[info|e] st2]; [|reflexivity].
  rewrite bind_run.
  destruct (IsAnswerableAgent.check_answerability w rq info st2)
    as [[[[] reason1]|e] st3]; reflexivity.
Qed.

(** The state in which the generation loop starts, when it starts. *)
Lemma answer_prefix_view (user_query asin : string) (st st1 st2 st3 : State)
  (rq : string) (info : Evidence) (verdict : bool * string) :
  InputRefiner.refine_input w user_query
    (set_messages (messages st ++ [HumanMessage user_query]) st) = (Ok rq, st1) ->
  InformationRetriever.retrieve_information w rq asin st1 = (Ok info, st2) ->
  IsAnswerableAgent.check_answerability w rq info st2 = (Ok verdict, st3) ->
  messages st3 = messages st ++ [HumanMessage user_query]
  /\ generate_answer_calls st3 = generate_answer_calls st
  /\ assess_relevance_calls st3 = assess_relevance_calls st.
Proof.
  intros H1 H2 H3.
  apply keeps_run in H1; [|apply keeps_refine_input].
  apply keeps_run in H2; [|apply keeps_retrieve_information].
  apply keeps_run in H3; [|apply keeps_check_answerability].
  rewrite H2, H1 in H3. now apply view_inv in H3.
Qed.

(** Every way through the [try] block: the user turn, at most one
    assistant turn, at most five calls of the generator and of the
    relevance checker. *)
Lemma answer_body_summary (user_query asin : string) (st : State) :
  let out := answer_body w user_query asin st in
  closes_turn (messages st ++ [HumanMessage user_query]) out
  /\ generate_answer_calls (snd out) <= generate_answer_calls st + 5
  /\ assess_relevance_calls (snd out) <= assess_relevance_calls st + 5.
Proof.
  cbv zeta. rewrite answer_body_unfold.
  set (st0 := set_messages (messages st ++ [HumanMessage user_query]) st).
  destruct (InputRefiner.refine_input w user_query st0) as [[rq|e] st1] eqn:E1.
  2:{ apply keeps_run in E1; [|apply keeps_refine_input].
      apply view_inv in E1 as (Hm & Hg & Hr).
      unfold closes_turn. cbn [snd]. rewrite Hm, Hg, Hr.
      split; [reflexivity|]. cbn. lia. }
  destruct (InformationRetriever.retrieve_information w rq asin st1)
    as [[info|e] st2] eqn:E2.
  2:{ apply keeps_run in E1; [|apply keeps_refine_input].
      apply keeps_run in E2; [|apply keeps_retrieve_information].
      rewrite E1 in E2. apply view_inv in E2 as (Hm & Hg & Hr).
      unfold closes_turn. cbn [snd]. rewrite Hm, Hg, Hr.
      split; [reflexivity|]. cbn. lia. }
  destruct (IsAnswerableAgent.check_answerability w rq info st2)
    as [[verdict|e] st3] eqn:E3.
  2:{ apply keeps_run in E1; [|apply keeps_refine_input].
      apply keeps_run in E2; [|apply keeps_retrieve_information].
      apply keeps_run in E3; [|apply keeps_check_answerability].
      rewrite E2, E1 in E3. apply view_inv in E3 as (Hm & Hg & Hr).
      unfold closes_turn. cbn [snd]. rewrite Hm, Hg, Hr.
      split; [reflexivity|]. cbn. lia. }
  destruct (answer_prefix_view _ _ _ _ _ _ _ _ _ E1 E2 E3) as (Hm & Hg & Hr).
  destruct verdict as [[] reason1].
  - pose proof (generation_loop_bounds w rq info 5 0 None st3) as H.
    cbv zeta in H. now rewrite Hm, Hg, Hr in H.
  - destruct (finish_closes_turn w rq info (unanswerable_message reason1) st3)
      as (Hc & Hg' & Hr').
    rewrite Hg', Hr', Hg, Hr, <- Hm. split; [exact Hc|]. lia.
Qed.

Lemma outer_guard_counts (out : result string * State) :
  generate_answer_calls (snd (outer_guard out)) = generate_answer_calls (snd out)
  /\ assess_relevance_calls (snd (outer_guard out)) = assess_relevance_calls (snd out).
Proof. destruct out as [[s|e] st']; split; reflexivity. Qed.

End AnswerFacts.

(** C9: [answer] is a total function to strings: whatever the world does,
    the call returns a text, and afterwards the conversation is the one
    before the call followed by the user turn and one assistant turn that
    holds the returned text. When the [try] block raised [e], the returned
    text is "An error occurred while processing your request: " followed
    by the text of [e]; otherwise it is what the block returned. *)
Theorem answer_records_turn :
  forall (w : World) (user_query asin : string) (st : State),
    messages (snd (AlexupportAgent.answer w user_query asin st))
    = messages st ++
        [ HumanMessage user_query;
          AIMessage (fst (AlexupportAgent.answer w user_query asin st)) ]
    /\ match AlexupportAgent.answer_body w user_query asin st with
       | (Raise e, _) =>
           fst (AlexupportAgent.answer w user_query asin st)
           = "An error occurred while processing your request: " +:+ str_exn e
       | (Ok final_answer, _) =>
           fst (AlexupportAgent.answer w user_query asin st) = final_answer
       end.
Proof.
  intros w user_query asin st. unfold AlexupportAgent.answer.
  destruct (answer_body_summary w user_query asin st) as (Hc & _).
  destruct (AlexupportAgent.answer_body w user_query asin st) as [[s|e] st'];
    unfold closes_turn in Hc; cbn [AlexupportAgent.outer_guard fst snd messages set_messages].
  - split; [|reflexivity]. rewrite Hc, <- app_assoc. reflexivity.
  - split; [|reflexivity]. rewrite Hc, <- app_assoc. reflexivity.
Qed.

(** The error path on a run: the chat model is unreachable, the
    refinement raises, and the turn still ends with a text and two new
    turns. *)
Example answer_offline :
  AlexupportAgent.answer Samples5.offline_world "Is it waterproof?" "B000" initial_state
  = ("An error occurred while processing your request: Connection error.",
     set_chat_calls 1
       (set_messages
          [ HumanMessage "Is it waterproof?";
            AIMessage "An error occurred while processing your request: Connection error." ]
          initial_state)).
Proof. vm_compute. reflexivity. Qed.

(** C1 (as the code has it): in every turn [generate_answer] and
    [assess_relevance] are called at most five times each. Take a turn in
    which refinement and retrieval succeed and the answerability verdict
    is true, and let [st3] be the state at the start of the loop. If the
    attempts before attempt [k + 1] (with [k < 5]) are rejected and
    attempt [k + 1] yields the answer [a] and a relevant verdict, then
    exactly [k + 1] calls of each are made, the follow-up questions are
    asked for, and the turn returns [a] formatted with them; when that
    call fails with [e] the turn returns "An error occurred while
    processing your request: " followed by the text of [e]. If all five
    attempts are rejected, the fifth with reason [r], then exactly five
    calls of each are made, the follow-up questions are asked for, and the
    turn returns "Sorry — I couldn't find a relevant answer to that.", an
    empty line and "Reason: " followed by [r], formatted with the
    follow-ups; when that call fails the turn returns the error text
    instead. *)
Theorem generation_loop_retry_policy :
  forall (w : World) (user_query asin : string) (st : State),
    let out := AlexupportAgent.answer w user_query asin st in
    generate_answer_calls (snd out) <= generate_answer_calls st + 5
    /\ assess_relevance_calls (snd out) <= assess_relevance_calls st + 5
    /\ forall (rq : string) (info : Evidence) (reason1 : string) (st1 st2 st3 : State),
        InputRefiner.refine_input w user_query
          (set_messages (messages st ++ [HumanMessage user_query]) st) = (Ok rq, st1) ->
        InformationRetriever.retrieve_information w rq asin st1 = (Ok info, st2) ->
        IsAnswerableAgent.check_answerability w rq info st2 = (Ok (true, reason1), st3) ->
        (forall (k : nat) (a r : string),
            k < 5 ->
            (forall i, i < k -> rejected (attempt_verdict w st3 rq info i)) ->
            attempt_answer w st3 rq info k = Ok a ->
            attempt_verdict w st3 rq info k = Ok (Some (true, r)) ->
            generate_answer_calls (snd out) = generate_answer_calls st + S k
            /\ assess_relevance_calls (snd out) = assess_relevance_calls st + S k
            /\ fst out
               = match follow_ups_after w st3 rq info (S k) with
                 | Ok follow_ups => AlexupportAgent.format_final_answer a follow_ups
                 | Raise e =>
                     "An error occurred while processing your request: " +:+ str_exn e
                 end)
        /\
        (forall (r : string),
            (forall i, i < 4 -> rejected (attempt_verdict w st3 rq info i)) ->
            attempt_verdict w st3 rq info 4 = Ok (Some (false, r)) ->
            generate_answer_calls (snd out) = generate_answer_calls st + 5
            /\ assess_relevance_calls (snd out) = assess_relevance_calls st + 5
            /\ fst out
               = match follow_ups_after w st3 rq info 5 with
                 | Ok follow_ups =>
                     AlexupportAgent.format_final_answer
                       ("Sorry — I couldn't find a relevant answer to that."
                        +:+ nl +:+ nl +:+ "Reason: " +:+ r)
                       follow_ups
                 | Raise e =>
                     "An error occurred while processing your request: " +:+ str_exn e
                 end).
Proof.
  intros w user_query asin st out. subst out.
  unfold AlexupportAgent.answer.
  destruct (answer_body_summary w user_query asin st) as (_ & Hg & Hr).
  destruct (outer_guard_counts (AlexupportAgent.answer_body w user_query asin st))
    as [Eg Er].
  split; [now rewrite Eg|]. split; [now rewrite Er|].
  intros rq info reason1 st1 st2 st3 H1 H2 H3.
  destruct (answer_prefix_view w _ _ _ _ _ _ _ _ _ H1 H2 H3) as (Hm3 & Hg3 & Hr3).
  assert (AlexupportAgent.answer_body w user_query asin st
          = AlexupportAgent.generation_loop w 5 0 rq info None st3) as Ebody.
  { now rewrite answer_body_unfold, H1, H2, H3. }
  rewrite Ebody. clear Eg Er Hg Hr.
  assert (forall text stx,
             generate_answer_calls
               (snd (AlexupportAgent.outer_guard (AlexupportAgent.finish w text rq info stx)))
             = generate_answer_calls stx
             /\ assess_relevance_calls
                  (snd (AlexupportAgent.outer_guard
                          (AlexupportAgent.finish w text rq info stx)))
                = assess_relevance_calls stx) as Hexit.
  { intros text stx.
    destruct (outer_guard_counts (AlexupportAgent.finish w text rq info stx)) as [-> ->].
    destruct (finish_closes_turn w rq info text stx) as (_ & -> & ->).
    split; reflexivity. }
  split.
  - intros k a r Hk Hrej Ha Hv.
    destruct (loop_first_relevant w rq info k 5 0 None st3 a r)
      as (stk & E & _ & Hgk & Hrk & Hck & Hlk); [lia|lia|assumption..|].
    rewrite E. destruct (Hexit a stk) as (-> & ->).
    rewrite Hgk, Hrk, Hg3, Hr3. repeat split.
    exact (finish_text w rq info a st3 stk (S k) Hck Hlk).
  - intros r Hrej Hv.
    destruct (loop_all_rejected w rq info 4 5 0 None st3 r)
      as (st5 & E & _ & Hg5 & Hr5 & Hc5 & Hl5); [lia|lia|assumption..|].
    rewrite E. destruct (Hexit (AlexupportAgent.exhausted_message r) st5) as (-> & ->).
    rewrite Hg5, Hr5, Hg3, Hr3. repeat split.
    exact (finish_text w rq info (AlexupportAgent.exhausted_message r) st3 st5 5 Hc5 Hl5).
Qed.

Lemma generation_loop_retry_policy_witness :
  (let out := AlexupportAgent.answer Samples5.third_time_world
                "Is it waterproof?" "B000" initial_state in
   fst out = AlexupportAgent.format_final_answer "YES" ["YES"]
   /\ generate_answer_calls (snd out) = 3
   /\ assess_relevance_calls (snd out) = 3)
  /\
  (let out := AlexupportAgent.answer Samples5.never_relevant_world
                "Is it waterproof?" "B000" initial_state in
   fst out = AlexupportAgent.format_final_answer
               ("Sorry — I couldn't find a relevant answer to that."
                +:+ nl +:+ nl +:+ "Reason: rejected, call 4") ["YES"]
   /\ generate_answer_calls (snd out) = 5
   /\ assess_relevance_calls (snd out) = 5).
Proof.
  split.
  - destruct (generation_loop_retry_policy Samples5.third_time_world
                "Is it waterproof?" "B000" initial_state) as (_ & _ & H).
    edestruct H as [Hfirst _]; [reflexivity|reflexivity|reflexivity|].
    edestruct (Hfirst 2) as (Hg & Hr & Hret).
    + lia.
    + intros i Hi. destruct i as [|[|i]]; [eexists; reflexivity..|lia].
    + reflexivity.
    + reflexivity.
    + cbv zeta. split; [|split; [exact Hg|exact Hr]].
      rewrite Hret. vm_compute. reflexivity.
  - destruct (generation_loop_retry_policy Samples5.never_relevant_world
                "Is it waterproof?" "B000" initial_state) as (_ & _ & H).
    edestruct H as [_ Hlast]; [reflexivity|reflexivity|reflexivity|].
    edestruct Hlast as (Hg & Hr & Hret).
    + intros i Hi. destruct i as [|[|[|[|i]]]]; [eexists; reflexivity..|lia].
    + reflexivity.
    + cbv zeta. split; [|split; [exact Hg|exact Hr]].
      rewrite Hret. vm_compute. reflexivity.
Defined.

(** C1 as stated fails when the follow-up call fails: the relevance
    checker rejects all five answers, five calls of each are made, the
    call for the follow-up questions raises, and the turn returns the
    error text, in which nothing of the fallback message is left. *)
Lemma exhausted_retries_lose_fallback :
  let out := AlexupportAgent.answer Samples5.follow_ups_down_world
               "Is it waterproof?" "B000" initial_state in
  fst out = "An error occurred while processing your request: Connection error."
  /\ generate_answer_calls (snd out) = 5
  /\ assess_relevance_calls (snd out) = 5
  /\ contains "Sorry" (fst out) = false
  /\ contains "rejected, call 4" (fst out) = false.
Proof. vm_compute. repeat split; reflexivity. Qed.

(** * Further properties of the code *)

(** ** Token log and text client *)

Section TextClientMore.

Variable w : World.

Lemma foldr_token_sum {A : Type} (f : A -> nat) (l : list A) :
  foldr (fun x acc => f x + acc) 0 l = sum_list (map f l).
Proof. induction l as [|x l IH]; [reflexivity|]. cbn. now rewrite IH. Qed.

Lemma generate_response_state (msgs : list ChatTurn) (st : State) :
  generate_response w msgs st =
  match chat_model_invoke w (chat_calls st) (map to_langchain msgs) with
  | Raise e => (Raise e, set_chat_calls (S (chat_calls st)) st)
  | Ok r =>
      match log_write w (log_calls st) with
      | Some e =>
          (Raise e, set_log_calls (S (log_calls st)) (set_chat_calls (S (chat_calls st)) st))
      | None =>
          (Ok r,
           set_token_log
             (token_log st ++
                [token_line w (log_calls st) "response_generation"
                   (sum_list (map (fun msg => count_tokens w (content msg)) msgs))
                   (count_tokens w r)])
             (set_log_calls (S (log_calls st)) (set_chat_calls (S (chat_calls st)) st)))
      end
  end.
Proof.
  unfold generate_response. rewrite bind_run. unfold invoke_chat_model.
  destruct (chat_model_invoke w (chat_calls st) (map to_langchain msgs)) as [r|e];
    [|reflexivity].
  rewrite bind_run, (log_token_usage_run _ _ _ _ _ response_generation_valid).
  cbn [log_calls token_log set_chat_calls]. rewrite foldr_token_sum.
  now destruct (log_write w (log_calls st)).
Qed.

Lemma generate_embeddings_state (texts : list string) (st : State) :
  generate_embeddings w texts st =
  match fst (invoke_embedding_model w texts st) with
  | Raise e => (Raise e, set_embed_calls (S (embed_calls st)) st)
  | Ok v =>
      match log_write w (log_calls st) with
      | Some e =>
          (Raise e, set_log_calls (S (log_calls st)) (set_embed_calls (S (embed_calls st)) st))
      | None =>
          (Ok v,
           set_token_log
             (token_log st ++
                [token_line w (log_calls st) "embeddings_generation"
                   (sum_list (map (count_tokens w) texts)) 0])
             (set_log_calls (S (log_calls st)) (set_embed_calls (S (embed_calls st)) st)))
      end
  end.
Proof.
  unfold generate_embeddings. rewrite bind_run.
  change (invoke_embedding_model w texts st)
    with (fst (invoke_embedding_model w texts st), set_embed_calls (S (embed_calls st)) st).
  destruct (fst (invoke_embedding_model w texts st)) as [v|e]; [|reflexivity].
  rewrite bind_run, (log_token_usage_run _ _ _ _ _ embeddings_generation_valid).
  cbn [log_calls token_log set_embed_calls]. rewrite foldr_token_sum.
  now destruct (log_write w (log_calls st)).
Qed.

End TextClientMore.

(** X1: [log_token_usage] refuses an operation other than
    "response_generation" and "embeddings_generation": it raises the
    [ValueError] before anything is done, so no write is attempted and
    the log keeps its lines. *)
Theorem log_token_usage_rejects_operation :
  forall (w : World) (operation : string) (i o : nat) (st : State),
    operation <> "response_generation" ->
    operation <> "embeddings_generation" ->
    log_token_usage w operation i o st
    = (Raise (Exception
         "Operation must be either 'response_generation' or 'embeddings_generation'."),
       st).
Proof.
  intros w operation i o st H1 H2. unfold log_token_usage.
  rewrite bool_decide_eq_false_2; [reflexivity|].
  intros Hin. apply elem_of_cons in Hin as [->|Hin]; [contradiction|].
  apply list_elem_of_singleton in Hin. contradiction.
Qed.

Lemma log_token_usage_rejects_operation_witness :
  log_token_usage Samples.agreeable_world "chat" 3 4 initial_state
  = (Raise (Exception
       "Operation must be either 'response_generation' or 'embeddings_generation'."),
     initial_state).
Proof.
  apply log_token_usage_rejects_operation; discriminate.
Defined.

(** X2: a [generate_response] call whose model call and log write both
    succeed returns the model's text and adds exactly one line to the
    token log, after the lines already there: the timestamp,
    "response_generation", the token counts of all message contents summed
    up as input, and the token count of the response as output. The
    conversation is not touched. *)
Theorem generate_response_logs_one_line :
  forall (w : World) (msgs : list ChatTurn) (st : State) (r : string),
    chat_model_invoke w (chat_calls st) (map to_langchain msgs) = Ok r ->
    log_write w (log_calls st) = None ->
    fst (generate_response w msgs st) = Ok r
    /\ token_log (snd (generate_response w msgs st))
       = token_log st ++
           [ now_isoformat w (log_calls st) +:+ " - response_generation: input="
             +:+ str_nat (sum_list (map (fun msg => count_tokens w (content msg)) msgs))
             +:+ ", output=" +:+ str_nat (count_tokens w r) +:+ nl ]
    /\ messages (snd (generate_response w msgs st)) = messages st.
Proof.
  intros w msgs st r Hchat Hlog.
  rewrite generate_response_state, Hchat, Hlog. repeat split.
Qed.

Lemma generate_response_logs_one_line_witness :
  fst (generate_response Samples.agreeable_world Samples.question initial_state) = Ok "YES"
  /\ token_log (snd (generate_response Samples.agreeable_world Samples.question
                       initial_state))
     = [ "2025-01-01T00:00:00 - response_generation: input=1, output=1" +:+ nl ].
Proof.
  destruct (generate_response_logs_one_line Samples.agreeable_world Samples.question
              initial_state "YES" eq_refl eq_refl) as (H1 & H2 & _).
  split; [exact H1|]. rewrite H2. reflexivity.
Defined.

(** X3: when the chat model fails, [generate_response] raises that very
    exception, writes no line and does not even try to write one. *)
Theorem generate_response_model_failure :
  forall (w : World) (msgs : list ChatTurn) (st : State) (e : exn),
    chat_model_invoke w (chat_calls st) (map to_langchain msgs) = Raise e ->
    fst (generate_response w msgs st) = Raise e
    /\ token_log (snd (generate_response w msgs st)) = token_log st
    /\ log_calls (snd (generate_response w msgs st)) = log_calls st.
Proof.
  intros w msgs st e Hchat. rewrite generate_response_state, Hchat. repeat split.
Qed.

Lemma generate_response_model_failure_witness :
  fst (generate_response Samples5.offline_world Samples.question initial_state)
  = Raise (Exception "Connection error.")
  /\ log_calls (snd (generate_response Samples5.offline_world Samples.question
                        initial_state)) = 0.
Proof.
  destruct (generate_response_model_failure Samples5.offline_world Samples.question
              initial_state _ eq_refl) as (H1 & _ & H3).
  split; [exact H1|exact H3].
Defined.

(** X4: [generate_embeddings] asks for one vector ([embed_query]) when it
    is given exactly one text, and for a list of vectors
    ([embed_documents]) for any other number of texts, the empty list
    included. In both cases the line logged has the summed token counts of
    the texts as input and 0 as output. *)
Theorem generate_embeddings_dispatch :
  forall (w : World) (texts : list string) (st : State),
    log_write w (log_calls st) = None ->
    (forall t v, texts = [t] -> embed_query w (embed_calls st) t = Ok v ->
       fst (generate_embeddings w texts st) = Ok (EmbedQuery v))
    /\ (forall vs, length texts <> 1 -> embed_documents w (embed_calls st) texts = Ok vs ->
          fst (generate_embeddings w texts st) = Ok (EmbedDocuments vs))
    /\ (forall v, fst (generate_embeddings w texts st) = Ok v ->
          token_log (snd (generate_embeddings w texts st))
          = token_log st ++
              [ now_isoformat w (log_calls st) +:+ " - embeddings_generation: input="
                +:+ str_nat (sum_list (map (count_tokens w) texts))
                +:+ ", output=0" +:+ nl ]).
Proof.
  intros w texts st Hlog. rewrite generate_embeddings_state, Hlog.
  split; [|split].
  - intros t v -> Hq. cbn. now rewrite Hq.
  - intros vs Hlen Hd.
    destruct texts as [|t [|t' texts]]; [|contradiction|]; cbn; now rewrite Hd.
  - intros v Hv.
    destruct (fst (invoke_embedding_model w texts st)); [reflexivity|discriminate].
Qed.

Lemma generate_embeddings_dispatch_witness :
  fst (generate_embeddings Samples.agreeable_world ["Is it waterproof?"] initial_state)
  = Ok (EmbedQuery [1 # 1])
  /\ fst (generate_embeddings Samples.agreeable_world [] initial_state)
     = Ok (EmbedDocuments []).
Proof.
  destruct (generate_embeddings_dispatch Samples.agreeable_world ["Is it waterproof?"]
              initial_state eq_refl) as (H1 & _ & _).
  destruct (generate_embeddings_dispatch Samples.agreeable_world []
              initial_state eq_refl) as (_ & H2 & _).
  split.
  - exact (H1 _ _ eq_refl eq_refl).
  - apply H2; [discriminate|reflexivity].
Defined.

(** X5: the conversion of a role/content dictionary to a chat message
    keeps the content whatever the role is; the message is a system
    message exactly for the role "system", an assistant message exactly
    for the role "assistant", and a human message for every other role,
    known or not. *)
Theorem to_langchain_roles :
  forall (msg : ChatTurn),
    message_content (to_langchain msg) = content msg
    /\ (message_type (to_langchain msg) = "system" <-> role msg = "system")
    /\ (message_type (to_langchain msg) = "ai" <-> role msg = "assistant")
    /\ (role msg <> "system" -> role msg <> "assistant" ->
        to_langchain msg = HumanMessage (content msg)).
Proof.
  intros [r c]. unfold to_langchain. cbn [role content].
  destruct (str_eqb_spec r "system") as [->|Hs].
  { cbn. repeat split; try discriminate; try reflexivity. contradiction. }
  destruct (str_eqb_spec r "human") as [->|Hh].
  { cbn. repeat split; try discriminate; try reflexivity. }
  destruct (str_eqb_spec r "user") as [->|Hu].
  { cbn. repeat split; try discriminate; try reflexivity. }
  destruct (str_eqb_spec r "assistant") as [->|Ha].
  { cbn. repeat split; try discriminate; try reflexivity. contradiction. }
  cbn. repeat split; try discriminate; try reflexivity; try contradiction.
Qed.

(** ** Whitespace *)

Section WhitespaceFacts.

Lemma lstrip_head (s : string) : head_nonspace (lstrip s) = true.
Proof.
  induction s as [|c s IH]; [reflexivity|].
  cbn [lstrip]. destruct (isspace c) eqn:E; [exact IH|].
  cbn. now rewrite E.
Qed.

Lemma lstrip_fixed (s : string) : head_nonspace s = true -> lstrip s = s.
Proof.
  destruct s as [|c s]; [reflexivity|]. cbn.
  intros H. apply negb_true_iff in H. now rewrite H.
Qed.

Lemma rstrip_head (s : string) :
  head_nonspace s = true -> head_nonspace (rstrip s) = true.
Proof.
  destruct s as [|c s]; [reflexivity|]. cbn [head_nonspace].
  intros H. apply negb_true_iff in H.
  rewrite (rstrip_cons_nonspace _ _ H). cbn. now rewrite H.
Qed.

Lemma rstrip_cons_head (c d : codepoint) (s t : string) :
  rstrip s = String d t -> exists u, s = String d u.
Proof.
  destruct s as [|a s]; [discriminate|]. cbn.
  destruct (rstrip s); [destruct (isspace a)|]; intros H; inversion H; eauto.
Qed.

Lemma rstrip_idempotent (s : string) : rstrip (rstrip s) = rstrip s.
Proof.
  induction s as [|c s IH]; [reflexivity|].
  cbn [rstrip]. destruct (rstrip s) as [|d t] eqn:E.
  - destruct (isspace c) eqn:Ec; [reflexivity|]. cbn. now rewrite Ec.
  - cbn [rstrip] in *. rewrite IH. reflexivity.
Qed.

Lemma strip_trimmed (s : string) : trimmed (strip s).
Proof.
  unfold trimmed, strip. split.
  - apply lstrip_fixed, rstrip_head, lstrip_head.
  - apply rstrip_idempotent.
Qed.

Lemma single_spaced_lstrip (s : string) :
  single_spaced s = true -> single_spaced (lstrip s) = true.
Proof.
  induction s as [|c s IH]; [reflexivity|]. intros H.
  cbn [lstrip]. destruct (isspace c) eqn:E; [|exact H].
  apply IH. cbn in H. now apply andb_true_iff in H as [_ H].
Qed.

Lemma single_spaced_rstrip (s : string) :
  single_spaced s = true -> single_spaced (rstrip s) = true.
Proof.
  induction s as [|c s IH]; [reflexivity|]. intros H.
  cbn [single_spaced] in H. apply andb_true_iff in H as [Hc Hs].
  specialize (IH Hs). cbn [rstrip].
  destruct (rstrip s) as [|d t] eqn:E.
  - destruct (isspace c) eqn:Ec; [reflexivity|]. cbn. now rewrite Ec.
  - change (single_spaced (String c (String d t)))
      with ((if isspace c then N.eqb c " "%char && head_nonspace (String d t)
             else true) && single_spaced (String d t)).
    rewrite IH, andb_true_r.
    destruct (isspace c); [|reflexivity].
    apply andb_true_iff in Hc as [Hblank Hhead]. rewrite Hblank. cbn [andb].
    destruct (rstrip_cons_head c d s t E) as [u ->]. exact Hhead.
Qed.

Lemma sub_spaces_single_spaced (s : string) :
  forall in_run,
    single_spaced (sub_spaces in_run s) = true
    /\ (in_run = true -> head_nonspace (sub_spaces in_run s) = true).
Proof.
  induction s as [|c s IH]; intros in_run; [split; reflexivity|].
  cbn [sub_spaces]. destruct (isspace c) eqn:Ec.
  - destruct in_run.
    + apply IH.
    + destruct (IH true) as [H1 H2]. split; [|discriminate].
      cbn. now rewrite H1, H2.
  - destruct (IH false) as [H1 _]. split.
    + cbn. now rewrite Ec, H1.
    + intros _. cbn. now rewrite Ec.
Qed.

Lemma sub_spaces_fixed (s : string) :
  forall in_run,
    single_spaced s = true -> (in_run = true -> head_nonspace s = true) ->
    sub_spaces in_run s = s.
Proof.
  induction s as [|c s IH]; intros in_run H Hhead; [reflexivity|].
  cbn [single_spaced] in H. apply andb_true_iff in H as [Hc Hs].
  cbn [sub_spaces]. destruct (isspace c) eqn:Ec.
  - destruct in_run.
    + specialize (Hhead eq_refl). cbn in Hhead. rewrite Ec in Hhead. discriminate.
    + apply andb_true_iff in Hc as [Hblank Hnext].
      apply N.eqb_eq in Hblank. subst c.
      now rewrite (IH true Hs (fun _ => Hnext)).
  - now rewrite (IH false Hs) by discriminate.
Qed.

Lemma remove_spaces_sub_spaces (s : string) :
  forall in_run, remove_spaces (sub_spaces in_run s) = remove_spaces s.
Proof.
  induction s as [|c s IH]; intros in_run; [reflexivity|].
  cbn [sub_spaces remove_spaces]. destruct (isspace c) eqn:Ec.
  - destruct in_run; [apply IH|]. cbn. apply IH.
  - cbn. now rewrite Ec, IH.
Qed.

Lemma remove_spaces_lstrip (s : string) : remove_spaces (lstrip s) = remove_spaces s.
Proof.
  induction s as [|c s IH]; [reflexivity|].
  cbn [lstrip remove_spaces]. destruct (isspace c) eqn:Ec; [exact IH|].
  cbn. now rewrite Ec.
Qed.

Lemma remove_spaces_rstrip (s : string) : remove_spaces (rstrip s) = remove_spaces s.
Proof.
  induction s as [|c s IH]; [reflexivity|].
  cbn [rstrip remove_spaces]. destruct (rstrip s) as [|d t] eqn:E.
  - destruct (isspace c) eqn:Ec; [exact IH|]. cbn. now rewrite Ec, <- IH.
  - cbn [remove_spaces]. now rewrite <- IH.
Qed.

Lemma single_spaced_count (s : string) (c : codepoint) :
  single_spaced s = true -> isspace c = true -> c <> " "%char -> count_char c s = 0.
Proof.
  intros H Hc Hne. induction s as [|a s IH]; [reflexivity|].
  cbn [single_spaced] in H. apply andb_true_iff in H as [Ha Hs].
  cbn [count_char]. rewrite (IH Hs).
  destruct (N.eqb_spec a c) as [->|]; [|reflexivity].
  rewrite Hc in Ha. apply andb_true_iff in Ha as [Hblank _].
  apply N.eqb_eq in Hblank. contradiction.
Qed.

End WhitespaceFacts.

(** The normal form of [clean_string]. *)
Lemma clean_string_shape (s : string) :
  trimmed (clean_string s)
  /\ single_spaced (clean_string s) = true
  /\ count_char "010"%char (clean_string s) = 0.
Proof.
  assert (single_spaced (clean_string s) = true) as Hss.
  { unfold clean_string, strip.
    apply single_spaced_rstrip, single_spaced_lstrip, sub_spaces_single_spaced. }
  split; [apply strip_trimmed|]. split; [exact Hss|].
  apply single_spaced_count; [exact Hss|reflexivity|discriminate].
Qed.

(** X6: the text [clean_string] returns is in normal form: it has no
    whitespace at either end, its only whitespace characters are single
    blanks between other characters (so no line break or tab is left), and
    its characters other than whitespace are those of the input, in the
    same order. *)
Theorem clean_string_normal_form :
  forall (s : string),
    trimmed (clean_string s)
    /\ single_spaced (clean_string s) = true
    /\ count_char "010"%char (clean_string s) = 0
    /\ count_char "009"%char (clean_string s) = 0
    /\ remove_spaces (clean_string s) = remove_spaces s.
Proof.
  intros s.
  assert (single_spaced (clean_string s) = true) as Hss.
  { unfold clean_string, strip.
    apply single_spaced_rstrip, single_spaced_lstrip, sub_spaces_single_spaced. }
  split; [apply strip_trimmed|]. split; [exact Hss|].
  split; [|split].
  - apply single_spaced_count; [exact Hss|reflexivity|discriminate].
  - apply single_spaced_count; [exact Hss|reflexivity|discriminate].
  - unfold clean_string, strip.
    now rewrite remove_spaces_rstrip, remove_spaces_lstrip, remove_spaces_sub_spaces.
Qed.

(** X7: [clean_string] changes nothing on a text that is already in
    normal form, and only on such a text; so cleaning twice is the same
    as cleaning once. *)
Theorem clean_string_fixed_points :
  forall (s : string),
    (clean_string s = s <-> trimmed s /\ single_spaced s = true)
    /\ clean_string (clean_string s) = clean_string s.
Proof.
  assert (forall t, trimmed t -> single_spaced t = true -> clean_string t = t) as Hfix.
  { intros t [Hl Hr] Hss. unfold clean_string, strip.
    rewrite (sub_spaces_fixed t false Hss) by discriminate.
    now rewrite Hl, Hr. }
  intros s. split.
  - split.
    + intros E. destruct (clean_string_shape s) as (Ht & Hss & _).
      rewrite E in Ht, Hss. now split.
    + intros [Ht Hss]. now apply Hfix.
  - destruct (clean_string_shape s) as (Ht & Hss & _). now apply Hfix.
Qed.

(** ** The micro-agents *)

Section AgentFacts.

Variable w : World.

Lemma bind_strip_result (m : M string) (st : State) (a : string) :
  fst ((m ≫= fun r => mret (strip r)) st) = Ok a -> trimmed a.
Proof.
  rewrite bind_run. destruct (m st) as [[r|e] st1]; [|discriminate].
  cbn. intros H. inversion H. apply strip_trimmed.
Qed.

Lemma generate_response_chat_calls (msgs : list ChatTurn) (st : State) :
  chat_calls (snd (generate_response w msgs st)) = S (chat_calls st).
Proof.
  rewrite generate_response_state.
  destruct (chat_model_invoke w (chat_calls st) (map to_langchain msgs));
    [|reflexivity].
  now destruct (log_write w (log_calls st)).
Qed.

Lemma chat_cost_ret {A : Type} (a : A) : chat_cost (mret a : M A) 0.
Proof. intros st. cbn. lia. Qed.

Lemma chat_cost_raise {A : Type} (e : exn) : chat_cost (@raise A e) 0.
Proof. intros st. cbn. lia. Qed.

Lemma chat_cost_bind {A B : Type} (m : M A) (f : A -> M B) (a b : nat) :
  chat_cost m a -> (forall x, chat_cost (f x) b) -> chat_cost (m ≫= f) (a + b).
Proof.
  intros Hm Hf st. rewrite bind_run. specialize (Hm st).
  destruct (m st) as [[x|e] st1]; cbn [snd] in *; [|lia].
  specialize (Hf x st1). lia.
Qed.

Lemma chat_cost_try_except {A : Type} (body : M A) (handler : exn -> M A) (a b : nat) :
  chat_cost body a -> (forall e, chat_cost (handler e) b) ->
  chat_cost (try_except body handler) (a + b).
Proof.
  intros Hb Hh st. unfold try_except. specialize (Hb st).
  destruct (body st) as [[x|e] st1]; cbn [snd] in *; [lia|].
  specialize (Hh e st1). lia.
Qed.

Lemma chat_cost_weaken {A : Type} (m : M A) (a b : nat) :
  a <= b -> chat_cost m a -> chat_cost m b.
Proof. intros Hab Hm st. specialize (Hm st). lia. Qed.

Lemma chat_cost_generate_response (msgs : list ChatTurn) :
  chat_cost (generate_response w msgs) 1.
Proof. intros st. rewrite generate_response_chat_calls. lia. Qed.

Lemma chat_cost_generate_embeddings (texts : list string) :
  chat_cost (generate_embeddings w texts) 0.
Proof.
  intros st. rewrite generate_embeddings_state.
  destruct (fst (invoke_embedding_model w texts st)); [|cbn; lia].
  destruct (log_write w (log_calls st)); cbn; lia.
Qed.

Lemma chat_cost_refine_input (q : string) :
  chat_cost (InputRefiner.refine_input w q) 1.
Proof.
  unfold InputRefiner.refine_input.
  apply (chat_cost_bind _ _ 1 0); [apply chat_cost_generate_response|].
  intros x. apply chat_cost_ret.
Qed.

Lemma chat_cost_retrieve_information (q product_id : string) :
  chat_cost (InformationRetriever.retrieve_information w q product_id) 0.
Proof.
  unfold InformationRetriever.retrieve_information.
  apply (chat_cost_try_except _ _ 0 0); [|intros e; apply chat_cost_raise].
  apply (chat_cost_bind _ _ 0 0); [apply chat_cost_generate_embeddings|].
  intros v. apply (chat_cost_bind _ _ 0 0).
  - intros st. cbn. lia.
  - intros ps. destruct (InformationRetriever.collect_snippets _);
      [apply chat_cost_ret|apply chat_cost_raise].
Qed.

Lemma chat_cost_check_answerability (q : string) (info : Evidence) :
  chat_cost (IsAnswerableAgent.check_answerability w q info) 1.
Proof.
  unfold IsAnswerableAgent.check_answerability.
  destruct info as [|item rest].
  - apply (chat_cost_weaken _ 0 1); [lia|apply chat_cost_ret].
  - apply (chat_cost_try_except _ _ 1 0); [|intros e; apply chat_cost_ret].
    apply (chat_cost_bind _ _ 1 0); [apply chat_cost_generate_response|].
    intros x. apply chat_cost_ret.
Qed.

Lemma chat_cost_generate_follow_ups (q : string) (ctx : Evidence) :
  chat_cost (FollowUpGenerator.generate_follow_ups w q ctx) 1.
Proof.
  unfold FollowUpGenerator.generate_follow_ups.
  apply (chat_cost_bind _ _ 1 0); [apply chat_cost_generate_response|].
  intros x. apply chat_cost_ret.
Qed.

Lemma chat_cost_generate_answer (q : string) (ctx : Evidence) :
  chat_cost (AnswerGenerator.generate_answer w q ctx) 1.
Proof.
  intros st. rewrite generate_answer_unfold.
  pose proof (generate_response_chat_calls
                (AnswerGenerator.answer_messages (messages st) q ctx)
                (set_generate_answer_calls (S (generate_answer_calls st)) st)) as H.
  destruct (generate_response w _ _) as [[a|e] st1]; cbn [snd] in *;
    rewrite H; cbn; lia.
Qed.

End AgentFacts.

(** X8: what the refiner and the answer generator return has no
    whitespace at either end, and neither has any of the follow-up
    questions. *)
Theorem agent_outputs_trimmed :
  forall (w : World) (st : State),
    (forall q a, fst (InputRefiner.refine_input w q st) = Ok a -> trimmed a)
    /\ (forall q ctx a,
          fst (AnswerGenerator.generate_answer w q ctx st) = Ok a -> trimmed a)
    /\ (forall q ctx l,
          fst (FollowUpGenerator.generate_follow_ups w q ctx st) = Ok l ->
          Forall trimmed l).
Proof.
  intros w st. split; [|split].
  - intros q a. apply bind_strip_result.
  - intros q ctx a. rewrite generate_answer_unfold.
    destruct (generate_response w _ _) as [[r|e] st1]; [|discriminate].
    cbn. intros H. inversion H. apply strip_trimmed.
  - intros q ctx l. unfold FollowUpGenerator.generate_follow_ups. rewrite bind_run.
    destruct (generate_response w _ st) as [[r|e] st1]; [|discriminate].
    cbn. intros H. inversion H. unfold FollowUpGenerator.split_follow_ups.
    apply Forall_forall. intros x Hx.
    apply list_elem_of_fmap in Hx as (piece & -> & _). apply strip_trimmed.
Qed.

Lemma agent_outputs_trimmed_witness :
  Forall trimmed ["Is it durable?"; ""; "How long does it last?"].
Proof.
  destruct (agent_outputs_trimmed Samples2.follow_up_world initial_state) as (_ & _ & H).
  apply (H "Is it waterproof?" Samples2.evidence). reflexivity.
Defined.

(** X9: the text of the human turn of every prompt (refiner,
    answerability checker, answer generator, follow-up generator) is in
    the normal form of [clean_string], whatever the question, the evidence
    and the conversation contain: no line break, no whitespace at the
    ends, single blanks only. Each prompt is the system prompt followed by
    that one turn. *)
Theorem prompts_single_line :
  forall (q : string) (info : Evidence) (history : list Message),
    Forall (fun msgs : list ChatTurn =>
              exists system_text human_role human_text,
                msgs = [ {| role := "system"; content := system_text |};
                         {| role := human_role; content := human_text |} ]
                /\ to_langchain {| role := human_role; content := human_text |}
                   = HumanMessage human_text
                /\ trimmed human_text
                /\ single_spaced human_text = true
                /\ count_char "010"%char human_text = 0)
      [ InputRefiner.refine_messages q;
        IsAnswerableAgent.check_messages q info;
        AnswerGenerator.answer_messages history q info;
        FollowUpGenerator.follow_up_messages q info ].
Proof.
  intros q info history.
  repeat (constructor;
          [do 3 eexists; (split; [reflexivity|]); (split; [reflexivity|]);
           unfold AnswerGenerator.complete_human_input;
           match goal with
           | |- context [clean_string ?s] =>
               destruct (clean_string_shape s) as (Ht & Hs & Hn)
           end; split; [exact Ht|split; [exact Hs|exact Hn]]|]).
  constructor.
Qed.

(** X10: a failed log write turns a positive answerability verdict into a
    negative one: when the model answers (even "YES") and the token line
    cannot be written, [check_answerability] returns false with the reason
    "Error during answerability check: " followed by the text of the
    write error. *)
Theorem check_answerability_log_failure :
  forall (w : World) (q : string) (info : Evidence) (st : State) (raw : string) (e : exn),
    info <> [] ->
    chat_model_invoke w (chat_calls st)
      (map to_langchain (IsAnswerableAgent.check_messages q info)) = Ok raw ->
    log_write w (log_calls st) = Some e ->
    fst (IsAnswerableAgent.check_answerability w q info st)
    = Ok (false, "Error during answerability check: " +:+ str_exn e).
Proof.
  intros w q info st raw e Hne Hchat Hlog.
  destruct info as [|item rest]; [contradiction|].
  unfold IsAnswerableAgent.check_answerability, try_except.
  rewrite bind_run, generate_response_state, Hchat, Hlog. reflexivity.
Qed.

Lemma check_answerability_log_failure_witness :
  fst (IsAnswerableAgent.check_answerability Samples6.yes_but_log_down_world
         "Is it waterproof?" Samples2.evidence initial_state)
  = Ok (false, "Error during answerability check: [Errno 13] Permission denied").
Proof.
  apply (check_answerability_log_failure Samples6.yes_but_log_down_world
           "Is it waterproof?" Samples2.evidence initial_state "YES"
           (Exception "[Errno 13] Permission denied"));
    [discriminate|reflexivity|reflexivity].
Defined.

(** ** Information retriever, further *)

Section RetrieverMore.

Import InformationRetriever.

Variable w : World.

Lemma retrieve_information_state (query product_id : string) (st : State) :
  retrieve_information w query product_id st =
  match generate_embeddings w [query] st with
  | (Raise e, st1) =>
      (Raise (Exception ("Error retrieving information: " +:+ str_exn e)), st1)
  | (Ok v, st1) =>
      let st2 := set_query_calls (S (query_calls st1)) st1 in
      match query_points w (query_calls st1) v product_id with
      | Raise e =>
          (Raise (Exception ("Error retrieving information: " +:+ str_exn e)), st2)
      | Ok ps =>
          match collect_snippets (List.filter score_ok ps) with
          | Raise e =>
              (Raise (Exception ("Error retrieving information: " +:+ str_exn e)), st2)
          | Ok results => (Ok results, st2)
          end
      end
  end.
Proof.
  unfold retrieve_information, try_except. rewrite bind_run.
  destruct (generate_embeddings w [query] st) as [[v|e] st1]; [|reflexivity].
  rewrite bind_run. unfold call_query_points.
  destruct (query_points w (query_calls st1) v product_id) as [ps|e]; [|reflexivity].
  cbv zeta. destruct (collect_snippets (List.filter score_ok ps)); reflexivity.
Qed.

Lemma generate_embeddings_counters (texts : list string) (st : State) :
  embed_calls (snd (generate_embeddings w texts st)) = S (embed_calls st)
  /\ query_calls (snd (generate_embeddings w texts st)) = query_calls st
  /\ chat_calls (snd (generate_embeddings w texts st)) = chat_calls st.
Proof.
  rewrite generate_embeddings_state.
  destruct (fst (invoke_embedding_model w texts st)); [|repeat split].
  destruct (log_write w (log_calls st)); repeat split.
Qed.

Lemma collect_snippets_null (ps : list ScoredPoint) (p : ScoredPoint) (key : string) :
  p ∈ ps -> key ∈ ["answers"; "review_snippets"] -> payload p !! key = Some VNone ->
  exists e, collect_snippets ps = Raise e.
Proof.
  intros Hp Hkey Hnull. induction ps as [|x ps IH].
  - now apply not_elem_of_nil in Hp.
  - cbn [collect_snippets]. apply elem_of_cons in Hp as [<-|Hp].
    + assert (exists e, snippets p = Raise e) as [e ->]; [|eauto].
      unfold snippets, payload_get_list.
      apply elem_of_cons in Hkey as [->|Hkey].
      * rewrite Hnull. cbn. eauto.
      * apply list_elem_of_singleton in Hkey. subst key. rewrite Hnull.
        destruct (default (VList []) (payload p !! "answers")); cbn; eauto.
    + destruct (snippets x); [|eauto].
      destruct (IH Hp) as [e ->]. eauto.
Qed.

End RetrieverMore.

(** X11: every failure inside [retrieve_information], whether of the
    embedding call, of the index query or of the payload handling, leaves
    as one exception whose text is "Error retrieving information: "
    followed by the text of the cause. The call asks for one embedding,
    queries the index once if the embedding succeeded and not at all
    otherwise, and never calls the chat model nor touches the
    conversation. *)
Theorem retrieve_information_calls_and_errors :
  forall (w : World) (query product_id : string) (st : State),
    let out := InformationRetriever.retrieve_information w query product_id st in
    match fst out with
    | Raise e => exists cause, e = Exception ("Error retrieving information: " +:+ cause)
    | Ok _ => True
    end
    /\ embed_calls (snd out) = S (embed_calls st)
    /\ query_calls (snd out)
       = match fst (generate_embeddings w [query] st) with
         | Ok _ => S (query_calls st)
         | Raise _ => query_calls st
         end
    /\ chat_calls (snd out) = chat_calls st
    /\ messages (snd out) = messages st.
Proof.
  intros w query product_id st out. subst out.
  pose proof (keeps_retrieve_information w query product_id st) as Hview.
  apply view_inv in Hview as (Hm & _).
  split; [|split; [|split; [|split; [|exact Hm]]]];
    rewrite retrieve_information_state;
    destruct (generate_embeddings_counters w [query] st) as (He & Hq & Hc);
    destruct (generate_embeddings w [query] st) as [[v|e] st1]; cbn [fst snd] in *;
    eauto;
    destruct (query_points w (query_calls st1) v product_id) as [ps|e];
    cbn [fst snd]; eauto;
    try (destruct (InformationRetriever.collect_snippets _); cbn [fst snd]; eauto);
    cbn; congruence.
Qed.

(** A run of it: the index is unreachable. *)
Example retrieve_information_index_down :
  fst (InformationRetriever.retrieve_information Samples7.index_down_world
         "Is it waterproof?" "B000" initial_state)
  = Raise (Exception "Error retrieving information: Connection refused").
Proof. vm_compute. reflexivity. Qed.

(** X12: a field stored as [None] is not a missing field: when a match
    with score at least 0.5 has [answers] or [review_snippets] present
    with the value [None], the whole retrieval fails (with the wrapped
    error), whatever the other matches hold. *)
Theorem retrieve_information_null_field :
  forall (w : World) (query product_id : string) (st st1 : State)
         (v : Embedding) (ps : list ScoredPoint) (p : ScoredPoint) (key : string),
    generate_embeddings w [query] st = (Ok v, st1) ->
    query_points w (query_calls st1) v product_id = Ok ps ->
    p ∈ ps -> (1 # 2 <= score p)%Q ->
    key ∈ ["answers"; "review_snippets"] ->
    payload p !! key = Some VNone ->
    exists cause,
      fst (InformationRetriever.retrieve_information w query product_id st)
      = Raise (Exception ("Error retrieving information: " +:+ cause)).
Proof.
  intros w query product_id st st1 v ps p key Hemb Hquery Hp Hscore Hkey Hnull.
  rewrite retrieve_information_state, Hemb. cbv zeta. rewrite Hquery.
  destruct (collect_snippets_null (List.filter InformationRetriever.score_ok ps) p key)
    as [e ->]; [|assumption|assumption|eauto].
  apply list_elem_of_In, filter_In. split; [now apply list_elem_of_In|].
  now apply score_ok_iff.
Qed.

Lemma retrieve_information_null_field_witness :
  exists cause,
    fst (InformationRetriever.retrieve_information Samples7.null_field_world
           "Is it waterproof?" "B000" initial_state)
    = Raise (Exception ("Error retrieving information: " +:+ cause)).
Proof.
  eapply (retrieve_information_null_field Samples7.null_field_world
            "Is it waterproof?" "B000" initial_state _ _ _ Samples7.null_answers "answers").
  - reflexivity.
  - reflexivity.
  - apply list_elem_of_further, list_elem_of_here.
  - discriminate.
  - apply list_elem_of_here.
  - reflexivity.
Defined.

(** ** Product listing, further *)

Section ListProductsMore.

Import InformationRetriever.

Lemma add_points_extends (points : list IndexRecord) :
  forall collected seen collected' seen',
    add_points points collected seen = Ok (collected', seen') ->
    exists added,
      collected' = collected ++ added
      /\ length added <= length points
      /\ Forall well_formed_product added
      /\ (forall p, p ∈ added -> asin p ∉ seen).
Proof.
  induction points as [|pt rest IH]; intros collected seen collected' seen' H.
  - cbn in H. inversion H; subst. exists []. rewrite app_nil_r.
    repeat split; [cbn; lia|constructor|].
    intros p Hp. now apply not_elem_of_nil in Hp.
  - cbn [add_points] in H.
    destruct (payload_get "asin" (default ∅ (record_payload pt))) as [|a|[|x l]].
    + destruct (IH _ _ _ _ H) as (added & -> & Hlen & Hwf & Hnew).
      exists added. repeat split; [cbn; lia|assumption|assumption].
    + destruct (truthy (VStr a) && negb (bool_decide (a ∈ seen))) eqn:E.
      * apply andb_true_iff in E as [Ha E]. apply negb_true_iff in E.
        apply bool_decide_eq_false in E.
        destruct (IH _ _ _ _ H) as (added & -> & Hlen & Hwf & Hnew).
        eexists (_ :: added). rewrite <- app_assoc. split; [reflexivity|].
        split; [cbn; lia|]. split.
        -- constructor; [|exact Hwf]. split; cbn [asin productTitle].
           ++ intros ->. discriminate.
           ++ destruct (truthy (payload_get "productTitle" _)) eqn:Et;
                [exact Et|reflexivity].
        -- intros p Hp. apply elem_of_cons in Hp as [->|Hp]; [exact E|].
           specialize (Hnew p Hp). set_solver.
      * destruct (IH _ _ _ _ H) as (added & -> & Hlen & Hwf & Hnew).
        exists added. repeat split; [cbn; lia|assumption|assumption].
    + destruct (IH _ _ _ _ H) as (added & -> & Hlen & Hwf & Hnew).
      exists added. repeat split; [cbn; lia|assumption|assumption].
    + discriminate.
Qed.


Lemma list_products_loop_length (w : World) (size : nat) (fuel : nat) (limit : Z) :
  pages_within w size ->
  forall collected page_offset seen st st' l,
    list_products_loop w fuel limit collected page_offset seen st = (Ok (Some l), st') ->
    (Z.of_nat (length l)
     <= Z.max (Z.of_nat (length collected)) (limit - 1 + Z.of_nat size))%Z.
Proof.
  intros Hpages.
  induction fuel as [|fuel IH]; intros collected page_offset seen st st' l H.
  - cbn in H. destruct (Z.of_nat (length collected) <? limit)%Z; [discriminate|].
    inversion H; subst. lia.
  - cbn [list_products_loop] in H.
    destruct (Z.ltb_spec (Z.of_nat (length collected)) limit) as [Hlt|Hge];
      [|inversion H; subst; lia].
    rewrite bind_run in H. unfold call_scroll in H.
    destruct (scroll w (scroll_calls st) page_offset) as [resp|e] eqn:Escroll;
      [|discriminate].
    pose proof (Hpages _ _ _ Escroll) as Hsize.
    destruct (decode_scroll resp) as [points page_offset']. cbn [fst] in Hsize.
    destruct points as [|p0 points]; [inversion H; subst; lia|].
    destruct (add_points (p0 :: points) collected seen) as [[c' s']|e] eqn:Eadd;
      [|discriminate].
    destruct (add_points_extends _ _ _ _ _ Eadd) as (added & -> & Hlen & _ & _).
    assert (Z.of_nat (length (collected ++ added)) <= limit - 1 + Z.of_nat size)%Z
      as Hbound by (rewrite length_app; lia).
    destruct page_offset' as [off|]; [|inversion H; subst; lia].
    specialize (IH _ _ _ _ _ _ H). lia.
Qed.


End ListProductsMore.



(** X14: the bound that [list_products] does keep. With [limit] at most
    0 it returns the empty list at once, without reading the index and
    whatever the index would answer. With [limit] at least 1 and pages of
    at most [size] points, every list it returns has at most
    [limit - 1 + size] entries: the limit is tested before a page is read,
    and the whole page is then added. *)
Theorem list_products_length_bound :
  forall (w : World) (size fuel : nat) (limit : Z) (st : State),
    ((limit <= 0)%Z ->
     InformationRetriever.list_products w fuel limit st = (Ok (Some []), st))
    /\ (pages_within w size -> (1 <= limit)%Z ->
        forall (l : list InformationRetriever.Product) (st' : State),
          InformationRetriever.list_products w fuel limit st = (Ok (Some l), st') ->
          (Z.of_nat (length l) <= limit - 1 + Z.of_nat size)%Z).
Proof.
  intros w size fuel limit st. split.
  - intros Hlimit. unfold InformationRetriever.list_products.
    assert ((Z.of_nat (length (@nil InformationRetriever.Product)) <? limit)%Z = false)
      as Hguard by (apply Z.ltb_ge; cbn; lia).
    destruct fuel; cbn [InformationRetriever.list_products_loop];
      now rewrite Hguard, ret_run.
  - intros Hpages Hlimit l st' H.
    pose proof (list_products_loop_length w size fuel limit Hpages _ _ _ _ _ _ H) as Hlen.
    cbn [length] in Hlen. lia.
Qed.

Lemma list_products_length_bound_witness :
  InformationRetriever.list_products Samples4.catalogue_world 3 0 initial_state
  = (Ok (Some []), initial_state)
  /\ (Z.of_nat (length [ {| InformationRetriever.asin := "B001";
                            InformationRetriever.productTitle := VStr "Kettle" |};
                         {| InformationRetriever.asin := "B002";
                            InformationRetriever.productTitle := VStr "Toaster" |} ])
      <= 1 - 1 + Z.of_nat 3)%Z.
Proof.
  split.
  - apply (list_products_length_bound Samples4.catalogue_world 3 3 0 initial_state). lia.
  - assert (pages_within Samples4.catalogue_world 3) as Hpages.
    { intros n off resp H. inversion H; subst. cbn. lia. }
    assert (1 <= 1)%Z as Hlimit by lia.
    apply (proj2 (list_products_length_bound Samples4.catalogue_world 3 3 1 initial_state)
             Hpages Hlimit _
             (snd (InformationRetriever.list_products Samples4.catalogue_world 3 1
                     initial_state))).
    vm_compute. reflexivity.
Defined.

(** X15: the loop over a page only appends. Products collected before
    keep their place and their title (the first title seen for an asin
    stays), at most one product is appended per point, and a product is
    appended only for an asin that was not seen before. *)
Theorem add_points_appends :
  forall (points : list IndexRecord) (collected collected' : list InformationRetriever.Product)
         (seen seen' : gset string),
    InformationRetriever.add_points points collected seen = Ok (collected', seen') ->
    exists added,
      collected' = collected ++ added
      /\ length added <= length points
      /\ (forall p, p ∈ added -> InformationRetriever.asin p ∉ seen).
Proof.
  intros points collected collected' seen seen' H.
  destruct (add_points_extends _ _ _ _ _ H) as (added & E & Hlen & _ & Hnew).
  exists added. auto.
Qed.

Lemma add_points_appends_witness :
  exists added,
    [ {| InformationRetriever.asin := "B001";
         InformationRetriever.productTitle := VStr "Kettle" |};
      {| InformationRetriever.asin := "B002";
         InformationRetriever.productTitle := VStr "Toaster" |} ]
    = [ {| InformationRetriever.asin := "B001";
           InformationRetriever.productTitle := VStr "Kettle" |} ] ++ added
    /\ length added <= 2
    /\ (forall p, p ∈ added -> InformationRetriever.asin p ∉ ({[ "B001" ]} : gset string)).
Proof.
  apply (add_points_appends
           [ Samples4.record_of "B002" "Toaster";
             Samples4.record_of "B001" "Kettle (renewed)" ]
           [ {| InformationRetriever.asin := "B001";
                InformationRetriever.productTitle := VStr "Kettle" |} ]
           _ {[ "B001" ]} ({[ "B002" ]} ∪ {[ "B001" ]})).
  vm_compute. reflexivity.
Defined.



(** ** Orchestrator, further *)

Section OrchestratorMore.

Import AlexupportAgent.

Variable w : World.

Lemma loop_step_failed (fuel iteration : nat) (reason2 : option string)
  (rq : string) (info : Evidence) (st : State) (e : exn) :
  iteration < 5 ->
  attempt_failure w st rq info 0 = Some e ->
  exists st',
    generation_loop w (S fuel) iteration rq info reason2 st = (Raise e, st')
    /\ messages st' = messages st
    /\ generate_answer_calls st' = S (generate_answer_calls st)
    /\ assess_relevance_calls st' <= S (assess_relevance_calls st).
Proof.
  intros Hit Hfail. cbn [generation_loop].
  apply Nat.ltb_lt in Hit. rewrite Hit, bind_run.
  destruct (generate_answer_attempt w rq info st) as (st1 & -> & Hm & Hg & Hr & _).
  unfold attempt_failure, attempt_verdict in Hfail.
  destruct (attempt_answer w st rq info 0) as [a|e0].
  - rewrite Nat.add_0_r in Hfail.
    rewrite bind_run, assess_relevance_run, Hr.
    destruct (assess_relevance_oracle w (assess_relevance_calls st) rq a info)
      as [[[b r]|]|e1]; [discriminate| |]; inversion Hfail; subst;
      eexists; (split; [reflexivity|]); cbn; rewrite Hm, Hg; repeat split; lia.
  - inversion Hfail; subst. exists st1. rewrite Hm, Hg, Hr. repeat split. lia.
Qed.

Lemma attempt_failure_shift (rq : string) (info : Evidence) (st st' : State) (i : nat) :
  one_attempt_later st st' ->
  attempt_failure w st' rq info i = attempt_failure w st rq info (S i).
Proof.
  intros H. unfold attempt_failure.
  now rewrite (proj2 (attempt_shift w rq info st st' i H)).
Qed.

Lemma loop_failure (rq : string) (info : Evidence) (k : nat) :
  forall (fuel iteration : nat) (reason2 : option string) (st : State) (e : exn),
    iteration + k < 5 -> k < fuel ->
    (forall i, i < k -> rejected (attempt_verdict w st rq info i)) ->
    attempt_failure w st rq info k = Some e ->
    exists st',
      generation_loop w fuel iteration rq info reason2 st = (Raise e, st')
      /\ messages st' = messages st
      /\ generate_answer_calls st' = generate_answer_calls st + S k
      /\ assess_relevance_calls st' <= assess_relevance_calls st + S k.
Proof.
  induction k as [|k IH]; intros fuel iteration reason2 st e Hit Hfuel Hrej Hfail;
    (destruct fuel as [|fuel]; [lia|]).
  - destruct (loop_step_failed fuel iteration reason2 rq info st e)
      as (st' & E & Hm & Hg & Hr); [lia|assumption|].
    exists st'. rewrite E, Hm, Hg. repeat split; lia.
  - destruct (Hrej 0) as [r0 Hr0]; [lia|].
    destruct (loop_step_rejected w rq info fuel iteration reason2 st r0)
      as (st2 & E & Hlater); [lia|assumption|].
    destruct (IH fuel (S iteration) (Some r0) st2 e) as (st' & E' & Hm & Hg & Hr).
    + lia.
    + lia.
    + intros i Hi. rewrite (proj2 (attempt_shift w rq info st st2 i Hlater)).
      apply Hrej. lia.
    + now rewrite (attempt_failure_shift rq info st st2 k Hlater).
    + destruct Hlater as (Hm2 & Hg2 & Hr2 & _).
      exists st'. rewrite E, E', Hm, Hg, Hm2, Hg2. repeat split; lia.
Qed.

Lemma chat_cost_finish (text rq : string) (info : Evidence) :
  chat_cost (finish w text rq info) 1.
Proof.
  unfold finish.
  apply (chat_cost_bind _ _ 1 0); [apply chat_cost_generate_follow_ups|].
  intros fu. apply (chat_cost_bind _ _ 0 0); [|intros x; apply chat_cost_ret].
  intros st. cbn. lia.
Qed.

Lemma chat_cost_after_loop (rq : string) (info : Evidence) (reason2 : option string) :
  chat_cost (after_loop w rq info reason2) 1.
Proof.
  destruct reason2; [apply chat_cost_finish|].
  apply (chat_cost_weaken _ 0 1); [lia|apply chat_cost_raise].
Qed.

Lemma chat_cost_generation_loop (rq : string) (info : Evidence) (fuel : nat) :
  forall iteration reason2,
    chat_cost (generation_loop w fuel iteration rq info reason2) (fuel + 1).
Proof.
  induction fuel as [|fuel IH]; intros iteration reason2.
  - apply chat_cost_after_loop.
  - cbn [generation_loop]. destruct (iteration <? 5)%nat.
    + replace (S fuel + 1) with (1 + (0 + (fuel + 1))) by lia.
      apply chat_cost_bind; [apply chat_cost_generate_answer|intros a].
      apply chat_cost_bind; [intros st; cbn; lia|intros [[[] r]|]].
      * apply (chat_cost_weaken _ 1); [lia|apply chat_cost_finish].
      * apply IH.
      * apply (chat_cost_weaken _ 0); [lia|apply chat_cost_raise].
    + apply (chat_cost_weaken _ 1); [lia|apply chat_cost_after_loop].
Qed.

Lemma chat_cost_answer_body (user_query asin : string) :
  chat_cost (answer_body w user_query asin) 8.
Proof.
  unfold answer_body.
  replace 8 with (0 + (1 + (0 + (1 + 6)))) by lia.
  apply chat_cost_bind; [intros st; cbn; lia|intros _].
  apply chat_cost_bind; [apply chat_cost_refine_input|intros rq].
  apply chat_cost_bind; [apply chat_cost_retrieve_information|intros info].
  apply chat_cost_bind; [apply chat_cost_check_answerability|intros [[] reason1]].
  - apply (chat_cost_generation_loop rq info 5).
  - apply (chat_cost_weaken _ 1); [lia|apply chat_cost_finish].
Qed.

(** The conversation after a call of [answer]. *)
Lemma answer_messages_after (user_query asin : string) (st : State) :
  messages (snd (answer w user_query asin st))
  = messages st ++ [HumanMessage user_query;
                    AIMessage (fst (answer w user_query asin st))].
Proof.
  unfold answer.
  destruct (answer_body_summary w user_query asin st) as (Hc & _).
  destruct (answer_body w user_query asin st) as [[s|e] st'];
    unfold closes_turn in Hc; cbn [outer_guard fst snd messages set_messages];
    rewrite Hc, <- app_assoc; reflexivity.
Qed.

End OrchestratorMore.

(** X17: the exit for unanswerable questions. When refinement and
    retrieval succeed and the answerability verdict is false with reason
    [reason1], the turn ends without any call of the answer generator or
    of the relevance checker; when the follow-up call succeeds the text
    returned is the message "Sorry — I couldn't find information reliable
    enough to answer that.", an empty line and "Reason: " with [reason1],
    formatted with the follow-ups. *)
Theorem answer_unanswerable_exit :
  forall (w : World) (user_query asin : string) (st : State)
         (rq : string) (info : Evidence) (reason1 : string) (st1 st2 st3 : State),
    InputRefiner.refine_input w user_query
      (set_messages (messages st ++ [HumanMessage user_query]) st) = (Ok rq, st1) ->
    InformationRetriever.retrieve_information w rq asin st1 = (Ok info, st2) ->
    IsAnswerableAgent.check_answerability w rq info st2 = (Ok (false, reason1), st3) ->
    let out := AlexupportAgent.answer w user_query asin st in
    generate_answer_calls (snd out) = generate_answer_calls st
    /\ assess_relevance_calls (snd out) = assess_relevance_calls st
    /\ forall follow_ups stf,
        FollowUpGenerator.generate_follow_ups w rq info st3 = (Ok follow_ups, stf) ->
        fst out
        = AlexupportAgent.format_final_answer
            ("Sorry — I couldn't find information reliable enough to answer that."
             +:+ nl +:+ nl +:+ "Reason: " +:+ reason1)
            follow_ups.
Proof.
  intros w user_query asin st rq info reason1 st1 st2 st3 H1 H2 H3 out. subst out.
  destruct (answer_prefix_view w _ _ _ _ _ _ _ _ _ H1 H2 H3) as (Hm3 & Hg3 & Hr3).
  unfold AlexupportAgent.answer.
  rewrite answer_body_unfold, H1, H2, H3.
  destruct (outer_guard_counts
              (AlexupportAgent.finish w (AlexupportAgent.unanswerable_message reason1)
                 rq info st3)) as [-> ->].
  destruct (finish_closes_turn w rq info
              (AlexupportAgent.unanswerable_message reason1) st3) as (_ & -> & ->).
  split; [exact Hg3|]. split; [exact Hr3|].
  intros fu stf Hfu.
  pose proof (finish_returns w rq info
                (AlexupportAgent.unanswerable_message reason1) st3 stf fu Hfu) as Hret.
  destruct (AlexupportAgent.finish w _ rq info st3) as [[s|e] st'];
    cbn in Hret; [|discriminate].
  inversion Hret. reflexivity.
Qed.

Lemma answer_unanswerable_exit_witness :
  fst (AlexupportAgent.answer Samples9.no_match_world "Is it waterproof?" "B000"
         initial_state)
  = AlexupportAgent.format_final_answer
      ("Sorry — I couldn't find information reliable enough to answer that."
       +:+ nl +:+ nl +:+ "Reason: "
       +:+ "I don't  have relevant information in my data to answer your question.")
      ["Anything else?"].
Proof.
  edestruct (answer_unanswerable_exit Samples9.no_match_world "Is it waterproof?" "B000"
               initial_state) as (_ & _ & H);
    [reflexivity|reflexivity|reflexivity|].
  cbv zeta in H. eapply H.
  match goal with
  | |- ?l = _ => let l' := eval vm_compute in l in change l with l'
  end.
  reflexivity.
Defined.

(** X18: failures are not retried. In a turn whose answerability verdict
    is true, if the attempts before attempt [k + 1] are rejected and
    attempt [k + 1] fails (the answer generator or the relevance checker
    raises, or the relevance checker returns something that is not a
    pair), the turn ends there: the text returned is "An error occurred
    while processing your request: " with the text of the failure, the
    answer generator was called exactly [k + 1] times, and the relevance
    checker at most [k + 1] times. *)
Theorem answer_failed_attempt_ends_turn :
  forall (w : World) (user_query asin : string) (st : State)
         (rq : string) (info : Evidence) (reason1 : string) (st1 st2 st3 : State)
         (k : nat) (e : exn),
    InputRefiner.refine_input w user_query
      (set_messages (messages st ++ [HumanMessage user_query]) st) = (Ok rq, st1) ->
    InformationRetriever.retrieve_information w rq asin st1 = (Ok info, st2) ->
    IsAnswerableAgent.check_answerability w rq info st2 = (Ok (true, reason1), st3) ->
    k < 5 ->
    (forall i, i < k -> rejected (attempt_verdict w st3 rq info i)) ->
    attempt_failure w st3 rq info k = Some e ->
    let out := AlexupportAgent.answer w user_query asin st in
    fst out = "An error occurred while processing your request: " +:+ str_exn e
    /\ generate_answer_calls (snd out) = generate_answer_calls st + S k
    /\ assess_relevance_calls (snd out) <= assess_relevance_calls st + S k.
Proof.
  intros w user_query asin st rq info reason1 st1 st2 st3 k e H1 H2 H3 Hk Hrej Hfail out.
  subst out.
  destruct (answer_prefix_view w _ _ _ _ _ _ _ _ _ H1 H2 H3) as (Hm3 & Hg3 & Hr3).
  unfold AlexupportAgent.answer.
  rewrite answer_body_unfold, H1, H2, H3.
  destruct (loop_failure w rq info k 5 0 None st3 e) as (st' & -> & _ & Hg & Hr);
    [lia|lia|assumption|assumption|].
  cbn. rewrite Hg, Hg3. split; [reflexivity|]. split; lia.
Qed.

Lemma answer_failed_attempt_ends_turn_witness :
  let out := AlexupportAgent.answer Samples9.broken_checker_world
               "Is it waterproof?" "B000" initial_state in
  fst out = "An error occurred while processing your request: "
            +:+ "assess_relevance must return a tuple (bool, str)."
  /\ generate_answer_calls (snd out) = 2.
Proof.
  edestruct (answer_failed_attempt_ends_turn Samples9.broken_checker_world
               "Is it waterproof?" "B000" initial_state) with (k := 1)
    as (H1 & H2 & _).
  - reflexivity.
  - reflexivity.
  - reflexivity.
  - lia.
  - intros i Hi. destruct i as [|i]; [eexists; reflexivity|lia].
  - reflexivity.
  - cbv zeta. split; [exact H1|exact H2].
Defined.

(** X19: the cost of a turn in chat-model calls. Not counting what the
    relevance checker does on its own, a call of [answer] asks the chat
    model at most eight times: once to refine, at most once to check
    answerability, at most five times to generate an answer, and at most
    once for the follow-ups. *)
Theorem answer_chat_calls_bound :
  forall (w : World) (user_query asin : string) (st : State),
    chat_calls (snd (AlexupportAgent.answer w user_query asin st)) <= chat_calls st + 8.
Proof.
  intros w user_query asin st. unfold AlexupportAgent.answer.
  pose proof (chat_cost_answer_body w user_query asin st) as H.
  destruct (AlexupportAgent.answer_body w user_query asin st) as [[s|e] st'];
    exact H.
Qed.

(** X20: a session. When a list of questions is answered in turn by the
    same agent, the conversation afterwards is the conversation before,
    followed by each question and the text returned for it, in the order
    asked; there are as many replies as questions. *)
Theorem run_turns_transcript :
  forall (w : World) (questions : list (string * string)) (st : State),
    length (fst (run_turns w questions st)) = length questions
    /\ messages (snd (run_turns w questions st))
       = messages st ++ transcript questions (fst (run_turns w questions st)).
Proof.
  intros w questions. induction questions as [|[q asin] rest IH]; intros st.
  - cbn. now rewrite app_nil_r.
  - cbn [run_turns].
    pose proof (answer_messages_after w q asin st) as Hm.
    destruct (AlexupportAgent.answer w q asin st) as [reply st1]. cbn [fst snd] in Hm.
    specialize (IH st1). destruct (run_turns w rest st1) as [replies st2].
    cbn [fst snd] in *. destruct IH as [Hlen Hrest]. split; [cbn; now rewrite Hlen|].
    rewrite Hrest, Hm, <- app_assoc. reflexivity.
Qed.

(** ** The chat front-end *)

Section StreamFacts.

Import StreamlitApp.

Lemma join_cons_spaced (x : string) (l : list string) :
  join " " (x :: l) = x +:+ spaced l.
Proof.
  revert x. induction l as [|y r IH]; intros x.
  - cbn. now rewrite append_nil_r.
  - change (join " " (x :: y :: r)) with (x +:+ " " +:+ join " " (y :: r)).
    now rewrite IH.
Qed.

Lemma cons_word_nonempty (word : string) (words : list string) :
  Forall (fun x => x <> "") words -> Forall (fun x => x <> "") (cons_word word words).
Proof.
  intros H. destruct word; [exact H|]. constructor; [discriminate|exact H].
Qed.

Lemma split_ws_nonempty (s : string) :
  Forall (fun x => x <> "") (snd (split_ws s)).
Proof.
  induction s as [|c s IH]; [constructor|].
  cbn [split_ws]. destruct (split_ws s) as [word words]. cbn [snd] in IH.
  destruct (isspace c); cbn [snd]; [now apply cons_word_nonempty|exact IH].
Qed.

Lemma py_split_nonempty (s : string) : Forall (fun x => x <> "") (py_split s).
Proof.
  unfold py_split. pose proof (split_ws_nonempty s) as H.
  destruct (split_ws s) as [word words]. now apply cons_word_nonempty.
Qed.

Lemma rstrip_blank_join (l : list string) :
  Forall (fun x => x <> "") l ->
  match join " " l with
  | EmptyString => EmptyString
  | String a t => String " "%char (String a t)
  end = spaced l.
Proof.
  intros H. destruct l as [|x r]; [reflexivity|].
  rewrite join_cons_spaced. inversion H as [|? ? Hx _]; subst.
  destruct x as [|a x]; [contradiction|]. reflexivity.
Qed.

Lemma sub_spaces_words (s : string) :
  rstrip (sub_spaces false s) = fst (split_ws s) +:+ spaced (snd (split_ws s))
  /\ rstrip (sub_spaces true s) = join " " (py_split s).
Proof.
  induction s as [|c s [IHf IHt]]; [split; reflexivity|].
  pose proof (py_split_nonempty s) as Hne.
  unfold py_split in *. cbn [split_ws sub_spaces].
  destruct (split_ws s) as [word words]. cbn [fst snd] in *.
  destruct (isspace c) eqn:Ec; cbn [fst snd].
  - split.
    + cbn [rstrip]. rewrite IHt.
      change (isspace " "%char) with true. cbv iota.
      rewrite append_nil_l. rewrite <- (rstrip_blank_join _ Hne).
      now destruct (join " " (cons_word word words)).
    + exact IHt.
  - rewrite !(rstrip_cons_nonspace _ _ Ec), IHf. split; [reflexivity|].
    cbn [cons_word]. now rewrite join_cons_spaced.
Qed.

Lemma lstrip_sub_spaces (s : string) :
  lstrip (sub_spaces false s) = sub_spaces true s.
Proof.
  destruct s as [|c s]; [reflexivity|].
  cbn [sub_spaces]. destruct (isspace c) eqn:Ec.
  - cbn [lstrip]. change (isspace " "%char) with true. cbv iota.
    apply lstrip_fixed. now apply sub_spaces_single_spaced.
  - cbn [lstrip]. now rewrite Ec.
Qed.

Lemma join_stream (l : list string) :
  l <> [] -> join "" (map (fun word => word +:+ " ") l) = join " " l +:+ " ".
Proof.
  induction l as [|x r IH]; [contradiction|]. intros _.
  destruct r as [|y r]; [reflexivity|].
  change (join "" (map (fun word => word +:+ " ") (x :: y :: r)))
    with ((x +:+ " ") +:+ "" +:+ join "" (map (fun word => word +:+ " ") (y :: r))).
  change (join " " (x :: y :: r)) with (x +:+ " " +:+ join " " (y :: r)).
  rewrite IH by discriminate. now rewrite append_nil_l, !append_assoc.
Qed.

Lemma before_first_app (sep a rest : string) :
  (forall c, mem_char c a = true -> startswith (String c "") sep = false) ->
  sep <> "" ->
  before_first sep (a +:+ sep +:+ rest) = a.
Proof.
  intros Ha Hsep. induction a as [|c a IH].
  - rewrite append_nil_l. destruct (sep +:+ rest) eqn:E; cbn;
      rewrite <- E, startswith_app; reflexivity.
  - rewrite append_cons. cbn [before_first].
    assert (startswith sep (String c (a +:+ sep +:+ rest)) = false) as ->.
    { destruct sep as [|d sep]; [contradiction|]. cbn [startswith].
      assert (mem_char c (String c a) = true) as Hmem.
      { cbn [mem_char]. now rewrite N.eqb_refl. }
      specialize (Ha c Hmem). cbn [startswith] in Ha.
      destruct (N.eqb_spec c d) as [->|Hcd]; [discriminate|].
      destruct (N.eqb_spec d c) as [->|]; [contradiction|reflexivity]. }
    f_equal. apply IH. intros x Hx. apply Ha.
    cbn [mem_char]. rewrite Hx. apply orb_true_r.
Qed.

End StreamFacts.

(** X21: what the typing effect yields. The words that [typing_stream]
    yields, put together, are the text in the normal form of
    [clean_string] followed by one blank (nothing at all for a text
    without a word): every run of whitespace of the text, a line break
    with its indentation included, is one blank in the stream. The words
    joined by single blanks are exactly [clean_string] of the text, and
    no word is empty. *)
Theorem typing_stream_shows_clean_text :
  forall (text : string),
    join " " (StreamlitApp.py_split text) = clean_string text
    /\ Forall (fun word => word <> "") (StreamlitApp.py_split text)
    /\ join "" (StreamlitApp.typing_stream text)
       = match StreamlitApp.py_split text with
         | [] => ""
         | _ :: _ => clean_string text +:+ " "
         end.
Proof.
  intros text.
  assert (join " " (StreamlitApp.py_split text) = clean_string text) as E.
  { unfold clean_string, strip. rewrite lstrip_sub_spaces.
    symmetry. apply sub_spaces_words. }
  split; [exact E|]. split; [apply py_split_nonempty|].
  unfold StreamlitApp.typing_stream. rewrite <- E.
  destruct (StreamlitApp.py_split text) as [|x r]; [reflexivity|].
  now apply join_stream.
Qed.

(** A run of it on a formatted answer. *)
Example typing_stream_formatted_answer :
  StreamlitApp.typing_stream
    (AlexupportAgent.format_final_answer "It is durable." ["How long?"; "Which colour?"])
  = [ "It "; "is "; "durable. "; "Here "; "are "; "some "; "follow-up "; "questions ";
      "you "; "might "; "consider: "; "How "; "long?; "; "Which "; "colour? " ].
Proof. vm_compute. reflexivity. Qed.

(** X22: the product selector round trip. For a product list with
    pairwise different asins, the label shown for a product whose asin
    holds no blank leads back to that product: the text before the first
    " — " of the label is the asin, and the title looked up for it is the
    product's title. *)
Theorem option_label_round_trip :
  forall (products : list InformationRetriever.Product) (p : InformationRetriever.Product),
    NoDup (map InformationRetriever.asin products) ->
    p ∈ products ->
    mem_char " "%char (InformationRetriever.asin p) = false ->
    StreamlitApp.selected_asin (StreamlitApp.option_label p) = InformationRetriever.asin p
    /\ StreamlitApp.product_title products
         (StreamlitApp.selected_asin (StreamlitApp.option_label p))
       = Some (InformationRetriever.productTitle p).
Proof.
  intros products p Hnd Hp Hblank.
  assert (StreamlitApp.selected_asin (StreamlitApp.option_label p)
          = InformationRetriever.asin p) as E.
  { unfold StreamlitApp.selected_asin, StreamlitApp.option_label.
    apply before_first_app; [|discriminate].
    intros c Hc. unfold StreamlitApp.separator. cbn [startswith].
    destruct (N.eqb_spec c " "%char) as [->|]; [congruence|reflexivity]. }
  split; [exact E|]. rewrite E. clear E Hblank.
  induction products as [|x rest IH]; [now apply not_elem_of_nil in Hp|].
  cbn [StreamlitApp.product_title].
  apply elem_of_cons in Hp as [<-|Hp].
  - now rewrite str_eqb_refl.
  - cbn [map] in Hnd. apply NoDup_cons in Hnd as [Hx Hnd].
    destruct (str_eqb_spec (InformationRetriever.asin x) (InformationRetriever.asin p))
      as [Heq|_]; [|now apply IH].
    exfalso. apply Hx. rewrite Heq. now apply list_elem_of_fmap_2.
Qed.

Lemma option_label_round_trip_witness :
  let kettle := {| InformationRetriever.asin := "B001";
                   InformationRetriever.productTitle := VStr "Kettle — steel" |} in
  let toaster := {| InformationRetriever.asin := "B002";
                    InformationRetriever.productTitle := VStr "Toaster" |} in
  StreamlitApp.selected_asin (StreamlitApp.option_label kettle) = "B001"
  /\ StreamlitApp.product_title [toaster; kettle]
       (StreamlitApp.selected_asin (StreamlitApp.option_label kettle))
     = Some (VStr "Kettle — steel").
Proof.
  cbv zeta.
  apply (option_label_round_trip
           [ {| InformationRetriever.asin := "B002";
                InformationRetriever.productTitle := VStr "Toaster" |};
             {| InformationRetriever.asin := "B001";
                InformationRetriever.productTitle := VStr "Kettle — steel" |} ]
           {| InformationRetriever.asin := "B001";
              InformationRetriever.productTitle := VStr "Kettle — steel" |}).
  - cbn [map InformationRetriever.asin]. apply NoDup_cons. split.
    + intros H. apply list_elem_of_singleton in H. discriminate.
    + apply NoDup_singleton.
  - apply list_elem_of_further, list_elem_of_here.
  - reflexivity.
Defined.

(** The precondition matters: an asin that ends with " —" is cut short. *)
Example option_label_blank_asin :
  StreamlitApp.selected_asin
    (StreamlitApp.option_label
       {| InformationRetriever.asin := "X —";
          InformationRetriever.productTitle := VStr "Kettle" |})
  = "X".
Proof. vm_compute. reflexivity. Qed.

(** ** Answer generator, further *)

Section HistoryFacts.

Import AnswerGenerator.

Lemma history_collapsed (history : list Message) (q ctx : string) :
  exists rest,
    sub_spaces false (human_input (history_prefix history) q ctx)
    = String " "%char
        ("Here's the history of the current chat: " +:+ String "["%char rest).
Proof.
  eexists.
  match goal with
  | |- ?l = _ => let l' := eval vm_compute in l in change l with l'
  end.
  reflexivity.
Qed.

Lemma join_snoc (sep : string) (l : list string) (x : string) :
  l <> [] -> join sep (l ++ [x]) = join sep l +:+ sep +:+ x.
Proof.
  induction l as [|a r IH]; [contradiction|]. intros _.
  destruct r as [|b r]; [reflexivity|].
  change (join sep ((a :: b :: r) ++ [x])) with (a +:+ sep +:+ join sep ((b :: r) ++ [x])).
  rewrite IH by discriminate.
  change (join sep (a :: b :: r)) with (a +:+ sep +:+ join sep (b :: r)).
  now rewrite !append_assoc.
Qed.

End HistoryFacts.

(** X23: how the conversation enters the answer prompt. Whatever the
    history holds, the text of the human turn opens with "Here's the
    history of the current chat: [". Inside the brackets each turn is
    rendered as its type in capitals ("HUMAN", "AI" or "SYSTEM"), a colon
    and its content, and a new turn is added at the end after "; ". *)
Theorem history_in_answer_prompt :
  forall (history : list Message) (m : Message) (q : string) (ctx : Evidence),
    startswith "Here's the history of the current chat: ["
      (AnswerGenerator.complete_human_input history q ctx) = true
    /\ AnswerGenerator.history_string (history ++ [m])
       = (match history with
          | [] => ""
          | _ :: _ => AnswerGenerator.history_string history +:+ "; "
          end)
         +:+ upper (message_type m) +:+ ": " +:+ message_content m
    /\ upper (message_type m)
       = match m with
         | SystemMessage _ => "SYSTEM"
         | HumanMessage _ => "HUMAN"
         | AIMessage _ => "AI"
         end.
Proof.
  intros history m q ctx. split; [|split].
  - unfold AnswerGenerator.complete_human_input, clean_string, strip.
    destruct (history_collapsed history q (str_context ctx)) as [rest ->].
    change (lstrip (String " "%char
              ("Here's the history of the current chat: " +:+ String "["%char rest)))
      with ("Here's the history of the current chat: " +:+ String "["%char rest).
    apply (startswith_rstrip_app "Here's the history of the current chat: "
             "["%char rest).
    reflexivity.
  - unfold AnswerGenerator.history_string. rewrite map_app. cbn [map].
    destruct history as [|a r]; [reflexivity|].
    rewrite join_snoc by discriminate. now rewrite !append_assoc.
  - destruct m; reflexivity.
Qed.

(** ** Answer generator: the history in the prompt *)

Section PromptFacts.

Import AnswerGenerator.







End PromptFacts.


